(** * carla_spawn_objects: the spawn/teardown orchestration of [CarlaSpawnObjects]

    A shallow embedding of
    [src/carla_spawn_objects/src/carla_spawn_objects/carla_spawn_objects.py].

    The Python class talks to three ROS services and to the ROS logger and
    parameter server.  Those collaborators are interfaces here
    ([PyFloat], [PyRepr], [Backend]); the methods of the class are functions
    in a state-and-exception monad over the node's fields and a trace of
    every service call and logger call. *)

From Stdlib Require Import String Ascii List ZArith Bool Lia.
Import ListNotations.
Local Open Scope string_scope.
Local Open Scope Z_scope.

Set Implicit Arguments.
Set Warnings "-register-all".

(** ** Strings, as Python's [str] methods use them *)

(** [s.split(sep)] for a one-character separator: always at least one field. *)
Fixpoint split (sep : ascii) (s : string) : list string :=
  match s with
  | EmptyString => [EmptyString]
  | String c rest =>
      if Ascii.eqb c sep then EmptyString :: split sep rest
      else match split sep rest with
           | [] => [String c EmptyString]
           | field :: fields => String c field :: fields
           end
  end.

(** [needle in s] on strings. *)
Fixpoint contains (needle s : string) : bool :=
  String.prefix needle s
  || match s with
     | EmptyString => false
     | String _ rest => contains needle rest
     end.

(** [s in names] on a list of strings. *)
Definition str_in (s : string) (names : list string) : bool :=
  existsb (String.eqb s) names.

(** ** Floating point, kept abstract

    [math.radians], [tf.transformations.quaternion_from_euler] and [float()]
    are library code; the orchestration never inspects their results.  Where
    the library raises is part of the interface: an [int] too large for a
    double cannot be converted ([int_fits], [OverflowError]), and
    [quaternion_from_euler] takes [math.cos] and [math.sin] of the halved
    angles, which reject an infinite angle ([angle_ok], [ValueError]); the
    field [quaternion_from_euler] is consulted on accepted angles only. *)
Class PyFloat := {
  float : Type;
  float_of_Z : Z -> float;
  float_of_str : string -> option float;
  float_is_zero : float -> bool;
  radians : float -> float;
  quaternion_from_euler : float -> float -> float -> float * float * float * float;
  int_fits : Z -> bool;
  angle_ok : float -> bool;
  zero_angle_ok : angle_ok (radians (float_of_Z 0)) = true
}.

Section Model.

Context {F : PyFloat}.

(** ** Python values: what [json.loads] and [rospy.get_param] hand out *)
Inductive value :=
| VNone
| VBool (b : bool)
| VInt (n : Z)
| VFloat (x : float)
| VStr (s : string)
| VList (items : list value)
| VDict (entries : list (string * value)).

(** A [dict] with string keys, in insertion order. *)
Definition dict := list (string * value).

Fixpoint dict_get (k : string) (d : dict) : option value :=
  match d with
  | [] => None
  | (k', v) :: d' => if String.eqb k k' then Some v else dict_get k d'
  end.

Definition dict_mem (k : string) (d : dict) : bool :=
  match dict_get k d with Some _ => true | None => false end.

Definition dict_remove (k : string) (d : dict) : dict :=
  filter (fun kv => negb (String.eqb k (fst kv))) d.

(** [d[k] = v] *)
Fixpoint dict_set (k : string) (v : value) (d : dict) : dict :=
  match d with
  | [] => [(k, v)]
  | (k', v') :: d' =>
      if String.eqb k k' then (k, v) :: d' else (k', v') :: dict_set k v d'
  end.

(** Truthiness, as [if x] and [x and y] test it. *)
Definition truthy (v : value) : bool :=
  match v with
  | VNone => false
  | VBool b => b
  | VInt n => negb (n =? 0)
  | VFloat x => negb (float_is_zero x)
  | VStr s => negb (String.eqb s "")
  | VList l => match l with [] => false | _ => true end
  | VDict d => match d with [] => false | _ => true end
  end.

(** [x is True]: only the boolean singleton. *)
Definition is_True (v : value) : bool :=
  match v with VBool true => true | _ => false end.

(** [x == 0] *)
Definition eq_zero (v : value) : bool :=
  match v with
  | VInt n => n =? 0
  | VBool b => negb b
  | VFloat x => float_is_zero x
  | _ => false
  end.

(** [x == "literal"] *)
Definition eq_str (v : value) (s : string) : bool :=
  match v with VStr s' => String.eqb s' s | _ => false end.

(** [str(x)]: the text itself for a string, the printed form otherwise. *)
Class PyRepr := { repr : value -> string }.
Context {P : PyRepr}.

Definition str (v : value) : string :=
  match v with VStr s => s | _ => repr v end.

(** ** Exceptions and results *)
Inductive exn :=
| KeyError (key : string)
| ValueError (msg : string)
| TypeError
| AttributeError
| OverflowError
| NameError
| UnboundLocalError (variable : string)
| RuntimeError (msg : string)
| ServiceException (msg : string)
| SpawnRejected (error_string : string)
    (* Exception(response.error_string) *)
| ActorListMissing
    (* Exception("Parameter 'spawn_sensors_only' enabled, but
       'sensor.pseudo.actor_list' is not instantiated, ...") *)
| GlobalSensorsFailed (cause : exn)
    (* Exception("Setting up global sensors failed: {}") *)
| VehiclesFailed (cause : exn)
    (* Exception("Setting up vehicles failed: {}") *)
| VehicleSensorsFailed (vehicle_id : value) (cause : exn).
    (* Exception("Setting up sensors of already spawned vehicle {} failed
       with error: {}") *)

Definition is_KeyError (e : exn) : bool :=
  match e with KeyError _ => true | _ => false end.

(** [OutOfFuel] is not a Python outcome: it marks a run of the unbounded
    [while not player_spawned] loop cut off by the model's step budget. *)
Inductive Result (A : Type) :=
| Ok (a : A)
| Raise (e : exn)
| OutOfFuel.
Arguments Ok {A} a.
Arguments Raise {A} e.
Arguments OutOfFuel {A}.

Definition rbind {A B} (r : Result A) (k : A -> Result B) : Result B :=
  match r with
  | Ok a => k a
  | Raise e => Raise e
  | OutOfFuel => OutOfFuel
  end.

(** [v[k]] *)
Definition subscript (v : value) (k : string) : Result value :=
  match v with
  | VDict d => match dict_get k d with
               | Some x => Ok x
               | None => Raise (KeyError k)
               end
  | _ => Raise TypeError
  end.

Definition dict_subscript (d : dict) (k : string) : Result value :=
  subscript (VDict d) k.

(** [v.pop(k)] and [v.pop(k, default)]: the value and the dict left behind. *)
Definition pop (v : value) (k : string) (default : option value)
  : Result (value * dict) :=
  match v with
  | VDict d =>
      match dict_get k d, default with
      | Some x, _ => Ok (x, dict_remove k d)
      | None, Some x => Ok (x, d)
      | None, None => Raise (KeyError k)
      end
  | VList _ => Raise TypeError
  | _ => Raise AttributeError
  end.

(** [for x in v] *)
Definition iter (v : value) : Result (list value) :=
  match v with
  | VList l => Ok l
  | VDict d => Ok (map (fun kv => VStr (fst kv)) d)
  | VStr s => Ok (map (fun c => VStr (String c EmptyString)) (list_ascii_of_string s))
  | _ => Raise TypeError
  end.

(** ** Messages of geometry_msgs and carla_msgs *)
Record Pose := {
  position : value * value * value;
  orientation : float * float * float * float
}.

(** [Pose()]: every field zero. *)
Definition empty_Pose : Pose :=
  let z := float_of_Z 0 in
  {| position := (VFloat z, VFloat z, VFloat z); orientation := (z, z, z, z) |}.

Record SpawnObjectRequest := {
  req_type : value;
  req_id : value;
  attach_to : value;
  transform : Pose;
  random_pose : bool;
  attributes : list (string * string)
}.

Record SpawnObjectResponse := {
  id : Z;
  error_string : string
}.

(** [math.radians(x)]: [TypeError] for what is no real number,
    [OverflowError] for an [int] that no double can hold. *)
Definition math_radians (v : value) : Result float :=
  match v with
  | VInt n => if int_fits n then Ok (radians (float_of_Z n)) else Raise OverflowError
  | VFloat x => Ok (radians x)
  | VBool b => Ok (radians (float_of_Z (if b then 1 else 0)))
  | _ => Raise TypeError
  end.

(** The three angles are all ones [quaternion_from_euler] accepts. *)
Definition angles_ok (r p w : float) : bool := angle_ok r && angle_ok p && angle_ok w.

(** The three [math.radians] calls are the arguments of the call of
    [quaternion_from_euler], so they come first, left to right. *)
Definition create_spawn_point (x y z roll pitch yaw : value) : Result Pose :=
  rbind (math_radians roll) (fun r =>
  rbind (math_radians pitch) (fun p =>
  rbind (math_radians yaw) (fun w =>
  if angles_ok r p w
  then Ok {| position := (x, y, z); orientation := quaternion_from_euler r p w |}
  else Raise (ValueError "math domain error")))).

Definition py_float (s : string) : Result value :=
  match float_of_str s with
  | Some x => Ok (VFloat x)
  | None => Raise (ValueError s)
  end.

Definition check_spawn_point_param (spawn_point_parameter : value) : Result Pose :=
  match spawn_point_parameter with
  | VStr s =>
      match split "," s with
      | [c0; c1; c2; c3; c4; c5] =>
          rbind (py_float c0) (fun x =>
          rbind (py_float c1) (fun y =>
          rbind (py_float c2) (fun z =>
          rbind (py_float c3) (fun roll =>
          rbind (py_float c4) (fun pitch =>
          rbind (py_float c5) (fun yaw =>
          create_spawn_point x y z roll pitch yaw))))))
      | _ => Raise (ValueError s)
      end
  | _ => Raise AttributeError
  end.

(** ** The ROS logger *)
Inductive level := Info | Warn | WarnOnce | Err.

Inductive message :=
| IgnoredObject (type : value)
    (* "Object with type {} is not a vehicle, a walker or a sensor, ignoring" *)
| CarlaIdUnknown (vehicle_id : value)
    (* "Could not spawn sensors of vehicle {}, its carla ID is not known." *)
| SpawnPointFromParameters
| ParameterSpawnPointUnusable (vehicle_id : value) (cause : exn)
| SpawnPointFromConfiguration
| ConfigSpawnPointUnusable (vehicle_id : value) (cause : exn)
| SpawnPointRandom
| NoSensorsField
| SensorAttributeMissing (sensor_name : string) (cause : exn)
| SensorNotSpawned (sensor_name : string) (cause : exn)
| ServiceFailure (text : string).

(** ** The three services

    A call returns a response or raises [rospy.ServiceException]; the
    simulator behind the proxies is any deterministic state machine. *)
Inductive service_result (R : Type) :=
| Returned (r : R)
| Failed (msg : string).
Arguments Returned {R} r.
Arguments Failed {R} msg.

Class Backend := {
  backend_state : Type;
  spawn_object_service :
    backend_state -> SpawnObjectRequest -> backend_state * service_result SpawnObjectResponse;
  destroy_object_service :
    backend_state -> Z -> backend_state * service_result bool;
  get_actor_service :
    backend_state -> value -> Z -> backend_state * service_result Z
}.
Context {B : Backend}.

(** ** The node: its fields, the simulator, and what it has said and asked *)
Record Node := {
  players : list Z;
  vehicles_sensors : list (list Z);
  global_sensors : list Z;
  backend : backend_state;
  spawn_calls : list SpawnObjectRequest;
  destroy_calls : list Z;
  get_actor_calls : list value;
  logged : list (level * message)
}.

(** What the node reads and never writes: [~spawn_sensors_only], the parsed
    contents of [~objects_definition_file] ([None] when the path does not
    exist) and the private parameters of the parameter server. *)
Record Settings := {
  spawn_sensors_only : value;
  objects_definition : option value;
  private_param : string -> option value
}.

Definition M (A : Type) : Type := Node -> Result A * Node.

Definition ret {A} (a : A) : M A := fun n => (Ok a, n).
Definition raise {A} (e : exn) : M A := fun n => (Raise e, n).
Definition out_of_fuel {A} : M A := fun n => (OutOfFuel, n).
Definition lift {A} (r : Result A) : M A := fun n => (r, n).

Definition bind {A C} (m : M A) (k : A -> M C) : M C :=
  fun n =>
    match m n with
    | (Ok a, n') => k a n'
    | (Raise e, n') => (Raise e, n')
    | (OutOfFuel, n') => (OutOfFuel, n')
    end.

(** [try: m  except <caught> as e: handler e] *)
Definition try_except {A} (m : M A) (caught : exn -> bool) (handler : exn -> M A) : M A :=
  fun n =>
    match m n with
    | (Raise e, n') => if caught e then handler e n' else (Raise e, n')
    | other => other
    end.

Definition any_Exception (e : exn) : bool := true.

Notation "x <- m ;; k" := (bind m (fun x => k))
  (at level 61, m at next level, right associativity).
Notation "m ;;; k" := (bind m (fun _ => k))
  (at level 61, right associativity).

(** The node after the logger has been handed [entries]. *)
Definition add_logged (n : Node) (entries : list (level * message)) : Node :=
  {| players := players n; vehicles_sensors := vehicles_sensors n;
     global_sensors := global_sensors n; backend := backend n;
     spawn_calls := spawn_calls n; destroy_calls := destroy_calls n;
     get_actor_calls := get_actor_calls n;
     logged := logged n ++ entries |}.

Definition rospy_log (l : level) (m : message) : M unit :=
  fun n => (Ok tt, add_logged n [(l, m)]).

Definition call_spawn_object (req : SpawnObjectRequest) : M SpawnObjectResponse :=
  fun n =>
    let (b, r) := spawn_object_service (backend n) req in
    (match r with Returned resp => Ok resp | Failed msg => Raise (ServiceException msg) end,
     {| players := players n; vehicles_sensors := vehicles_sensors n;
        global_sensors := global_sensors n; backend := b;
        spawn_calls := spawn_calls n ++ [req]; destroy_calls := destroy_calls n;
        get_actor_calls := get_actor_calls n;
        logged := logged n |}).

Definition call_destroy_object (actor_id : Z) : M bool :=
  fun n =>
    let (b, r) := destroy_object_service (backend n) actor_id in
    (match r with Returned ok => Ok ok | Failed msg => Raise (ServiceException msg) end,
     {| players := players n; vehicles_sensors := vehicles_sensors n;
        global_sensors := global_sensors n; backend := b;
        spawn_calls := spawn_calls n; destroy_calls := destroy_calls n ++ [actor_id];
        get_actor_calls := get_actor_calls n;
        logged := logged n |}).

Definition call_get_actor (role : value) (actor_id : Z) : M Z :=
  fun n =>
    let (b, r) := get_actor_service (backend n) role actor_id in
    (match r with Returned i => Ok i | Failed msg => Raise (ServiceException msg) end,
     {| players := players n; vehicles_sensors := vehicles_sensors n;
        global_sensors := global_sensors n; backend := b;
        spawn_calls := spawn_calls n; destroy_calls := destroy_calls n;
        get_actor_calls := get_actor_calls n ++ [role];
        logged := logged n |}).

Definition set_players (l : list Z) : M unit :=
  fun n =>
    (Ok tt,
     {| players := l; vehicles_sensors := vehicles_sensors n;
        global_sensors := global_sensors n; backend := backend n;
        spawn_calls := spawn_calls n; destroy_calls := destroy_calls n;
        get_actor_calls := get_actor_calls n; logged := logged n |}).

Definition set_vehicles_sensors (l : list (list Z)) : M unit :=
  fun n =>
    (Ok tt,
     {| players := players n; vehicles_sensors := l;
        global_sensors := global_sensors n; backend := backend n;
        spawn_calls := spawn_calls n; destroy_calls := destroy_calls n;
        get_actor_calls := get_actor_calls n; logged := logged n |}).

Definition set_global_sensors (l : list Z) : M unit :=
  fun n =>
    (Ok tt,
     {| players := players n; vehicles_sensors := vehicles_sensors n;
        global_sensors := l; backend := backend n;
        spawn_calls := spawn_calls n; destroy_calls := destroy_calls n;
        get_actor_calls := get_actor_calls n; logged := logged n |}).

(** [self.vehicles_sensors.append(group)] *)
Definition append_vehicles_sensors (group : list Z) : M unit :=
  fun n => set_vehicles_sensors (vehicles_sensors n ++ [group]) n.

Definition gets {A} (field : Node -> A) : M A := fun n => (Ok (field n), n).

(** ** [setup_sensors] *)

(** The locals of the [for sensor_spec in sensors] loop that outlive one
    iteration.  [sensor_name = None] is the variable before its first
    assignment. *)
Record sensor_locals := {
  actors : list Z;
  sensor_names : list string;
  sensor_name : option string
}.

(** The float literal [0.0]. *)
Definition zero : value := VFloat (float_of_Z 0).

(** The six [spawn_point.pop(...)] arguments of [create_spawn_point], left to
    right, each pop shrinking the dict the next one sees. *)
Definition pop_spawn_point (spawn_point : value) (dx dy dz droll dpitch dyaw : option value)
  : Result Pose :=
  rbind (pop spawn_point "x" dx) (fun '(x, sp1) =>
  rbind (pop (VDict sp1) "y" dy) (fun '(y, sp2) =>
  rbind (pop (VDict sp2) "z" dz) (fun '(z, sp3) =>
  rbind (pop (VDict sp3) "roll" droll) (fun '(roll, sp4) =>
  rbind (pop (VDict sp4) "pitch" dpitch) (fun '(pitch, sp5) =>
  rbind (pop (VDict sp5) "yaw" dyaw) (fun '(yaw, _) =>
  create_spawn_point x y z roll pitch yaw)))))).

(** Lines 213-234: the transform of one sensor and the spec that is left. *)
Definition sensor_transform (sensor_spec : dict) (sensor_type : string)
    (attached_vehicle_id : value) : Result (Pose * dict) :=
  if eq_zero attached_vehicle_id && negb (contains "pseudo" sensor_type) then
    rbind (pop (VDict sensor_spec) "spawn_point" None) (fun '(spawn_point, spec) =>
    rbind (pop_spawn_point spawn_point None None None (Some zero) (Some zero) (Some zero))
          (fun pose => Ok (pose, spec)))
  else
    rbind (pop (VDict sensor_spec) "spawn_point" (Some (VInt 0))) (fun '(spawn_point, spec) =>
    if eq_zero spawn_point then
      rbind (create_spawn_point zero zero zero zero zero zero) (fun pose => Ok (pose, spec))
    else
      rbind (pop_spawn_point spawn_point (Some zero) (Some zero) (Some zero)
                             (Some zero) (Some zero) (Some zero))
            (fun pose => Ok (pose, spec))).

(** Lines 203-206: type, id, name and the spec without the two keys. *)
Definition name_sensor (sensor_spec : value) : Result (string * string * string * dict) :=
  rbind (pop sensor_spec "type" None) (fun '(ty, spec1) =>
  let sensor_type := str ty in
  rbind (pop (VDict spec1) "id" None) (fun '(i, spec2) =>
  let sensor_id := str i in
  Ok (sensor_type, sensor_id, sensor_type ++ "/" ++ sensor_id, spec2))).

(** Lines 203-245, everything before the service call.  The locals are
    returned next to the outcome because the assignments made before an
    exception stay visible to the handlers.  The [raise NameError(...)] of
    line 208 first evaluates [sensor_spec['id']] for its message. *)
Definition prepare_sensor (sensor_spec : value) (attached_vehicle_id : value)
    (L : sensor_locals) : sensor_locals * Result SpawnObjectRequest :=
  match name_sensor sensor_spec with
  | Ok (sensor_type, sensor_id, name, spec) =>
      if str_in name (sensor_names L) then
        ({| actors := actors L; sensor_names := sensor_names L; sensor_name := Some name |},
         rbind (subscript (VDict spec) "id") (fun _ => Raise NameError))
      else
        ({| actors := actors L; sensor_names := sensor_names L ++ [name];
            sensor_name := Some name |},
         rbind (sensor_transform spec sensor_type attached_vehicle_id) (fun '(pose, spec') =>
         Ok {| req_type := VStr sensor_type;
               req_id := VStr sensor_id;
               attach_to := attached_vehicle_id;
               transform := pose;
               random_pose := false;
               attributes := map (fun kv => (fst kv, str (snd kv))) spec' |}))
  | Raise e => (L, Raise e)
  | OutOfFuel => (L, OutOfFuel)
  end.

(** The two [except] clauses of lines 251-259; both format [sensor_name]. *)
Definition sensor_failed (L : sensor_locals) (e : exn) : M sensor_locals :=
  match sensor_name L with
  | None => raise (UnboundLocalError "sensor_name")
  | Some name =>
      rospy_log Err (if is_KeyError e then SensorAttributeMissing name e
                     else SensorNotSpawned name e) ;;;
      ret L
  end.

(** One iteration of the loop. *)
Definition spawn_sensor (sensor_spec : value) (attached_vehicle_id : value)
    (L : sensor_locals) : M sensor_locals :=
  let (L1, prepared) := prepare_sensor sensor_spec attached_vehicle_id L in
  try_except
    (spawn_object_request <- lift prepared ;;
     response <- call_spawn_object spawn_object_request ;;
     if id response =? -1 then raise (SpawnRejected (error_string response))
     else ret {| actors := actors L1 ++ [id response];
                 sensor_names := sensor_names L1;
                 sensor_name := sensor_name L1 |})
    any_Exception
    (sensor_failed L1).

Fixpoint sensors_loop (sensors : list value) (attached_vehicle_id : value)
    (L : sensor_locals) : M (list Z) :=
  match sensors with
  | [] => ret (actors L)
  | sensor_spec :: rest =>
      L' <- spawn_sensor sensor_spec attached_vehicle_id L ;;
      sensors_loop rest attached_vehicle_id L'
  end.

Definition setup_sensors (sensors : list value) (attached_vehicle_id : value) : M (list Z) :=
  sensors_loop sensors attached_vehicle_id
    {| actors := []; sensor_names := []; sensor_name := None |}.

(** [setup_sensors(v, ...)] for a Python value [v]: the [for] iterates it. *)
Definition setup_sensors_of (sensors : value) (attached_vehicle_id : value) : M (list Z) :=
  l <- lift (iter sensors) ;;
  setup_sensors l attached_vehicle_id.

(** ** [setup_vehicles] *)

(** [rospy.get_param(name, default)] *)
Definition get_param (settings : Settings) (name : string) (default : value) : value :=
  match private_param settings name with
  | Some v => v
  | None => default
  end.

Definition is_None (v : value) : bool :=
  match v with VNone => true | _ => false end.

(** Lines 142-150: the spawn point of the launch file, when one is set.
    Returns [spawn_point] and [spawn_param_used]. *)
Definition spawn_point_from_parameters (vehicle_id spawn_point_param : value)
  : M (option Pose * bool) :=
  if negb (is_None spawn_point_param) then
    try_except
      (spawn_point <- lift (check_spawn_point_param spawn_point_param) ;;
       rospy_log Info SpawnPointFromParameters ;;;
       ret (Some spawn_point, true))
      any_Exception
      (fun e => rospy_log Err (ParameterSpawnPointUnusable vehicle_id e) ;;;
                ret (None, false))
  else ret (None, false).

(** Lines 155-162: the six subscripts, left to right. *)
Definition config_spawn_point (vehicle : dict) : Result Pose :=
  let field k := rbind (dict_subscript vehicle "spawn_point") (fun sp => subscript sp k) in
  rbind (field "x") (fun x =>
  rbind (field "y") (fun y =>
  rbind (field "z") (fun z =>
  rbind (field "roll") (fun roll =>
  rbind (field "pitch") (fun pitch =>
  rbind (field "yaw") (fun yaw =>
  create_spawn_point x y z roll pitch yaw)))))).

(** Lines 152-166. *)
Definition spawn_point_from_config (vehicle : dict) (vehicle_id : value)
    (spawn_point : option Pose) (spawn_param_used : bool) : M (option Pose) :=
  if dict_mem "spawn_point" vehicle && negb spawn_param_used then
    try_except
      (pose <- lift (config_spawn_point vehicle) ;;
       rospy_log Info SpawnPointFromConfiguration ;;;
       ret (Some pose))
      is_KeyError
      (fun e => rospy_log Err (ConfigSpawnPointUnusable vehicle_id e) ;;;
                ret spawn_point)
  else ret spawn_point.

(** Lines 137-172: the pose of the request and its [random_pose] flag. *)
Definition resolve_spawn_point (settings : Settings) (vehicle : dict) (vehicle_id : value)
  : M (Pose * bool) :=
  parameter_name <- lift (match vehicle_id with
                          | VStr s => Ok ("~spawn_point_" ++ s)
                          | _ => Raise TypeError
                          end) ;;
  let spawn_point_param := get_param settings parameter_name VNone in
  from_param <- spawn_point_from_parameters vehicle_id spawn_point_param ;;
  spawn_point <- spawn_point_from_config vehicle vehicle_id (fst from_param) (snd from_param) ;;
  match spawn_point with
  | Some pose => ret (pose, false)
  | None =>
      rospy_log Info SpawnPointRandom ;;;
      ret (empty_Pose, true)
  end.

(** Lines 181-187: the sensors of a player that has just been spawned. *)
Definition setup_player_sensors (vehicle : dict) (player_id : Z) : M unit :=
  try_except
    (sensors <- lift (dict_subscript vehicle "sensors") ;;
     group <- setup_sensors_of sensors (VInt player_id) ;;
     append_vehicles_sensors group)
    is_KeyError
    (fun _ => rospy_log Warn NoSensorsField).

(** Lines 174-187: [while not player_spawned].  The loop has no bound of its
    own; [fuel] is the number of iterations the model is willing to follow. *)
Fixpoint spawn_player (fuel : nat) (spawn_object_request : SpawnObjectRequest)
    (vehicle : dict) (players : list Z) : M (list Z) :=
  match fuel with
  | O => out_of_fuel
  | S fuel' =>
      response <- call_spawn_object spawn_object_request ;;
      if negb (id response =? -1) then
        setup_player_sensors vehicle (id response) ;;;
        ret (players ++ [id response])%list
      else spawn_player fuel' spawn_object_request vehicle players
  end.

(** Lines 131-187: the [else] branch of the loop body. *)
Definition spawn_vehicle (fuel : nat) (settings : Settings) (vehicle : dict)
    (players : list Z) : M (list Z) :=
  type <- lift (dict_subscript vehicle "type") ;;
  vehicle_id <- lift (dict_subscript vehicle "id") ;;
  resolved <- resolve_spawn_point settings vehicle vehicle_id ;;
  spawn_player fuel
    {| req_type := type; req_id := vehicle_id; attach_to := VInt 0;
       transform := fst resolved; random_pose := snd resolved; attributes := [] |}
    vehicle players.

(** Lines 125-129. *)
Definition setup_spawned_vehicle_sensors (vehicle : dict) (carla_id : value) : M unit :=
  try_except
    (sensors <- lift (dict_subscript vehicle "sensors") ;;
     group <- setup_sensors_of sensors carla_id ;;
     append_vehicles_sensors group)
    any_Exception
    (fun e => vehicle_id <- lift (dict_subscript vehicle "id") ;;
              raise (VehicleSensorsFailed vehicle_id e)).

(** Lines 115-189.  The [except KeyError] of line 120 ends in [break]: the
    loop is left and [players] returned. *)
Fixpoint vehicles_loop (fuel : nat) (settings : Settings) (vehicles : list dict)
    (players : list Z) : M (list Z) :=
  match vehicles with
  | [] => ret players
  | vehicle :: rest =>
      if is_True (spawn_sensors_only settings) then
        match dict_subscript vehicle "carla_id" with
        | Ok carla_id =>
            setup_spawned_vehicle_sensors vehicle carla_id ;;;
            vehicles_loop fuel settings rest players
        | Raise (KeyError _) =>
            vehicle_id <- lift (dict_subscript vehicle "id") ;;
            rospy_log Err (CarlaIdUnknown vehicle_id) ;;;
            ret players
        | Raise e => raise e
        | OutOfFuel => out_of_fuel
        end
      else
        players' <- spawn_vehicle fuel settings vehicle players ;;
        vehicles_loop fuel settings rest players'
  end.

Definition setup_vehicles (fuel : nat) (settings : Settings) (vehicles : list dict)
  : M (list Z) :=
  vehicles_loop fuel settings vehicles [].

(** ** [spawn_objects] *)

(** Where the loop of lines 83-94 puts an entry. *)
Inductive route := ToGlobalSensors | ToVehicles | Ignored.

(** [actor["type"].split('.')[0]] *)
Definition type_prefix (type : string) : string := hd "" (split "." type).

(** Lines 84-94 as a function of the type and the parameter: the route and
    whether [found_sensor_actor_list] is set. *)
Definition classify_type (sensors_only : value) (type : string) : route * bool :=
  let actor_type := type_prefix type in
  if String.eqb type "sensor.pseudo.actor_list" && truthy sensors_only then
    (ToGlobalSensors, true)
  else if String.eqb actor_type "sensor" then (ToGlobalSensors, false)
  else if String.eqb actor_type "vehicle" || String.eqb actor_type "walker" then
    (ToVehicles, false)
  else (Ignored, false).

Record classified := {
  c_global_sensors : list dict;
  c_vehicles : list dict;
  found_sensor_actor_list : bool
}.

(** One iteration of lines 83-94. *)
Definition classify_actor (sensors_only : value) (actor : value) (acc : classified)
  : M classified :=
  match actor with
  | VDict d =>
      type <- lift (dict_subscript d "type") ;;
      match type with
      | VStr t =>
          match classify_type sensors_only t with
          | (ToGlobalSensors, found) =>
              ret {| c_global_sensors := c_global_sensors acc ++ [d];
                     c_vehicles := c_vehicles acc;
                     found_sensor_actor_list := found || found_sensor_actor_list acc |}
          | (ToVehicles, _) =>
              ret {| c_global_sensors := c_global_sensors acc;
                     c_vehicles := c_vehicles acc ++ [d];
                     found_sensor_actor_list := found_sensor_actor_list acc |}
          | (Ignored, _) =>
              rospy_log Warn (IgnoredObject type) ;;;
              ret acc
          end
      | _ => raise AttributeError
      end
  | _ => raise TypeError
  end.

Fixpoint classify (sensors_only : value) (actors : list value) (acc : classified)
  : M classified :=
  match actors with
  | [] => ret acc
  | actor :: rest =>
      acc' <- classify_actor sensors_only actor acc ;;
      classify sensors_only rest acc'
  end.

(** Lines 104-106: [vehicle["carla_id"] = self.get_actor_service(vehicle["id"], -1).id] *)
Fixpoint lookup_carla_ids (vehicles : list dict) : M (list dict) :=
  match vehicles with
  | [] => ret []
  | vehicle :: rest =>
      vehicle_id <- lift (dict_subscript vehicle "id") ;;
      carla_id <- call_get_actor vehicle_id (-1) ;;
      rest' <- lookup_carla_ids rest ;;
      ret (dict_set "carla_id" (VInt carla_id) vehicle :: rest')
  end.

Definition spawn_objects (fuel : nat) (settings : Settings) : M unit :=
  match objects_definition settings with
  | None => raise (RuntimeError "Could not read sensor-definition")
  | Some json_actors =>
      objects <- lift (subscript json_actors "objects") ;;
      entries <- lift (iter objects) ;;
      c <- classify (spawn_sensors_only settings) entries
             {| c_global_sensors := []; c_vehicles := [];
                found_sensor_actor_list := false |} ;;
      if is_True (spawn_sensors_only settings) && negb (found_sensor_actor_list c) then
        raise ActorListMissing
      else
        try_except
          (ids <- setup_sensors (map VDict (c_global_sensors c)) (VInt 0) ;;
           set_global_sensors ids)
          any_Exception
          (fun e => raise (GlobalSensorsFailed e)) ;;;
        vehicles <- (if is_True (spawn_sensors_only settings)
                     then lookup_carla_ids (c_vehicles c)
                     else ret (c_vehicles c)) ;;
        try_except
          (ids <- setup_vehicles fuel settings vehicles ;;
           set_players ids)
          any_Exception
          (fun e => raise (VehiclesFailed e))
  end.

(** ** [destroy] *)

Definition is_ServiceException (e : exn) : bool :=
  match e with ServiceException _ => true | _ => false end.

Definition exn_text (e : exn) : string :=
  match e with ServiceException msg => msg | _ => "" end.

(** One [for ... in ids] loop of [destroy]: request, [try], [except]. *)
Fixpoint destroy_each (ids : list Z) : M unit :=
  match ids with
  | [] => ret tt
  | actor_id :: rest =>
      try_except
        (call_destroy_object actor_id ;;; ret tt)
        is_ServiceException
        (fun e => rospy_log WarnOnce (ServiceFailure (exn_text e))) ;;;
      destroy_each rest
  end.

Fixpoint destroy_groups (groups : list (list Z)) : M unit :=
  match groups with
  | [] => ret tt
  | vehicle_sensors_id :: rest =>
      destroy_each vehicle_sensors_id ;;;
      destroy_groups rest
  end.

Definition destroy : M unit :=
  ids <- gets global_sensors ;;
  destroy_each ids ;;;
  set_global_sensors [] ;;;
  groups <- gets vehicles_sensors ;;
  destroy_groups groups ;;;
  set_vehicles_sensors [] ;;;
  ids <- gets players ;;
  destroy_each ids ;;;
  set_players [].

(** ** Vocabulary of the statements *)

(** The pose a runtime override stands for: exactly six comma-separated
    fields, each one accepted by [float()], with angles that
    [quaternion_from_euler] accepts. *)
Definition override_pose (spawn_point_param : value) : option Pose :=
  match spawn_point_param with
  | VStr s =>
      match map float_of_str (split "," s) with
      | [Some x; Some y; Some z; Some roll; Some pitch; Some yaw] =>
          if angles_ok (radians roll) (radians pitch) (radians yaw)
          then Some {| position := (VFloat x, VFloat y, VFloat z);
                       orientation :=
                         quaternion_from_euler (radians roll) (radians pitch)
                                               (radians yaw) |}
          else None
      | _ => None
      end
  | _ => None
  end.

(** The six fields of a complete [spawn_point] object of the config file. *)
Definition config_fields (vehicle : dict)
  : option (value * value * value * value * value * value) :=
  match dict_get "spawn_point" vehicle with
  | Some (VDict sp) =>
      match dict_get "x" sp, dict_get "y" sp, dict_get "z" sp,
            dict_get "roll" sp, dict_get "pitch" sp, dict_get "yaw" sp with
      | Some x, Some y, Some z, Some roll, Some pitch, Some yaw =>
          Some (x, y, z, roll, pitch, yaw)
      | _, _, _, _, _, _ => None
      end
  | _ => None
  end.

(** The pose the config file yields: the six fields present and accepted by
    [create_spawn_point]. *)
Definition config_pose (vehicle : dict) : option Pose :=
  match config_fields vehicle with
  | Some (x, y, z, roll, pitch, yaw) =>
      match create_spawn_point x y z roll pitch yaw with
      | Ok pose => Some pose
      | _ => None
      end
  | None => None
  end.


Definition spawn_point_keys : list string := ["x"; "y"; "z"; "roll"; "pitch"; "yaw"].

(** The parameter [resolve_spawn_point] reads for a vehicle id. *)
Definition spawn_point_param_of (settings : Settings) (vehicle_id : string) : value :=
  get_param settings ("~spawn_point_" ++ vehicle_id) VNone.

(** The routing rule of the specification, section 4.1: by the prefix of the
    type before the first ['.'] and by nothing else. *)
Definition route_of_type (type : string) : route :=
  let prefix := type_prefix type in
  if String.eqb prefix "sensor" then ToGlobalSensors
  else if String.eqb prefix "vehicle" || String.eqb prefix "walker" then ToVehicles
  else Ignored.

Definition route_eqb (a b : route) : bool :=
  match a, b with
  | ToGlobalSensors, ToGlobalSensors | ToVehicles, ToVehicles | Ignored, Ignored => true
  | _, _ => false
  end.

(** The entry has a string for a type. *)
Definition typed (d : dict) : Prop := exists t, dict_get "type" d = Some (VStr t).

Definition routed (r : route) (d : dict) : bool :=
  match dict_get "type" d with
  | Some (VStr t) => route_eqb (route_of_type t) r
  | _ => false
  end.

Definition is_actor_list (d : dict) : bool :=
  match dict_get "type" d with
  | Some type => eq_str type "sensor.pseudo.actor_list"
  | None => false
  end.

(** The warning of line 93 for an ignored entry. *)
Definition ignored_warning (d : dict) : level * message :=
  (Warn, IgnoredObject (match dict_get "type" d with Some type => type | None => VNone end)).

(** What one iteration does to the three outputs. *)
Definition classified_with (sensors_only : value) (d : dict) (acc : classified) : classified :=
  {| c_global_sensors :=
       c_global_sensors acc ++ (if routed ToGlobalSensors d then [d] else []);
     c_vehicles := c_vehicles acc ++ (if routed ToVehicles d then [d] else []);
     found_sensor_actor_list :=
       (is_actor_list d && truthy sensors_only) || found_sensor_actor_list acc |}.

Definition no_entries : classified :=
  {| c_global_sensors := []; c_vehicles := []; found_sensor_actor_list := false |}.

(** The [for] loop of [setup_sensors] up to, and without, its [return]. *)
Fixpoint sensors_fold (sensors : list value) (attached_vehicle_id : value)
    (L : sensor_locals) : M sensor_locals :=
  match sensors with
  | [] => ret L
  | sensor_spec :: rest =>
      L' <- spawn_sensor sensor_spec attached_vehicle_id L ;;
      sensors_fold rest attached_vehicle_id L'
  end.

(** The locals on entry to the loop. *)
Definition no_sensors : sensor_locals :=
  {| actors := []; sensor_names := []; sensor_name := None |}.

(** [type + "/" + id] of a sensor spec that has both keys. *)
Definition derived_name (sensor_spec : value) : option string :=
  match sensor_spec with
  | VDict d =>
      match dict_get "type" d, dict_get "id" d with
      | Some type, Some i => Some (str type ++ "/" ++ str i)
      | _, _ => None
      end
  | _ => None
  end.

(** The simulator after [k] spawn calls for [req] in a row, each answered
    with the sentinel id; [None] when one of them is answered otherwise. *)
Fixpoint rejected (k : nat) (req : SpawnObjectRequest) (b : backend_state)
  : option backend_state :=
  match k with
  | O => Some b
  | S k' =>
      match spawn_object_service b req with
      | (b', Returned response) =>
          if id response =? -1 then rejected k' req b' else None
      | (_, Failed _) => None
      end
  end.

(** The node after the spawn calls [reqs] have left the simulator in [b]. *)
Definition after_spawn_calls (n : Node) (b : backend_state)
    (reqs : list SpawnObjectRequest) : Node :=
  {| players := players n; vehicles_sensors := vehicles_sensors n;
     global_sensors := global_sensors n; backend := b;
     spawn_calls := spawn_calls n ++ reqs; destroy_calls := destroy_calls n;
     get_actor_calls := get_actor_calls n;
     logged := logged n |}.

(** The simulator after one destroy call for each of [ids], in order, and
    the text of every call that raised. *)
Fixpoint destroy_all (ids : list Z) (b : backend_state) : backend_state * list string :=
  match ids with
  | [] => (b, [])
  | actor_id :: rest =>
      let (b', r) := destroy_object_service b actor_id in
      let (b'', texts) := destroy_all rest b' in
      (b'', match r with Returned _ => texts | Failed text => text :: texts end)
  end.

Definition destroy_warning (text : string) : level * message :=
  (WarnOnce, ServiceFailure text).

(** The node after the destroy calls for [ids]. *)
Definition after_destroy_calls (n : Node) (ids : list Z) : Node :=
  {| players := players n; vehicles_sensors := vehicles_sensors n;
     global_sensors := global_sensors n;
     backend := fst (destroy_all ids (backend n));
     spawn_calls := spawn_calls n; destroy_calls := destroy_calls n ++ ids;
     get_actor_calls := get_actor_calls n;
     logged := logged n ++ map destroy_warning (snd (destroy_all ids (backend n))) |}.

(** The node with its three collections emptied. *)
Definition cleared (n : Node) : Node :=
  {| players := []; vehicles_sensors := []; global_sensors := [];
     backend := backend n; spawn_calls := spawn_calls n;
     destroy_calls := destroy_calls n; get_actor_calls := get_actor_calls n;
     logged := logged n |}.

(** Every id the node has recorded, in the order [destroy] visits them. *)
Definition recorded (n : Node) : list Z :=
  global_sensors n ++ concat (vehicles_sensors n) ++ players n.

(** The computation [m] never changes [field] of the node. *)
Definition keeps {X A} (field : Node -> X) (m : M A) : Prop :=
  forall n, field (snd (m n)) = field n.

(** The computation [m] never ends in the exception [bad]. *)
Definition never_raises {A} (bad : exn) (m : M A) : Prop :=
  forall n, fst (m n) <> Raise bad.

Definition with_sensors_only (settings : Settings) (p : value) : Settings :=
  {| spawn_sensors_only := p;
     objects_definition := objects_definition settings;
     private_param := private_param settings |}.

(** Every spawn request [m] makes satisfies [ok], and it makes at most
    [bound] of them. *)
Definition issues {A} (ok : SpawnObjectRequest -> Prop) (bound : nat) (m : M A) : Prop :=
  forall n, exists reqs,
    spawn_calls (snd (m n)) = (spawn_calls n ++ reqs)%list
    /\ Forall ok reqs
    /\ (length reqs <= bound)%nat.

(** A request of [setup_sensors] for the actor [attached_vehicle_id]. *)
Definition sensor_request (attached_vehicle_id : value) (req : SpawnObjectRequest) : Prop :=
  random_pose req = false /\ attach_to req = attached_vehicle_id.

(** What [math.radians] has against a value: nothing for a float, a bool or
    an int that a double can hold. *)
Definition conversion_error (v : value) : option exn :=
  match v with
  | VInt n => if int_fits n then None else Some OverflowError
  | VFloat _ | VBool _ => None
  | _ => Some TypeError
  end.

(** How many sensors a vehicle lists. *)
Definition sensor_count (vehicle : dict) : nat :=
  match dict_get "sensors" vehicle with
  | Some sensors => match iter sensors with Ok l => length l | _ => O end
  | None => O
  end.

(** A request of sensors-only mode: for a sensor attached to the [carla_id]
    of one of the vehicles. *)
Definition attached_to_one_of (vehicles : list dict) (req : SpawnObjectRequest) : Prop :=
  random_pose req = false
  /\ exists vehicle, In vehicle vehicles /\ dict_get "carla_id" vehicle = Some (attach_to req).

(** What the loop of lines 83-94 raises on an entry it cannot classify:
    no object, no [type], or a [type] that is no string. *)
Definition entry_error (actor : value) : option exn :=
  match actor with
  | VDict d =>
      match dict_get "type" d with
      | None => Some (KeyError "type")
      | Some (VStr _) => None
      | Some _ => Some AttributeError
      end
  | _ => Some TypeError
  end.

(** What lines 132-140 raise on a vehicle: no [type], no [id], or an [id]
    that is no string. *)
Definition vehicle_error (vehicle : dict) : option exn :=
  match dict_get "type" vehicle, dict_get "id" vehicle with
  | None, _ => Some (KeyError "type")
  | Some _, None => Some (KeyError "id")
  | Some _, Some (VStr _) => None
  | Some _, Some _ => Some TypeError
  end.

(** An id the simulator gave to an actor, not the sentinel of a failure. *)
Definition real_id (i : Z) : Prop := i <> -1.

(** The three collections hold real ids only. *)
Definition clean (n : Node) : Prop :=
  Forall real_id (global_sensors n)
  /\ Forall (Forall real_id) (vehicles_sensors n)
  /\ Forall real_id (players n).

(** [m] keeps the collections clean, and what it returns satisfies [Q]. *)
Definition yields {A} (Q : A -> Prop) (m : M A) : Prop :=
  forall n, clean n -> clean (snd (m n)) /\ forall a, fst (m n) = Ok a -> Q a.

(** The errors of line 121 in the log: "its carla ID is not known". *)
Definition is_CarlaIdUnknown (entry : level * message) : bool :=
  match entry with
  | (_, CarlaIdUnknown _) => true
  | _ => false
  end.

Definition unknown_id_errors (n : Node) : list (level * message) :=
  filter is_CarlaIdUnknown (logged n).

(** The vehicle carries a [carla_id]. *)
Definition has_carla_id (vehicle : dict) : Prop :=
  exists i, dict_get "carla_id" vehicle = Some (VInt i).

(** [m] leaves the three collections alone. *)
Definition ledger_kept {A} (m : M A) : Prop :=
  keeps global_sensors m /\ keeps vehicles_sensors m /\ keeps players m.

End Model.

Arguments Ok {F A} a.
Arguments Raise {F A} e.
Arguments OutOfFuel {F A}.
Arguments Returned {R} r.
Arguments Failed {R} msg.

(** ** A scripted simulator and integer-valued floats, for running the model *)
Module Scripted.

Definition digit (c : ascii) : option Z :=
  if Ascii.eqb c "0" then Some 0 else if Ascii.eqb c "1" then Some 1
  else if Ascii.eqb c "2" then Some 2 else if Ascii.eqb c "3" then Some 3
  else if Ascii.eqb c "4" then Some 4 else if Ascii.eqb c "5" then Some 5
  else if Ascii.eqb c "6" then Some 6 else if Ascii.eqb c "7" then Some 7
  else if Ascii.eqb c "8" then Some 8 else if Ascii.eqb c "9" then Some 9
  else None.

Fixpoint digits (s : string) (acc : Z) : option Z :=
  match s with
  | EmptyString => Some acc
  | String c rest =>
      match digit c with
      | Some d => digits rest (10 * acc + d)
      | None => None
      end
  end.

(** A decimal integer with an optional sign. *)
Definition int_of_str (s : string) : option Z :=
  match s with
  | EmptyString => None
  | String c rest =>
      if Ascii.eqb c "-"
      then match rest with
           | EmptyString => None
           | _ => option_map Z.opp (digits rest 0)
           end
      else digits s 0
  end.

(** The mock's infinity, and the bound of what a double can hold. *)
Definition huge : Z := 2 ^ 1024.

(** Whole numbers stand in for floats and angles pass through unchanged;
    ["inf"] reads as [huge], which is no angle and no [int] a double holds. *)
Definition floats : PyFloat :=
  {| float := Z;
     float_of_Z := fun n => n;
     float_of_str := fun s => if String.eqb s "inf" then Some huge else int_of_str s;
     float_is_zero := fun x => x =? 0;
     radians := fun x => x;
     quaternion_from_euler := fun ai aj ak => (ai, aj, ak, 1);
     int_fits := fun n => Z.log2 (Z.abs n) <? 1024;
     angle_ok := fun x => Z.log2 (Z.abs x) <? 1024;
     zero_angle_ok := eq_refl |}.

Definition printer : PyRepr (F := floats) :=
  {| repr := fun v =>
       match v with
       | VNone => "None"
       | VBool true => "True"
       | VBool false => "False"
       | _ => "?"
       end |}.

(** The [k]-th spawn call is answered with the [k]-th id of [spawn_ids]
    (and with the sentinel once the script is used up), a destroy call raises
    for the ids of [gone], and [get_actor] answers from [roles]. *)
Definition simulator (spawn_ids : list Z) (gone : list Z) (roles : list (string * Z))
  : Backend (F := floats) :=
  {| backend_state := nat;
     spawn_object_service := fun k _ =>
       (S k, Returned {| id := nth k spawn_ids (-1); error_string := "rejected" |});
     destroy_object_service := fun k actor_id =>
       (k, if existsb (Z.eqb actor_id) gone then Failed "service unavailable"
           else Returned true);
     get_actor_service := fun k role _ =>
       (k, match role with
           | VStr r =>
               match find (fun kv => String.eqb r (fst kv)) roles with
               | Some kv => Returned (snd kv)
               | None => Failed "actor not found"
               end
           | _ => Failed "actor not found"
           end) |}.

(** A node that has done nothing yet. *)
Definition fresh (spawn_ids gone : list Z) (roles : list (string * Z))
  : Node (B := simulator spawn_ids gone roles) :=
  @Build_Node floats (simulator spawn_ids gone roles) [] [] [] 0%nat [] [] [] [].

Definition no_parameters : string -> option (value (F := floats)) := fun _ => None.

(** The launch file sets [~spawn_point_ego_vehicle]. *)
Definition launch_parameters (text : string) : string -> option (value (F := floats)) :=
  fun name => if String.eqb name "~spawn_point_ego_vehicle" then Some (VStr text) else None.

Definition settings (mode : value (F := floats)) (objects : list (value (F := floats)))
    (parameters : string -> option (value (F := floats))) : Settings :=
  {| spawn_sensors_only := mode;
     objects_definition := Some (VDict [("objects", VList objects)]);
     private_param := parameters |}.

Definition num (x : Z) : value (F := floats) := @VFloat floats x.

Definition spawn_point (fields : list (string * Z)) : string * value (F := floats) :=
  ("spawn_point", VDict (map (fun kv : string * Z => (fst kv, num (snd kv))) fields)).

(** A vehicle without spawn point and without sensors. *)
Definition ego : dict (F := floats) :=
  [("type", VStr "vehicle.tesla.model3"); ("id", VStr "ego_vehicle")].

(** The same vehicle, its spawn point with x, y and z only. *)
Definition ego_xyz : dict (F := floats) :=
  (ego ++ [spawn_point [("x", 1); ("y", 2); ("z", 3)]])%list.

(** The same vehicle, its spawn point complete. *)
Definition ego_placed : dict (F := floats) :=
  (ego ++ [spawn_point [("x", 1); ("y", 2); ("z", 3);
                        ("roll", 0); ("pitch", 0); ("yaw", 90)]])%list.

Definition pose (x y z roll pitch yaw : Z) : Pose (F := floats) :=
  @Build_Pose floats (num x, num y, num z) (roll, pitch, yaw, 1).

Definition camera (role : string) : dict (F := floats) :=
  [("type", VStr "sensor.camera.rgb"); ("id", VStr role);
   spawn_point [("x", 2); ("y", 0); ("z", 2)]].

Definition lidar : dict (F := floats) :=
  [("type", VStr "sensor.lidar.ray_cast"); ("id", VStr "lidar");
   spawn_point [("x", 0); ("y", 0); ("z", 3)]].

Definition actor_list : dict (F := floats) :=
  [("type", VStr "sensor.pseudo.actor_list"); ("id", VStr "actor_list")].

Definition traffic_light : dict (F := floats) :=
  [("type", VStr "traffic.traffic_light"); ("id", VStr "light")].

(** The request of normal mode for [ego]: no pose, random placement. *)
Definition ego_request : SpawnObjectRequest (F := floats) :=
  {| req_type := VStr "vehicle.tesla.model3"; req_id := VStr "ego_vehicle";
     attach_to := VInt 0; transform := empty_Pose; random_pose := true;
     attributes := [] |}.

(** Two vehicles of a sensors-only run: the first has no [carla_id], the
    second is known to the simulator as actor 7 and carries a lidar. *)
Definition hero_unknown : dict (F := floats) :=
  [("type", VStr "vehicle.tesla.model3"); ("id", VStr "hero");
   ("sensors", VList [VDict lidar])].

Definition second_known : dict (F := floats) :=
  [("type", VStr "vehicle.audi.tt"); ("id", VStr "second");
   ("sensors", VList [VDict lidar]); ("carla_id", VInt 7)].

(** A camera without spawn point. *)
Definition rear_camera : dict (F := floats) :=
  [("type", VStr "sensor.camera.rgb"); ("id", VStr "rear")].

(** A pseudo sensor without spawn point, with one attribute. *)
Definition speedometer : dict (F := floats) :=
  [("type", VStr "sensor.pseudo.speedometer"); ("id", VStr "speedometer");
   ("reading_frequency", VStr "20")].

(** A sensor entry without [type]. *)
Definition nameless : dict (F := floats) := [("id", VStr "front")].

(** [ego] with one lidar, and a second vehicle whose only sensor is [nameless]. *)
Definition ego_with_lidar : dict (F := floats) :=
  (ego ++ [("sensors", VList [VDict lidar])])%list.

Definition broken : dict (F := floats) :=
  [("type", VStr "vehicle.audi.tt"); ("id", VStr "broken");
   ("sensors", VList [VDict nameless])].

(** [ego] with a complete spawn point whose pitch is a text, not a number. *)
Definition ego_text_pitch : dict (F := floats) :=
  (ego ++ [("spawn_point",
            VDict [("x", num 1); ("y", num 2); ("z", num 3);
                   ("roll", num 0); ("pitch", VStr "0"); ("yaw", num 90)])])%list.

(** A vehicle whose [id] is a number. *)
Definition numbered : dict (F := floats) :=
  [("type", VStr "vehicle.audi.tt"); ("id", VInt 7)].

End Scripted.

(** * Properties *)

Unset Implicit Arguments.

Section Properties.

Context {F : PyFloat} {P : PyRepr} {B : Backend}.

(** ** Dictionaries *)

Lemma dict_get_remove_same (k : string) (d : dict) :
  dict_get k (dict_remove k d) = None.
Proof.
  induction d as [|[k' v] d IH]; simpl; auto.
  destruct (String.eqb k k') eqn:E; simpl; auto.
  rewrite E. exact IH.
Qed.

Lemma dict_get_remove_other (k k' : string) (d : dict) :
  k <> k' -> dict_get k (dict_remove k' d) = dict_get k d.
Proof.
  intros Hne. induction d as [|[k0 v] d IH]; simpl; auto.
  destruct (String.eqb k' k0) eqn:E; simpl.
  - apply String.eqb_eq in E. subst k0.
    destruct (String.eqb k k') eqn:E'; auto.
    apply String.eqb_eq in E'. contradiction.
  - rewrite IH. reflexivity.
Qed.

(** ** Spawn points *)

Lemma create_spawn_point_floats (x y z roll pitch yaw : float) :
  create_spawn_point (VFloat x) (VFloat y) (VFloat z) (VFloat roll) (VFloat pitch) (VFloat yaw)
  = if angles_ok (radians roll) (radians pitch) (radians yaw)
    then Ok {| position := (VFloat x, VFloat y, VFloat z);
               orientation :=
                 quaternion_from_euler (radians roll) (radians pitch) (radians yaw) |}
    else Raise (ValueError "math domain error").
Proof. reflexivity. Qed.

(** [check_spawn_point_param] succeeds exactly on the overrides that
    [override_pose] accepts, with that pose. *)
Lemma check_spawn_point_param_usable (p : value) (pose : Pose) :
  override_pose p = Some pose -> check_spawn_point_param p = Ok pose.
Proof.
  unfold override_pose, check_spawn_point_param.
  destruct p; try discriminate.
  destruct (split "," s) as [|c0 [|c1 [|c2 [|c3 [|c4 [|c5 [|c6 l]]]]]]]; simpl; try discriminate;
    unfold py_float;
    repeat match goal with
           | |- context [float_of_str ?c] => destruct (float_of_str c); simpl; try discriminate
           end.
  rewrite create_spawn_point_floats.
  match goal with |- context [angles_ok ?r ?p ?w] => destruct (angles_ok r p w) end;
    [|discriminate].
  intros H; injection H as <-. reflexivity.
Qed.

Lemma check_spawn_point_param_unusable (p : value) :
  override_pose p = None -> exists e, check_spawn_point_param p = Raise e.
Proof.
  unfold override_pose, check_spawn_point_param.
  destruct p; try (intros _; eexists; reflexivity).
  destruct (split "," s) as [|c0 [|c1 [|c2 [|c3 [|c4 [|c5 [|c6 l]]]]]]]; simpl;
    try (intros _; eexists; reflexivity);
    unfold py_float;
    repeat match goal with
           | |- context [float_of_str ?c] =>
               destruct (float_of_str c); simpl; try (intros _; eexists; reflexivity)
           end.
  rewrite create_spawn_point_floats.
  match goal with |- context [angles_ok ?r ?p ?w] => destruct (angles_ok r p w) end;
    [discriminate | intros _; eexists; reflexivity].
Qed.


(** ** The log *)

Lemma add_logged_nil (n : Node) : add_logged n [] = n.
Proof. destruct n; unfold add_logged; simpl. rewrite app_nil_r. reflexivity. Qed.

Lemma add_logged_app (n : Node) (a b : list (level * message)) :
  add_logged (add_logged n a) b = add_logged n (a ++ b).
Proof. unfold add_logged; simpl. rewrite app_assoc. reflexivity. Qed.

Lemma spawn_point_from_parameters_usable (vid p : value) (pose : Pose) (n : Node) :
  override_pose p = Some pose ->
  spawn_point_from_parameters vid p n
  = (Ok (Some pose, true), add_logged n [(Info, SpawnPointFromParameters)]).
Proof.
  intros H. unfold spawn_point_from_parameters.
  destruct p; try discriminate. cbn [is_None negb].
  unfold try_except, bind, lift. rewrite (check_spawn_point_param_usable _ _ H). reflexivity.
Qed.

Lemma spawn_point_from_parameters_unusable (vid p : value) (n : Node) :
  override_pose p = None ->
  exists entries,
    spawn_point_from_parameters vid p n = (Ok (None, false), add_logged n entries).
Proof.
  intros H. unfold spawn_point_from_parameters.
  destruct (is_None p) eqn:E; cbn [negb].
  - exists []. rewrite add_logged_nil. reflexivity.
  - destruct (check_spawn_point_param_unusable _ H) as [e He].
    unfold try_except, bind, lift. rewrite He. simpl.
    eexists. reflexivity.
Qed.

Lemma config_spawn_point_complete (vehicle : dict) (x y z roll pitch yaw : value) :
  config_fields vehicle = Some (x, y, z, roll, pitch, yaw) ->
  dict_mem "spawn_point" vehicle = true
  /\ config_spawn_point vehicle = create_spawn_point x y z roll pitch yaw.
Proof.
  unfold config_fields, config_spawn_point, dict_mem, dict_subscript, subscript.
  destruct (dict_get "spawn_point" vehicle) as [[]|]; try discriminate.
  cbn [rbind].
  destruct (dict_get "x" entries); try discriminate.
  destruct (dict_get "y" entries); try discriminate.
  destruct (dict_get "z" entries); try discriminate.
  destruct (dict_get "roll" entries); try discriminate.
  destruct (dict_get "pitch" entries); try discriminate.
  destruct (dict_get "yaw" entries); try discriminate.
  intros H; injection H as <- <- <- <- <- <-. split; reflexivity.
Qed.

Lemma config_spawn_point_missing (vehicle sp : dict) :
  dict_get "spawn_point" vehicle = Some (VDict sp) ->
  config_fields vehicle = None ->
  exists k, In k spawn_point_keys /\ dict_get k sp = None
            /\ config_spawn_point vehicle = Raise (KeyError k).
Proof.
  unfold config_fields, config_spawn_point, dict_subscript, subscript, spawn_point_keys.
  intros ->. cbn [rbind].
  destruct (dict_get "x" sp) eqn:Ex; simpl; [|exists "x"; simpl; auto].
  destruct (dict_get "y" sp) eqn:Ey; simpl; [|exists "y"; simpl; auto].
  destruct (dict_get "z" sp) eqn:Ez; simpl; [|exists "z"; simpl; auto].
  destruct (dict_get "roll" sp) eqn:Er; simpl; [|exists "roll"; simpl; auto 7].
  destruct (dict_get "pitch" sp) eqn:Ep; simpl; [|exists "pitch"; simpl; auto 7].
  destruct (dict_get "yaw" sp) eqn:Ew; simpl; [|exists "yaw"; simpl; auto 8].
  discriminate.
Qed.


Lemma math_radians_raises (v : value) (e : exn) :
  math_radians v = Raise e -> e = TypeError \/ e = OverflowError.
Proof.
  unfold math_radians. destruct v; try (intros H; injection H as <-; auto).
  - destruct b; discriminate.
  - destruct (int_fits n); [discriminate | intros H; injection H as <-; auto].
  - discriminate.
Qed.

Lemma math_radians_returns (v : value) : math_radians v <> OutOfFuel.
Proof.
  unfold math_radians. destruct v; try discriminate. destruct (int_fits n); discriminate.
Qed.

(** What [create_spawn_point] raises: never a [KeyError]. *)
Lemma create_spawn_point_raises (x y z roll pitch yaw : value) (e : exn) :
  create_spawn_point x y z roll pitch yaw = Raise e ->
  e = TypeError \/ e = OverflowError \/ e = ValueError "math domain error".
Proof.
  unfold create_spawn_point.
  destruct (math_radians roll) as [r|e1|] eqn:E1; cbn [rbind];
    [|intros H; injection H as <-; destruct (math_radians_raises _ _ E1); auto
     |discriminate].
  destruct (math_radians pitch) as [q|e2|] eqn:E2; cbn [rbind];
    [|intros H; injection H as <-; destruct (math_radians_raises _ _ E2); auto
     |discriminate].
  destruct (math_radians yaw) as [w|e3|] eqn:E3; cbn [rbind];
    [|intros H; injection H as <-; destruct (math_radians_raises _ _ E3); auto
     |discriminate].
  destruct (angles_ok r q w); [discriminate|]. intros H; injection H as <-. auto.
Qed.

Lemma create_spawn_point_no_KeyError (x y z roll pitch yaw : value) (e : exn) :
  create_spawn_point x y z roll pitch yaw = Raise e -> is_KeyError e = false.
Proof.
  intros H. destruct (create_spawn_point_raises _ _ _ _ _ _ _ H) as [->|[->| ->]];
    reflexivity.
Qed.

(** ** [resolve_spawn_point]: the precedence chain *)

Section Resolve.

Variables (settings : Settings) (vehicle : dict) (vid : string) (n : Node).

Let p := spawn_point_param_of settings vid.
Let resolved := fst (resolve_spawn_point settings vehicle (VStr vid) n).

Lemma resolve_from_parameters (pose : Pose) :
  override_pose p = Some pose ->
  resolve_spawn_point settings vehicle (VStr vid) n
  = (Ok (pose, false), add_logged n [(Info, SpawnPointFromParameters)]).
Proof.
  intros H. unfold resolve_spawn_point, bind at 1 2, lift.
  fold (spawn_point_param_of settings vid). fold p.
  rewrite (spawn_point_from_parameters_usable _ _ _ n H). cbn [fst snd].
  unfold spawn_point_from_config. rewrite andb_false_r.
  reflexivity.
Qed.

Lemma resolve_from_config (x y z roll pitch yaw : value) :
  override_pose p = None ->
  config_fields vehicle = Some (x, y, z, roll, pitch, yaw) ->
  resolved = match create_spawn_point x y z roll pitch yaw with
             | Ok pose => Ok (pose, false)
             | Raise e => Raise e
             | OutOfFuel => OutOfFuel
             end.
Proof.
  intros Hp Hc. unfold resolved, resolve_spawn_point, bind at 1 2, lift.
  fold (spawn_point_param_of settings vid). fold p.
  destruct (spawn_point_from_parameters_unusable (VStr vid) _ n Hp) as [entries ->].
  destruct (config_spawn_point_complete _ _ _ _ _ _ _ Hc) as [Hm Hv].
  cbn [fst snd]. unfold spawn_point_from_config. rewrite Hm. cbn [negb andb].
  unfold try_except, bind, lift. rewrite Hv.
  destruct (create_spawn_point x y z roll pitch yaw) as [pose|e|] eqn:E; try reflexivity.
  rewrite (create_spawn_point_no_KeyError _ _ _ _ _ _ _ E). reflexivity.
Qed.

Lemma resolve_random :
  override_pose p = None ->
  (dict_get "spawn_point" vehicle = None
   \/ exists sp, dict_get "spawn_point" vehicle = Some (VDict sp)
                 /\ config_fields vehicle = None) ->
  resolved = Ok (empty_Pose, true).
Proof.
  intros Hp Hc. unfold resolved, resolve_spawn_point, bind at 1 2, lift.
  fold (spawn_point_param_of settings vid). fold p.
  destruct (spawn_point_from_parameters_unusable (VStr vid) _ n Hp) as [entries ->].
  cbn [fst snd]. unfold spawn_point_from_config, dict_mem.
  destruct Hc as [Hc | [sp [Hsp Hc]]].
  - rewrite Hc. reflexivity.
  - destruct (config_spawn_point_missing _ _ Hsp Hc) as [k [_ [_ Hk]]].
    rewrite Hsp. cbn [negb andb].
    unfold try_except, bind, lift. rewrite Hk. reflexivity.
Qed.

Lemma resolve_malformed (v : value) :
  override_pose p = None ->
  dict_get "spawn_point" vehicle = Some v ->
  (forall sp, v <> VDict sp) ->
  resolved = Raise TypeError.
Proof.
  intros Hp Hv Hd. unfold resolved, resolve_spawn_point, bind at 1 2, lift.
  fold (spawn_point_param_of settings vid). fold p.
  destruct (spawn_point_from_parameters_unusable (VStr vid) _ n Hp) as [entries ->].
  cbn [fst snd]. unfold spawn_point_from_config, dict_mem. rewrite Hv. cbn [negb andb].
  unfold try_except, bind, lift, config_spawn_point, dict_subscript, subscript.
  rewrite Hv. cbn [rbind].
  destruct v; try reflexivity. elim (Hd entries0). reflexivity.
Qed.


Lemma config_pose_fields (pose : Pose) :
  config_pose vehicle = Some pose ->
  exists x y z roll pitch yaw,
    config_fields vehicle = Some (x, y, z, roll, pitch, yaw)
    /\ create_spawn_point x y z roll pitch yaw = Ok pose.
Proof.
  unfold config_pose.
  destruct (config_fields vehicle) as [[[[[[x y] z] roll] pitch] yaw]|]; try discriminate.
  destruct (create_spawn_point x y z roll pitch yaw) eqn:E; try discriminate.
  intros H; injection H as <-. exists x, y, z, roll, pitch, yaw. auto.
Qed.

End Resolve.



(** ** Classification *)

Lemma classify_type_route (sensors_only : value) (t : string) :
  fst (classify_type sensors_only t) = route_of_type t.
Proof.
  unfold classify_type, route_of_type.
  destruct (String.eqb t "sensor.pseudo.actor_list") eqn:E.
  - apply String.eqb_eq in E. subst t.
    destruct (truthy sensors_only); reflexivity.
  - cbn [andb].
    destruct (String.eqb (type_prefix t) "sensor"); [reflexivity|].
    destruct (String.eqb (type_prefix t) "vehicle" || String.eqb (type_prefix t) "walker");
      reflexivity.
Qed.

Lemma classify_type_found (sensors_only : value) (t : string) :
  snd (classify_type sensors_only t)
  = String.eqb t "sensor.pseudo.actor_list" && truthy sensors_only.
Proof.
  unfold classify_type.
  destruct (String.eqb t "sensor.pseudo.actor_list" && truthy sensors_only); [reflexivity|].
  destruct (String.eqb (type_prefix t) "sensor"); [reflexivity|].
  destruct (String.eqb (type_prefix t) "vehicle" || String.eqb (type_prefix t) "walker");
    reflexivity.
Qed.

Lemma route_eqb_eq (a b : route) : route_eqb a b = true <-> a = b.
Proof. destruct a, b; simpl; split; congruence. Qed.

Lemma actor_list_route : route_of_type "sensor.pseudo.actor_list" = ToGlobalSensors.
Proof. vm_compute. reflexivity. Qed.

Lemma classify_actor_typed (sensors_only : value) (d : dict) (acc : classified) (n : Node) :
  typed d ->
  classify_actor sensors_only (VDict d) acc n
  = (Ok (classified_with sensors_only d acc),
     add_logged n (if routed Ignored d then [ignored_warning d] else [])).
Proof.
  intros [t Ht]. unfold classify_actor, classified_with, routed, is_actor_list, ignored_warning.
  unfold bind, lift, dict_subscript, subscript. rewrite Ht. cbn [eq_str].
  pose proof (classify_type_route sensors_only t) as Hr.
  pose proof (classify_type_found sensors_only t) as Hf.
  destruct (classify_type sensors_only t) as [r found]. cbn [fst snd] in Hr, Hf.
  subst r found.
  destruct (String.eqb t "sensor.pseudo.actor_list") eqn:E.
  - apply String.eqb_eq in E. subst t. rewrite actor_list_route.
    cbn [route_eqb andb orb]. unfold ret. rewrite add_logged_nil, app_nil_r. reflexivity.
  - cbn [andb orb].
    destruct (route_of_type t); cbn [route_eqb]; unfold ret, rospy_log, bind;
      rewrite ?app_nil_r, ?add_logged_nil; try reflexivity.
    destruct acc; reflexivity.
Qed.

Lemma classify_typed (sensors_only : value) (ds : list dict) :
  Forall typed ds ->
  forall (acc : classified) (n : Node),
    classify sensors_only (map VDict ds) acc n
    = (Ok {| c_global_sensors := c_global_sensors acc ++ filter (routed ToGlobalSensors) ds;
             c_vehicles := c_vehicles acc ++ filter (routed ToVehicles) ds;
             found_sensor_actor_list :=
               (existsb is_actor_list ds && truthy sensors_only)
               || found_sensor_actor_list acc |},
       add_logged n (map ignored_warning (filter (routed Ignored) ds))).
Proof.
  induction 1 as [|d ds Hd _ IH]; intros acc n.
  - cbn. unfold ret. rewrite add_logged_nil, !app_nil_r. destruct acc; reflexivity.
  - cbn [map classify]. unfold bind. rewrite (classify_actor_typed _ _ _ _ Hd).
    rewrite IH. unfold classified_with. cbn [c_global_sensors c_vehicles found_sensor_actor_list].
    rewrite add_logged_app. cbn [filter existsb].
    f_equal; [f_equal; f_equal|].
    + rewrite <- app_assoc. destruct (routed ToGlobalSensors d); reflexivity.
    + rewrite <- app_assoc. destruct (routed ToVehicles d); reflexivity.
    + destruct (is_actor_list d), (existsb is_actor_list ds), (truthy sensors_only),
        (found_sensor_actor_list acc); reflexivity.
    + destruct (routed Ignored d); reflexivity.
Qed.


(** C5. Every entry with a type string goes to exactly one of the global
    sensors, the vehicles, or the ignored entries (each of those with a
    warning), and where it goes is a function of the type string alone: the
    prefix before the first dot.  ["sensor.pseudo.actor_list"] has the prefix
    [sensor], so it is a global sensor whatever the mode. *)
Theorem classification_partitions_by_type (sensors_only : value) (ds : list dict) (n : Node) :
  Forall typed ds ->
  classify sensors_only (map VDict ds) no_entries n
  = (Ok {| c_global_sensors := filter (routed ToGlobalSensors) ds;
           c_vehicles := filter (routed ToVehicles) ds;
           found_sensor_actor_list := existsb is_actor_list ds && truthy sensors_only |},
     add_logged n (map ignored_warning (filter (routed Ignored) ds)))
  /\ (forall d, In d ds ->
        exists t, dict_get "type" d = Some (VStr t)
                  /\ forall r, routed r d = true <-> r = route_of_type t)
  /\ route_of_type "sensor.pseudo.actor_list" = ToGlobalSensors.
Proof.
  intros Hds. split; [|split].
  - rewrite (classify_typed sensors_only ds Hds). cbn. rewrite orb_false_r. reflexivity.
  - intros d Hd. rewrite Forall_forall in Hds. destruct (Hds d Hd) as [t Ht].
    exists t. split; [exact Ht|]. intros r. unfold routed. rewrite Ht.
    rewrite route_eqb_eq. split; congruence.
  - reflexivity.
Qed.

(** C6. With [spawn_sensors_only] set to [True] and no
    ["sensor.pseudo.actor_list"] among the entries, [spawn_objects] raises the
    validation error, and up to then nothing has been asked of the simulator:
    no spawn, no lookup, no destroy. *)
Theorem sensors_only_needs_actor_list (fuel : nat) (settings : Settings) (cfg : dict)
    (ds : list dict) (n : Node) :
  spawn_sensors_only settings = VBool true ->
  objects_definition settings = Some (VDict cfg) ->
  dict_get "objects" cfg = Some (VList (map VDict ds)) ->
  Forall typed ds ->
  existsb is_actor_list ds = false ->
  exists n',
    spawn_objects fuel settings n = (Raise ActorListMissing, n')
    /\ spawn_calls n' = spawn_calls n
    /\ get_actor_calls n' = get_actor_calls n
    /\ destroy_calls n' = destroy_calls n
    /\ backend n' = backend n.
Proof.
  intros Hso Hcfg Hobj Hds Hnone.
  exists (add_logged n (map ignored_warning (filter (routed Ignored) ds))).
  split; [|repeat split].
  unfold spawn_objects. rewrite Hcfg, Hso.
  unfold bind at 1, lift, subscript. rewrite Hobj.
  unfold bind at 1, iter.
  unfold bind at 1.
  rewrite (classify_typed (VBool true) ds Hds).
  cbn [found_sensor_actor_list is_True]. rewrite Hnone. reflexivity.
Qed.


(** ** Frames: what a computation leaves alone *)

Section Frames.

Context {X : Type} (field : Node -> X).

Lemma keeps_ret {A} (a : A) : keeps field (ret a).
Proof. intros n. reflexivity. Qed.

Lemma keeps_raise {A} (e : exn) : keeps field (raise (A := A) e).
Proof. intros n. reflexivity. Qed.

Lemma keeps_out_of_fuel {A} : keeps field (out_of_fuel (A := A)).
Proof. intros n. reflexivity. Qed.

Lemma keeps_lift {A} (r : Result A) : keeps field (lift r).
Proof. intros n. reflexivity. Qed.

Lemma keeps_gets {A} (f : Node -> A) : keeps field (gets f).
Proof. intros n. reflexivity. Qed.

Lemma keeps_bind {A C} (m : M A) (k : A -> M C) :
  keeps field m -> (forall a, keeps field (k a)) -> keeps field (bind m k).
Proof.
  intros Hm Hk n. unfold bind. specialize (Hm n).
  destruct (m n) as [[a|e|] n']; cbn [snd] in *; auto.
  rewrite (Hk a n'). exact Hm.
Qed.

Lemma keeps_try_except {A} (m : M A) (caught : exn -> bool) (handler : exn -> M A) :
  keeps field m -> (forall e, keeps field (handler e)) -> keeps field (try_except m caught handler).
Proof.
  intros Hm Hh n. unfold try_except. specialize (Hm n).
  destruct (m n) as [[a|e|] n']; cbn [snd] in *; auto.
  destruct (caught e); cbn [snd]; auto.
  rewrite (Hh e n'). exact Hm.
Qed.

Hypothesis field_add_logged : forall n entries, field (add_logged n entries) = field n.

Lemma keeps_rospy_log (l : level) (m : message) : keeps field (rospy_log l m).
Proof. intros n. apply field_add_logged. Qed.

Ltac frame :=
  repeat first
    [ apply keeps_ret | apply keeps_raise | apply keeps_lift | apply keeps_out_of_fuel
    | apply keeps_rospy_log | apply keeps_gets | assumption
    | apply keeps_bind | apply keeps_try_except | intro ].

Lemma keeps_classify (sensors_only : value) (entries : list value) (acc : classified) :
  keeps field (classify sensors_only entries acc).
Proof.
  revert acc. induction entries as [|actor entries IH]; intros acc; cbn [classify].
  - frame.
  - apply keeps_bind; [|exact IH].
    unfold classify_actor. destruct actor; try solve [frame].
    apply keeps_bind; [frame|]. intros type.
    destruct type; try solve [frame].
    destruct (classify_type sensors_only s) as [[] found]; frame.
Qed.

Lemma keeps_resolve_spawn_point (settings : Settings) (vehicle : dict) (vehicle_id : value) :
  keeps field (resolve_spawn_point settings vehicle vehicle_id).
Proof.
  unfold resolve_spawn_point. apply keeps_bind; [frame|]. intros name.
  apply keeps_bind.
  { unfold spawn_point_from_parameters.
    destruct (negb (is_None (get_param settings name VNone))); frame. }
  intros from_param. apply keeps_bind.
  { unfold spawn_point_from_config.
    destruct (dict_mem "spawn_point" vehicle && negb (snd from_param)); frame. }
  intros [pose|]; frame.
Qed.

Hypothesis keeps_call_spawn_object : forall req, keeps field (call_spawn_object req).
Hypothesis keeps_append_vehicles_sensors : forall group, keeps field (append_vehicles_sensors group).

Lemma keeps_spawn_sensor (sensor_spec attached : value) (L : sensor_locals) :
  keeps field (spawn_sensor sensor_spec attached L).
Proof.
  unfold spawn_sensor. destruct (prepare_sensor sensor_spec attached L) as [L1 prepared].
  apply keeps_try_except.
  - apply keeps_bind; [frame|]. intros req.
    apply keeps_bind; [apply keeps_call_spawn_object|]. intros response.
    destruct (id response =? -1); frame.
  - intros e. unfold sensor_failed. destruct (sensor_name L1); frame.
Qed.

Lemma keeps_sensors_loop (sensors : list value) (attached : value) (L : sensor_locals) :
  keeps field (sensors_loop sensors attached L).
Proof.
  revert L. induction sensors as [|s sensors IH]; intros L; cbn [sensors_loop].
  - frame.
  - apply keeps_bind; [apply keeps_spawn_sensor | exact IH].
Qed.

Lemma keeps_setup_sensors_of (sensors attached : value) :
  keeps field (setup_sensors_of sensors attached).
Proof.
  unfold setup_sensors_of, setup_sensors. apply keeps_bind; [frame|].
  intros l. apply keeps_sensors_loop.
Qed.

Lemma keeps_setup_player_sensors (vehicle : dict) (player_id : Z) :
  keeps field (setup_player_sensors vehicle player_id).
Proof.
  unfold setup_player_sensors. apply keeps_try_except; [|frame].
  apply keeps_bind; [frame|]. intros sensors.
  apply keeps_bind; [apply keeps_setup_sensors_of|]. frame; apply keeps_append_vehicles_sensors.
Qed.

Lemma keeps_spawn_player (fuel : nat) (req : SpawnObjectRequest) (vehicle : dict)
    (players : list Z) :
  keeps field (spawn_player fuel req vehicle players).
Proof.
  induction fuel as [|fuel IH]; cbn [spawn_player]; [frame|].
  apply keeps_bind; [apply keeps_call_spawn_object|]. intros response.
  destruct (negb (id response =? -1)); [|exact IH].
  apply keeps_bind; [apply keeps_setup_player_sensors|]. frame.
Qed.

Lemma keeps_spawn_vehicle (fuel : nat) (settings : Settings) (vehicle : dict)
    (players : list Z) :
  keeps field (spawn_vehicle fuel settings vehicle players).
Proof.
  unfold spawn_vehicle. apply keeps_bind; [frame|]. intros type.
  apply keeps_bind; [frame|]. intros vehicle_id.
  apply keeps_bind; [apply keeps_resolve_spawn_point|]. intros resolved.
  apply keeps_spawn_player.
Qed.

Lemma keeps_vehicles_loop (fuel : nat) (settings : Settings) (vehicles : list dict)
    (players : list Z) :
  keeps field (vehicles_loop fuel settings vehicles players).
Proof.
  revert players. induction vehicles as [|vehicle rest IH]; intros players;
    cbn [vehicles_loop]; [frame|].
  destruct (is_True (spawn_sensors_only settings)).
  - destruct (dict_subscript vehicle "carla_id") as [carla_id|[]|]; try solve [frame].
    apply keeps_bind; [|intros _; apply IH].
    unfold setup_spawned_vehicle_sensors. apply keeps_try_except; [|frame].
    apply keeps_bind; [frame|]. intros sensors.
    apply keeps_bind; [apply keeps_setup_sensors_of|]. frame; apply keeps_append_vehicles_sensors.
  - apply keeps_bind; [apply keeps_spawn_vehicle|]. intros players'. apply IH.
Qed.

End Frames.


(** ** Modes *)

Lemma keeps_get_actor_calls_spawn (req : SpawnObjectRequest) :
  keeps get_actor_calls (call_spawn_object req).
Proof.
  intros n. unfold call_spawn_object.
  destruct (spawn_object_service (backend n) req) as [b r]. reflexivity.
Qed.

Lemma is_True_eq (p : value) : is_True p = true <-> p = VBool true.
Proof.
  split; [|intros ->; reflexivity].
  destruct p as [| [] | | | | |]; try discriminate. reflexivity.
Qed.

(** The parameter decides the flag and nothing else of the classification. *)
Lemma classify_actor_any_mode (p q : value) (actor : value) (acc acc' : classified) (n : Node) :
  c_global_sensors acc = c_global_sensors acc' ->
  c_vehicles acc = c_vehicles acc' ->
  match classify_actor p actor acc n, classify_actor q actor acc' n with
  | (Ok c, n1), (Ok c', n2) =>
      c_global_sensors c = c_global_sensors c' /\ c_vehicles c = c_vehicles c' /\ n1 = n2
  | (Raise e, n1), (Raise e', n2) => e = e' /\ e <> ActorListMissing /\ n1 = n2
  | _, _ => False
  end.
Proof.
  intros Hg Hv. unfold classify_actor.
  destruct actor; try (cbn; repeat split; congruence).
  unfold bind, lift. destruct (dict_subscript entries "type") as [type|e|] eqn:E.
  - destruct type; try (cbn; repeat split; congruence).
    pose proof (classify_type_route p s) as Hp.
    pose proof (classify_type_route q s) as Hq.
    destruct (classify_type p s) as [r f], (classify_type q s) as [r' f'].
    cbn [fst] in Hp, Hq. subst r r'.
    destruct (route_of_type s); cbn; rewrite ?Hg, ?Hv; auto.
  - unfold dict_subscript, subscript in E. destruct (dict_get "type" entries); try discriminate.
    injection E as <-. cbn. repeat split; congruence.
  - unfold dict_subscript, subscript in E. destruct (dict_get "type" entries); discriminate.
Qed.

Lemma classify_any_mode (p q : value) (entries : list value) :
  forall (acc acc' : classified) (n : Node),
  c_global_sensors acc = c_global_sensors acc' ->
  c_vehicles acc = c_vehicles acc' ->
  match classify p entries acc n, classify q entries acc' n with
  | (Ok c, n1), (Ok c', n2) =>
      c_global_sensors c = c_global_sensors c' /\ c_vehicles c = c_vehicles c' /\ n1 = n2
  | (Raise e, n1), (Raise e', n2) => e = e' /\ e <> ActorListMissing /\ n1 = n2
  | _, _ => False
  end.
Proof.
  induction entries as [|actor entries IH]; intros acc acc' n Hg Hv; cbn [classify].
  - cbn. auto.
  - unfold bind. pose proof (classify_actor_any_mode p q actor acc acc' n Hg Hv) as Hs.
    destruct (classify_actor p actor acc n) as [[c|e|] n1],
             (classify_actor q actor acc' n) as [[c'|e'|] n2]; try contradiction.
    + destruct Hs as (Hg' & Hv' & <-). apply IH; assumption.
    + exact Hs.
Qed.

Lemma vehicles_loop_normal_mode (fuel : nat) (settings : Settings) (vehicles : list dict) :
  is_True (spawn_sensors_only settings) = false ->
  forall (players : list Z) (n : Node),
    vehicles_loop fuel settings vehicles players n
    = vehicles_loop fuel (with_sensors_only settings VNone) vehicles players n.
Proof.
  intros Hm. induction vehicles as [|vehicle rest IH]; intros players n; [reflexivity|].
  cbn [vehicles_loop]. rewrite Hm. cbn [with_sensors_only spawn_sensors_only is_True].
  unfold bind.
  change (spawn_vehicle fuel (with_sensors_only settings VNone) vehicle players n)
    with (spawn_vehicle fuel settings vehicle players n).
  destruct (spawn_vehicle fuel settings vehicle players n) as [[players'|e|] n']; try reflexivity.
  apply IH.
Qed.

Lemma bind_cong {A C} (m : M A) (k k' : A -> M C) (n : Node) :
  (forall a n', k a n' = k' a n') -> bind m k n = bind m k' n.
Proof.
  intros H. unfold bind. destruct (m n) as [[a|e|] n']; auto.
Qed.

Lemma bind_classify_any_mode {C} (p q : value) (entries : list value) (acc : classified)
    (k k' : classified -> M C) (n : Node) :
  (forall c c' n',
      c_global_sensors c = c_global_sensors c' -> c_vehicles c = c_vehicles c' ->
      k c n' = k' c' n') ->
  bind (classify p entries acc) k n = bind (classify q entries acc) k' n.
Proof.
  intros H. unfold bind.
  pose proof (classify_any_mode p q entries acc acc n eq_refl eq_refl) as Hc.
  destruct (classify p entries acc n) as [[c|e|] n1],
           (classify q entries acc n) as [[c'|e'|] n2]; try contradiction.
  - destruct Hc as (Hg & Hv & <-). apply H; assumption.
  - destruct Hc as (<- & _ & <-). reflexivity.
Qed.

Lemma spawn_objects_normal_mode (fuel : nat) (settings : Settings) (n : Node) :
  is_True (spawn_sensors_only settings) = false ->
  spawn_objects fuel settings n = spawn_objects fuel (with_sensors_only settings VNone) n.
Proof.
  intros Hm. unfold spawn_objects.
  cbn [with_sensors_only objects_definition spawn_sensors_only].
  destruct (objects_definition settings) as [json_actors|]; [|reflexivity].
  apply bind_cong; intros objects n0.
  apply bind_cong; intros entries n1.
  apply bind_classify_any_mode; intros c c' n2 Hg Hv.
  rewrite Hm. cbn [is_True andb]. rewrite Hg, Hv.
  apply bind_cong; intros _ n3.
  apply bind_cong; intros vehicles n4.
  unfold try_except, bind, setup_vehicles.
  rewrite (vehicles_loop_normal_mode fuel settings vehicles Hm).
  reflexivity.
Qed.

Lemma never_raises_bind {A C} (bad : exn) (m : M A) (k : A -> M C) :
  never_raises bad m -> (forall a, never_raises bad (k a)) -> never_raises bad (bind m k).
Proof.
  intros Hm Hk n. unfold bind. specialize (Hm n).
  destruct (m n) as [[a|e|] n']; cbn [fst] in *; [apply Hk | | discriminate].
  intros H. apply Hm. congruence.
Qed.

Lemma never_raises_wrapped {A} (bad : exn) (m : M A) (wrap : exn -> exn) :
  (forall e, wrap e <> bad) ->
  never_raises bad (try_except m any_Exception (fun e => raise (wrap e))).
Proof.
  intros Hw n. unfold try_except, any_Exception, raise.
  destruct (m n) as [[a|e|] n']; cbn [fst]; try discriminate.
  intros H. injection H as H. exact (Hw e H).
Qed.

Lemma never_raises_subscript (v : value) (k : string) :
  never_raises ActorListMissing (lift (subscript v k)).
Proof.
  intros n. unfold lift, subscript. cbn [fst].
  destruct v; try discriminate. destruct (dict_get k entries); discriminate.
Qed.

Lemma never_raises_iter (v : value) : never_raises ActorListMissing (lift (iter v)).
Proof. intros n. unfold lift, iter. cbn [fst]. destruct v; discriminate. Qed.

Lemma never_raises_classify (p : value) (entries : list value) (acc : classified) :
  never_raises ActorListMissing (classify p entries acc).
Proof.
  intros n. pose proof (classify_any_mode p p entries acc acc n eq_refl eq_refl) as Hc.
  destruct (classify p entries acc n) as [[c|e|] n1]; cbn [fst]; try discriminate.
  destruct Hc as (_ & Hne & _). congruence.
Qed.

Lemma spawn_objects_normal_mode_quiet (fuel : nat) (settings : Settings) (n : Node) :
  is_True (spawn_sensors_only settings) = false ->
  fst (spawn_objects fuel settings n) <> Raise ActorListMissing
  /\ get_actor_calls (snd (spawn_objects fuel settings n)) = get_actor_calls n.
Proof.
  intros Hm. split.
  - revert n. change (never_raises ActorListMissing (spawn_objects fuel settings)).
    unfold spawn_objects.
    destruct (objects_definition settings) as [json_actors|]; [|intros n; discriminate].
    apply never_raises_bind; [apply never_raises_subscript|]. intros objects.
    apply never_raises_bind; [apply never_raises_iter|]. intros entries.
    apply never_raises_bind; [apply never_raises_classify|]. intros c.
    rewrite Hm. cbn [andb].
    apply never_raises_bind; [apply never_raises_wrapped; discriminate|]. intros _.
    apply never_raises_bind; [intros n; discriminate|]. intros vehicles.
    apply never_raises_wrapped; discriminate.
  - revert n. change (keeps get_actor_calls (spawn_objects fuel settings)).
    unfold spawn_objects.
    destruct (objects_definition settings) as [json_actors|]; [|apply keeps_raise].
    apply keeps_bind; [apply keeps_lift|]. intros objects.
    apply keeps_bind; [apply keeps_lift|]. intros entries.
    apply keeps_bind; [apply keeps_classify; reflexivity|]. intros c.
    rewrite Hm. cbn [andb].
    apply keeps_bind.
    { apply keeps_try_except; [|intros e; apply keeps_raise].
      apply keeps_bind; [|intros ids n0; reflexivity].
      apply keeps_sensors_loop;
        [intros; reflexivity | apply keeps_get_actor_calls_spawn]. }
    intros _. apply keeps_bind; [apply keeps_ret|]. intros vehicles.
    apply keeps_try_except; [|intros e; apply keeps_raise].
    apply keeps_bind; [|intros ids n0; reflexivity].
    apply keeps_vehicles_loop;
      [intros; reflexivity | apply keeps_get_actor_calls_spawn | intros g n0; reflexivity].
Qed.

Lemma vehicles_loop_sensors_only (fuel : nat) (settings : Settings) (vehicles : list dict) :
  is_True (spawn_sensors_only settings) = true ->
  forall (players ps : list Z) (n n' : Node),
    vehicles_loop fuel settings vehicles players n = (Ok ps, n') -> ps = players.
Proof.
  intros Hm. induction vehicles as [|vehicle rest IH]; intros players ps n n'.
  - cbn. unfold ret. congruence.
  - cbn [vehicles_loop]. rewrite Hm.
    destruct (dict_subscript vehicle "carla_id") as [carla_id|e|].
    + unfold bind. destruct (setup_spawned_vehicle_sensors vehicle carla_id n) as [[u|e|] n1];
        try discriminate. apply IH.
    + destruct e; try (unfold raise; discriminate).
      unfold bind, lift, rospy_log, ret.
      destruct (dict_subscript vehicle "id"); try discriminate. congruence.
    + unfold out_of_fuel. discriminate.
Qed.



(** C10. The mode is the test [spawn_sensors_only is True].  With any other
    value of the parameter the run is the run of normal mode: the same as
    with the parameter unset, never the validation error, no lookup by role,
    and each vehicle spawned by [spawn_vehicle].  A value that is merely truthy
    still takes the actor-list branch of the classification and sets the flag.
    With [True] itself no player is spawned: [setup_vehicles] hands back the
    players it started from. *)
Theorem sensors_only_exactly_True (fuel : nat) (settings : Settings) (n : Node) :
  let p := spawn_sensors_only settings in
  (is_True p = true <-> p = VBool true)
  /\ (p <> VBool true ->
      spawn_objects fuel settings n = spawn_objects fuel (with_sensors_only settings VNone) n
      /\ fst (spawn_objects fuel settings n) <> Raise ActorListMissing
      /\ get_actor_calls (snd (spawn_objects fuel settings n)) = get_actor_calls n
      /\ forall vehicle rest players m,
           vehicles_loop fuel settings (vehicle :: rest) players m
           = bind (spawn_vehicle fuel settings vehicle players)
                  (fun players' => vehicles_loop fuel settings rest players') m)
  /\ (truthy p = true ->
      classify_type p "sensor.pseudo.actor_list" = (ToGlobalSensors, true))
  /\ (p = VBool true ->
      forall vehicles players ps m m',
        vehicles_loop fuel settings vehicles players m = (Ok ps, m') -> ps = players).
Proof.
  intros p. split; [apply is_True_eq|]. split; [|split].
  - intros Hp.
    assert (Hm : is_True p = false).
    { destruct (is_True p) eqn:E; [|reflexivity]. apply is_True_eq in E. contradiction. }
    split; [exact (spawn_objects_normal_mode fuel settings n Hm)|].
    destruct (spawn_objects_normal_mode_quiet fuel settings n Hm) as [H1 H2].
    split; [exact H1|]. split; [exact H2|].
    intros vehicle rest players m. cbn [vehicles_loop]. fold p. rewrite Hm. reflexivity.
  - intros Ht. unfold classify_type. rewrite Ht. reflexivity.
  - intros Hp vehicles players ps m m'.
    apply (vehicles_loop_sensors_only fuel settings vehicles).
    fold p. rewrite Hp. reflexivity.
Qed.


(** ** [setup_sensors] *)

Lemma str_in_In (s : string) (names : list string) :
  str_in s names = true <-> In s names.
Proof.
  unfold str_in. rewrite existsb_exists. split.
  - intros [x [Hx E]]. apply String.eqb_eq in E. subst x. exact Hx.
  - intros H. exists s. split; [exact H | apply String.eqb_refl].
Qed.

Lemma sensors_loop_fold (sensors : list value) (attached : value) :
  forall (L : sensor_locals) (n : Node),
    sensors_loop sensors attached L n
    = bind (sensors_fold sensors attached L) (fun L' => ret (actors L')) n.
Proof.
  induction sensors as [|s sensors IH]; intros L n; [reflexivity|].
  cbn [sensors_loop sensors_fold]. unfold bind at 1 2 3.
  destruct (spawn_sensor s attached L n) as [[L'|e|] n']; try reflexivity.
  apply IH.
Qed.

Lemma sensors_fold_app (pre post : list value) (attached : value) :
  forall (L : sensor_locals) (n : Node),
    sensors_fold (pre ++ post) attached L n
    = bind (sensors_fold pre attached L) (fun L' => sensors_fold post attached L') n.
Proof.
  induction pre as [|s pre IH]; intros L n; [reflexivity|].
  cbn [app sensors_fold]. unfold bind at 1 2 3.
  destruct (spawn_sensor s attached L n) as [[L'|e|] n']; try reflexivity.
  apply IH.
Qed.

Lemma name_sensor_derived (sensor_spec : value) (name : string) :
  derived_name sensor_spec = Some name ->
  exists type i spec,
    name_sensor sensor_spec = Ok (type, i, name, spec) /\ dict_get "id" spec = None.
Proof.
  unfold derived_name, name_sensor. destruct sensor_spec; try discriminate.
  destruct (dict_get "type" entries) as [type|] eqn:Et; try discriminate.
  destruct (dict_get "id" entries) as [i|] eqn:Ei; try discriminate.
  intros H; injection H as <-.
  unfold pop. rewrite Et. cbn [rbind].
  rewrite (dict_get_remove_other "id" "type" entries) by discriminate.
  rewrite Ei. cbn [rbind].
  eexists _, _, _. split; [reflexivity|]. apply dict_get_remove_same.
Qed.

Lemma name_sensor_Ok (sensor_spec : value) (type i name : string) (spec : dict) :
  name_sensor sensor_spec = Ok (type, i, name, spec) ->
  derived_name sensor_spec = Some name.
Proof.
  unfold derived_name, name_sensor, pop. destruct sensor_spec; try discriminate.
  destruct (dict_get "type" entries) as [ty|] eqn:Et; try discriminate. cbn [rbind].
  rewrite (dict_get_remove_other "id" "type" entries) by discriminate.
  destruct (dict_get "id" entries) as [iv|] eqn:Ei; try discriminate. cbn [rbind].
  intros H; injection H as <- <- <- <-. reflexivity.
Qed.

(** A sensor whose name is taken: no request, one error logged, the locals
    as they were but for [sensor_name]. *)
Lemma spawn_sensor_duplicate (sensor_spec attached : value) (name : string)
    (L : sensor_locals) (n : Node) :
  derived_name sensor_spec = Some name ->
  In name (sensor_names L) ->
  spawn_sensor sensor_spec attached L n
  = (Ok {| actors := actors L; sensor_names := sensor_names L; sensor_name := Some name |},
     add_logged n [(Err, SensorAttributeMissing name (KeyError "id"))]).
Proof.
  intros Hd Hin. destruct (name_sensor_derived _ _ Hd) as (type & i & spec & Hn & Hid).
  unfold spawn_sensor, prepare_sensor. rewrite Hn.
  apply str_in_In in Hin. rewrite Hin.
  unfold subscript. rewrite Hid. cbn [rbind].
  reflexivity.
Qed.

(** What an iteration that completes leaves in the locals. *)
Lemma spawn_sensor_locals (sensor_spec attached : value) (L L' : sensor_locals) (n n' : Node) :
  spawn_sensor sensor_spec attached L n = (Ok L', n') ->
  incl (sensor_names L) (sensor_names L')
  /\ (forall name, derived_name sensor_spec = Some name -> In name (sensor_names L'))
  /\ (exists more, actors L' = (actors L ++ more)%list).
Proof.
  unfold spawn_sensor, prepare_sensor.
  destruct (name_sensor sensor_spec) as [[[[type i] name] spec]|e|] eqn:En.
  - apply name_sensor_Ok in En.
    destruct (str_in name (sensor_names L)) eqn:Es.
    + unfold try_except, bind, lift.
      destruct (rbind (subscript (VDict spec) "id") _) as [req|e|]; cbn [sensor_name].
      * destruct (call_spawn_object req n) as [[resp|e|] n1]; cbn.
        -- destruct (id resp =? -1); cbn; unfold rospy_log, raise, ret; cbn;
             intros H; injection H as <- _; cbn.
           ++ split; [apply incl_refl|]. split; [|exists []; rewrite app_nil_r; reflexivity].
              intros nm Hnm. rewrite En in Hnm. injection Hnm as <-. apply str_in_In, Es.
           ++ split; [apply incl_refl|]. split; [|eexists; reflexivity].
              intros nm Hnm. rewrite En in Hnm. injection Hnm as <-. apply str_in_In, Es.
        -- unfold rospy_log, ret; cbn. intros H; injection H as <- _; cbn.
           split; [apply incl_refl|]. split; [|exists []; rewrite app_nil_r; reflexivity].
           intros nm Hnm. rewrite En in Hnm. injection Hnm as <-. apply str_in_In, Es.
        -- discriminate.
      * cbn. unfold bind, rospy_log, ret. intros H; injection H as <- _; cbn.
        split; [apply incl_refl|]. split; [|exists []; rewrite app_nil_r; reflexivity].
        intros nm Hnm. rewrite En in Hnm. injection Hnm as <-. apply str_in_In, Es.
      * discriminate.
    + unfold try_except, bind, lift.
      assert (Hin : In name (sensor_names L ++ [name])) by (apply in_or_app; right; left; reflexivity).
      destruct (rbind (sensor_transform spec type attached) _) as [req|e|]; cbn [sensor_name].
      * destruct (call_spawn_object req n) as [[resp|e|] n1]; cbn.
        -- destruct (id resp =? -1); cbn; unfold rospy_log, raise, ret; cbn;
             intros H; injection H as <- _; cbn.
           ++ split; [apply incl_appl, incl_refl|].
              split; [|exists []; rewrite app_nil_r; reflexivity].
              intros nm Hnm. rewrite En in Hnm. injection Hnm as <-. exact Hin.
           ++ split; [apply incl_appl, incl_refl|]. split; [|eexists; reflexivity].
              intros nm Hnm. rewrite En in Hnm. injection Hnm as <-. exact Hin.
        -- unfold rospy_log, ret; cbn. intros H; injection H as <- _; cbn.
           split; [apply incl_appl, incl_refl|].
           split; [|exists []; rewrite app_nil_r; reflexivity].
           intros nm Hnm. rewrite En in Hnm. injection Hnm as <-. exact Hin.
        -- discriminate.
      * cbn. unfold bind, rospy_log, ret. intros H; injection H as <- _; cbn.
        split; [apply incl_appl, incl_refl|].
        split; [|exists []; rewrite app_nil_r; reflexivity].
        intros nm Hnm. rewrite En in Hnm. injection Hnm as <-. exact Hin.
      * discriminate.
  - assert (Hd : derived_name sensor_spec = None).
    { destruct (derived_name sensor_spec) as [nm|] eqn:Ed; [|reflexivity].
      destruct (name_sensor_derived _ _ Ed) as (t & i & sp & Hn & _). congruence. }
    unfold try_except, bind, lift, any_Exception, sensor_failed.
    destruct (sensor_name L); unfold bind, rospy_log, ret, raise; [|discriminate].
    intros H; injection H as <- _.
    split; [apply incl_refl|]. split; [|exists []; rewrite app_nil_r; reflexivity].
    intros nm Hnm. congruence.
  - unfold try_except, bind, lift. discriminate.
Qed.

Lemma sensors_fold_locals (pre : list value) (attached : value) :
  forall (L L' : sensor_locals) (n n' : Node),
    sensors_fold pre attached L n = (Ok L', n') ->
    incl (sensor_names L) (sensor_names L')
    /\ (forall earlier name,
          In earlier pre -> derived_name earlier = Some name -> In name (sensor_names L'))
    /\ (exists more, actors L' = (actors L ++ more)%list).
Proof.
  induction pre as [|s pre IH]; intros L L' n n'.
  - cbn. unfold ret. intros H; injection H as <- _.
    split; [apply incl_refl|]. split; [intros ? ? []|].
    exists []. rewrite app_nil_r. reflexivity.
  - cbn [sensors_fold]. unfold bind.
    destruct (spawn_sensor s attached L n) as [[L1|e|] n1] eqn:Es; try discriminate.
    intros Hf. destruct (spawn_sensor_locals _ _ _ _ _ _ Es) as (Hi & Hn & [m1 Ha]).
    destruct (IH _ _ _ _ Hf) as (Hi' & Hn' & [m2 Ha']).
    split; [|split].
    + intros x Hx. apply Hi', Hi, Hx.
    + intros earlier name [<-|Hin] Hd.
      * apply Hi'. apply Hn. exact Hd.
      * exact (Hn' earlier name Hin Hd).
    + exists (m1 ++ m2)%list. rewrite Ha', Ha, app_assoc. reflexivity.
Qed.

Lemma sensors_loop_keeps_actors (post : list value) (attached : value) (L : sensor_locals)
    (n n' : Node) (ids : list Z) :
  sensors_loop post attached L n = (Ok ids, n') ->
  exists more, ids = (actors L ++ more)%list.
Proof.
  rewrite sensors_loop_fold. unfold bind.
  destruct (sensors_fold post attached L n) as [[L'|e|] n1] eqn:Ef; try discriminate.
  unfold ret. intros H; injection H as <- _.
  destruct (sensors_fold_locals _ _ _ _ _ _ Ef) as (_ & _ & Hm). exact Hm.
Qed.

(** The code before the service call is straight-line: it returns or raises. *)
Lemma rbind_returns {A C} (r : Result A) (k : A -> Result C) :
  r <> OutOfFuel -> (forall a, k a <> OutOfFuel) -> rbind r k <> OutOfFuel.
Proof. intros Hr Hk. destruct r; cbn [rbind]; [apply Hk | discriminate | contradiction]. Qed.

Lemma pop_returns (v : value) (k : string) (default : option value) :
  pop v k default <> OutOfFuel.
Proof.
  unfold pop. destruct v; try discriminate.
  destruct (dict_get k entries), default; discriminate.
Qed.

Lemma create_spawn_point_returns (x y z roll pitch yaw : value) :
  create_spawn_point x y z roll pitch yaw <> OutOfFuel.
Proof.
  unfold create_spawn_point.
  repeat (apply rbind_returns; [apply math_radians_returns | intros ?]).
  match goal with |- context [angles_ok ?r ?p ?w] => destruct (angles_ok r p w) end;
    discriminate.
Qed.

Lemma pop_spawn_point_returns (sp : value) (dx dy dz droll dpitch dyaw : option value) :
  pop_spawn_point sp dx dy dz droll dpitch dyaw <> OutOfFuel.
Proof.
  unfold pop_spawn_point.
  repeat (apply rbind_returns; [apply pop_returns | intros [? ?]]).
  apply create_spawn_point_returns.
Qed.

Lemma sensor_transform_returns (spec : dict) (sensor_type : string) (attached : value) :
  sensor_transform spec sensor_type attached <> OutOfFuel.
Proof.
  unfold sensor_transform.
  destruct (eq_zero attached && negb (contains "pseudo" sensor_type)).
  - apply rbind_returns; [apply pop_returns | intros [sp spec']].
    apply rbind_returns; [apply pop_spawn_point_returns | discriminate].
  - apply rbind_returns; [apply pop_returns | intros [sp spec']].
    destruct (eq_zero sp).
    + apply rbind_returns; [apply create_spawn_point_returns | discriminate].
    + apply rbind_returns; [apply pop_spawn_point_returns | discriminate].
Qed.

Lemma prepare_sensor_returns (sensor_spec attached : value) (L : sensor_locals) :
  snd (prepare_sensor sensor_spec attached L) <> OutOfFuel.
Proof.
  unfold prepare_sensor.
  destruct (name_sensor sensor_spec) as [[[[type i] name] spec]|e|] eqn:En.
  - destruct (str_in name (sensor_names L)); cbn [snd].
    + unfold subscript. destruct (dict_get "id" spec); discriminate.
    + apply rbind_returns; [apply sensor_transform_returns | intros [pose spec']; discriminate].
  - discriminate.
  - exfalso. revert En. unfold name_sensor.
    apply rbind_returns; [apply pop_returns | intros [ty spec1]].
    apply rbind_returns; [apply pop_returns | intros [i spec2]; discriminate].
Qed.

Lemma prepare_sensor_name (sensor_spec attached : value) (L : sensor_locals) (name : string) :
  sensor_name L = Some name ->
  exists name', sensor_name (fst (prepare_sensor sensor_spec attached L)) = Some name'.
Proof.
  intros HL. unfold prepare_sensor.
  destruct (name_sensor sensor_spec) as [[[[type i] nm] spec]|e|].
  - destruct (str_in nm (sensor_names L)); cbn; eauto.
  - cbn [fst]. eauto.
  - cbn [fst]. eauto.
Qed.

(** Once [sensor_name] is bound, an iteration always completes. *)
Lemma spawn_sensor_completes (sensor_spec attached : value) (L : sensor_locals)
    (name : string) (n : Node) :
  sensor_name L = Some name ->
  exists L' n' name',
    spawn_sensor sensor_spec attached L n = (Ok L', n') /\ sensor_name L' = Some name'.
Proof.
  intros HL. unfold spawn_sensor.
  pose proof (prepare_sensor_returns sensor_spec attached L) as Hr.
  destruct (prepare_sensor_name sensor_spec attached L name HL) as [name' Hn].
  destruct (prepare_sensor sensor_spec attached L) as [L1 prepared]. cbn [fst snd] in *.
  unfold try_except, bind, lift, any_Exception, sensor_failed.
  destruct prepared as [req|e|]; [| |contradiction].
  - destruct (call_spawn_object req n) as [[response|e|] n1] eqn:Ec.
    + destruct (id response =? -1).
      * unfold raise. rewrite Hn. unfold bind, rospy_log, ret. eauto.
      * unfold ret. eexists _, _, name'. split; [reflexivity|exact Hn].
    + rewrite Hn. unfold bind, rospy_log, ret. eauto.
    + exfalso. unfold call_spawn_object in Ec.
      destruct (spawn_object_service (backend n) req) as [b [r|msg]]; discriminate.
  - rewrite Hn. unfold bind, rospy_log, ret. eauto.
Qed.

Lemma sensors_loop_completes (sensors : list value) (attached : value) :
  forall (L : sensor_locals) (name : string) (n : Node),
    sensor_name L = Some name ->
    exists ids n', sensors_loop sensors attached L n = (Ok ids, n').
Proof.
  induction sensors as [|s sensors IH]; intros L name n HL; cbn [sensors_loop].
  - unfold ret. eauto.
  - destruct (spawn_sensor_completes s attached L name n HL) as (L' & n' & name' & Hs & HL').
    unfold bind. rewrite Hs. exact (IH L' name' n' HL').
Qed.

(** C7. When the loop of one [setup_sensors] call reaches a sensor whose
    [type + "/" + id] is that of an earlier sensor of the batch, the sensor is
    skipped: one error is logged, no request reaches the simulator, the ids
    collected so far stay, the loop goes on with the rest of the batch, and
    the call returns a list that starts with the ids collected so far. *)
Theorem duplicate_sensor_is_skipped (pre post : list value) (s attached : value)
    (name : string) (L : sensor_locals) (n n1 : Node) :
  sensors_fold pre attached no_sensors n = (Ok L, n1) ->
  derived_name s = Some name ->
  (exists earlier, In earlier pre /\ derived_name earlier = Some name) ->
  let L1 := {| actors := actors L; sensor_names := sensor_names L;
               sensor_name := Some name |} in
  let n2 := add_logged n1 [(Err, SensorAttributeMissing name (KeyError "id"))] in
  spawn_sensor s attached L n1 = (Ok L1, n2)
  /\ spawn_calls n2 = spawn_calls n1
  /\ backend n2 = backend n1
  /\ setup_sensors (pre ++ s :: post) attached n = sensors_loop post attached L1 n2
  /\ (exists ids n' more,
        setup_sensors (pre ++ s :: post) attached n = (Ok ids, n')
        /\ ids = (actors L ++ more)%list).
Proof.
  intros Hpre Hname [earlier [Hin Hearlier]] L1 n2.
  destruct (sensors_fold_locals _ _ _ _ _ _ Hpre) as (_ & Hnames & _).
  pose proof (Hnames earlier name Hin Hearlier) as Htaken.
  pose proof (spawn_sensor_duplicate s attached name L n1 Hname Htaken) as Hskip.
  assert (Hrun : setup_sensors (pre ++ s :: post) attached n
                 = sensors_loop post attached L1 n2).
  { unfold setup_sensors. fold no_sensors.
    rewrite !sensors_loop_fold. unfold bind at 1. rewrite sensors_fold_app.
    unfold bind at 1. rewrite Hpre. cbn [sensors_fold]. unfold bind at 1.
    rewrite Hskip. reflexivity. }
  split; [exact Hskip|]. split; [reflexivity|]. split; [reflexivity|].
  split; [exact Hrun|].
  destruct (sensors_loop_completes post attached L1 name n2 eq_refl) as (ids & n' & Hret).
  destruct (sensors_loop_keeps_actors post attached L1 n2 n' ids Hret) as [more Hmore].
  exists ids, n', more. split; [rewrite Hrun; exact Hret | exact Hmore].
Qed.


(** ** The retry loop *)

Lemma after_spawn_calls_app (n : Node) (b b' : backend_state)
    (reqs reqs' : list SpawnObjectRequest) :
  after_spawn_calls (after_spawn_calls n b reqs) b' reqs'
  = after_spawn_calls n b' (reqs ++ reqs').
Proof. unfold after_spawn_calls; cbn. rewrite app_assoc. reflexivity. Qed.

Lemma after_spawn_calls_nil (n : Node) : after_spawn_calls n (backend n) [] = n.
Proof. destruct n; unfold after_spawn_calls; cbn. rewrite app_nil_r. reflexivity. Qed.

Lemma call_spawn_object_returned (req : SpawnObjectRequest) (n : Node)
    (b : backend_state) (response : SpawnObjectResponse) :
  spawn_object_service (backend n) req = (b, Returned response) ->
  call_spawn_object req n = (Ok response, after_spawn_calls n b [req]).
Proof. intros H. unfold call_spawn_object. rewrite H. reflexivity. Qed.

(** While the simulator answers with the sentinel the loop keeps asking. *)
Lemma spawn_player_rejected (k : nat) (req : SpawnObjectRequest) (vehicle : dict)
    (players : list Z) :
  forall (fuel : nat) (n : Node) (b : backend_state),
    rejected k req (backend n) = Some b ->
    spawn_player (k + fuel) req vehicle players n
    = spawn_player fuel req vehicle players (after_spawn_calls n b (repeat req k)).
Proof.
  induction k as [|k IH]; intros fuel n b Hr.
  - cbn in Hr. injection Hr as <-. cbn [repeat plus]. rewrite after_spawn_calls_nil.
    reflexivity.
  - cbn [rejected] in Hr.
    destruct (spawn_object_service (backend n) req) as [b' [response|msg]] eqn:Es;
      try discriminate.
    destruct (id response =? -1) eqn:Ei; try discriminate.
    cbn [plus spawn_player]. unfold bind at 1.
    rewrite (call_spawn_object_returned req n b' response Es). rewrite Ei. cbn [negb].
    rewrite (IH fuel (after_spawn_calls n b' [req]) b Hr).
    rewrite after_spawn_calls_app. reflexivity.
Qed.

Lemma spawn_player_appends (fuel : nat) (req : SpawnObjectRequest) (vehicle : dict)
    (players : list Z) :
  forall (n m : Node) (ps : list Z),
    spawn_player fuel req vehicle players n = (Ok ps, m) ->
    exists i, i <> -1 /\ ps = (players ++ [i])%list.
Proof.
  induction fuel as [|fuel IH]; intros n m ps; cbn [spawn_player].
  - discriminate.
  - unfold bind at 1.
    destruct (call_spawn_object req n) as [[response|e|] n1]; try discriminate.
    destruct (id response =? -1) eqn:Ei; cbn [negb].
    + apply IH.
    + unfold bind, ret.
      destruct (setup_player_sensors vehicle (id response) n1) as [[u|e|] n2];
        try discriminate.
      intros H; injection H as <- _. exists (id response). split; [|reflexivity].
      apply Z.eqb_neq. exact Ei.
Qed.

Lemma vehicles_loop_appends (fuel : nat) (settings : Settings) (vehicles : list dict) :
  forall (players ps : list Z) (n m : Node),
    vehicles_loop fuel settings vehicles players n = (Ok ps, m) ->
    exists more, ps = (players ++ more)%list.
Proof.
  induction vehicles as [|vehicle rest IH]; intros players ps n m; cbn [vehicles_loop].
  - unfold ret. intros H; injection H as <- _. exists []. rewrite app_nil_r. reflexivity.
  - destruct (is_True (spawn_sensors_only settings)).
    + destruct (dict_subscript vehicle "carla_id") as [carla_id|e|].
      * unfold bind. destruct (setup_spawned_vehicle_sensors vehicle carla_id n) as [[u|e|] n1];
          try discriminate. apply IH.
      * destruct e; try (unfold raise; discriminate).
        unfold bind, lift, rospy_log, ret.
        destruct (dict_subscript vehicle "id"); try discriminate.
        intros H; injection H as <- _. exists []. rewrite app_nil_r. reflexivity.
      * unfold out_of_fuel. discriminate.
    + unfold bind at 1.
      destruct (spawn_vehicle fuel settings vehicle players n) as [[players'|e|] n1] eqn:Ev;
        try discriminate.
      intros Hl. destruct (IH _ _ _ _ Hl) as [more ->].
      unfold spawn_vehicle, bind, lift in Ev.
      destruct (dict_subscript vehicle "type"); try discriminate.
      destruct (dict_subscript vehicle "id"); try discriminate.
      destruct (resolve_spawn_point settings vehicle a0 n) as [[resolved|e|] n2]; try discriminate.
      destruct (spawn_player_appends _ _ _ _ _ _ _ Ev) as [i [_ ->]].
      exists (i :: more). rewrite <- app_assoc. reflexivity.
Qed.

(** C4. The loop of normal mode puts the same request to the simulator again
    and again for as long as the answer is the sentinel -1: after any number
    of rejected attempts it is still running, it has neither returned nor
    raised.  The first answer with another id ends it after exactly that many
    requests plus one, and that id is the one appended to [players], the list
    [setup_vehicles] returns. *)
Theorem spawn_retried_until_accepted (req : SpawnObjectRequest) (vehicle : dict)
    (players : list Z) (n : Node) :
  (forall attempts b,
      rejected attempts req (backend n) = Some b ->
      spawn_player attempts req vehicle players n
      = (OutOfFuel, after_spawn_calls n b (repeat req attempts)))
  /\ (forall k b1 b2 response fuel,
        rejected k req (backend n) = Some b1 ->
        spawn_object_service b1 req = (b2, Returned response) ->
        id response <> -1 ->
        (k < fuel)%nat ->
        spawn_player fuel req vehicle players n
        = bind (setup_player_sensors vehicle (id response))
               (fun _ => ret (players ++ [id response])%list)
               (after_spawn_calls n b2 (repeat req (S k)))
        /\ (forall ps m,
              spawn_player fuel req vehicle players n = (Ok ps, m) ->
              ps = (players ++ [id response])%list)
        /\ (forall settings rest ps m m',
              vehicles_loop fuel settings rest (players ++ [id response]) m = (Ok ps, m') ->
              exists more, ps = (players ++ id response :: more)%list)).
Proof.
  split.
  - intros attempts b Hr.
    rewrite <- (Nat.add_0_r attempts) at 1.
    rewrite (spawn_player_rejected attempts req vehicle players 0 n b Hr). reflexivity.
  - intros k b1 b2 response fuel Hr Hs Hid Hlt.
    assert (Hrun : spawn_player fuel req vehicle players n
                   = bind (setup_player_sensors vehicle (id response))
                          (fun _ => ret (players ++ [id response])%list)
                          (after_spawn_calls n b2 (repeat req (S k)))).
    { replace fuel with (k + S (fuel - S k))%nat by lia.
      rewrite (spawn_player_rejected k req vehicle players _ n b1 Hr).
      cbn [spawn_player]. unfold bind at 1.
      rewrite (call_spawn_object_returned req (after_spawn_calls n b1 (repeat req k))
                 b2 response Hs).
      apply Z.eqb_neq in Hid. rewrite Hid. cbn [negb].
      rewrite after_spawn_calls_app, <- repeat_cons. reflexivity. }
    split; [exact Hrun|]. split.
    + intros ps m. rewrite Hrun. unfold bind, ret.
      destruct (setup_player_sensors vehicle (id response) _) as [[u|e|] n2];
        try discriminate.
      intros H; injection H as <- _. reflexivity.
    + intros settings rest ps m m' Hl.
      destruct (vehicles_loop_appends fuel settings rest _ _ _ _ Hl) as [more ->].
      exists more. rewrite <- app_assoc. reflexivity.
Qed.


(** ** [destroy] *)

Lemma destroy_all_app (a b : list Z) (s : backend_state) :
  destroy_all (a ++ b) s
  = (fst (destroy_all b (fst (destroy_all a s))),
     snd (destroy_all a s) ++ snd (destroy_all b (fst (destroy_all a s))))%list.
Proof.
  revert s. induction a as [|i a IH]; intros s; cbn [app destroy_all].
  - cbn. destruct (destroy_all b s); reflexivity.
  - destruct (destroy_object_service s i) as [s' r]. rewrite IH.
    destruct (destroy_all a s') as [s'' texts]. cbn [fst snd].
    destruct r; reflexivity.
Qed.

Lemma after_destroy_calls_nil (n : Node) : after_destroy_calls n [] = n.
Proof.
  destruct n; unfold after_destroy_calls; cbn. rewrite !app_nil_r. reflexivity.
Qed.

Lemma after_destroy_calls_app (n : Node) (a b : list Z) :
  after_destroy_calls (after_destroy_calls n a) b = after_destroy_calls n (a ++ b).
Proof.
  unfold after_destroy_calls; cbn. rewrite destroy_all_app. cbn [fst snd].
  rewrite map_app, !app_assoc. reflexivity.
Qed.

(** One destroy loop: a call for every id, a warning for every call that
    raised, and never an exception. *)
Lemma destroy_each_spec (ids : list Z) :
  forall n, destroy_each ids n = (Ok tt, after_destroy_calls n ids).
Proof.
  induction ids as [|i ids IH]; intros n; cbn [destroy_each].
  - unfold ret. rewrite after_destroy_calls_nil. reflexivity.
  - unfold bind at 1, try_except, bind at 1, call_destroy_object.
    change (i :: ids) with ([i] ++ ids)%list. rewrite <- after_destroy_calls_app.
    unfold after_destroy_calls at 2. cbn [destroy_all].
    destruct (destroy_object_service (backend n) i) as [b [ok|text]]; cbn.
    + rewrite IH. unfold ret. f_equal. f_equal.
      unfold after_destroy_calls; cbn. rewrite app_nil_r. reflexivity.
    + rewrite IH. reflexivity.
Qed.

Lemma destroy_groups_spec (groups : list (list Z)) :
  forall n, destroy_groups groups n = (Ok tt, after_destroy_calls n (concat groups)).
Proof.
  induction groups as [|g groups IH]; intros n; cbn [destroy_groups concat].
  - unfold ret. rewrite after_destroy_calls_nil. reflexivity.
  - unfold bind. rewrite destroy_each_spec, IH, after_destroy_calls_app. reflexivity.
Qed.

Lemma destroy_spec (n : Node) :
  destroy n = (Ok tt, cleared (after_destroy_calls n (recorded n))).
Proof.
  unfold destroy, recorded.
  unfold bind at 1, gets. unfold bind at 1. rewrite destroy_each_spec.
  unfold bind at 1, set_global_sensors. unfold bind at 1. cbn [vehicles_sensors].
  unfold bind at 1. rewrite destroy_groups_spec.
  unfold bind at 1, set_vehicles_sensors. unfold bind at 1. cbn [players].
  unfold bind at 1. rewrite destroy_each_spec.
  unfold set_players. f_equal.
  rewrite <- !after_destroy_calls_app.
  unfold cleared, after_destroy_calls; cbn. reflexivity.
Qed.

(** C8. [destroy] asks the simulator to destroy every recorded id, once and
    in this order: the global sensors, then the sensor groups of the vehicles
    (groups in the order the vehicles were set up, ids in spawn order within
    a group), then the players.  A call that raises is caught and handed to
    [logwarn_once], and the calls after it are still made; [destroy] itself
    never raises.  Afterwards the three collections are empty. *)
Theorem destroy_in_order (n : Node) :
  exists n',
    destroy n = (Ok tt, n')
    /\ destroy_calls n'
       = (destroy_calls n ++ global_sensors n ++ concat (vehicles_sensors n) ++ players n)%list
    /\ logged n'
       = (logged n ++ map destroy_warning (snd (destroy_all (recorded n) (backend n))))%list
    /\ backend n' = fst (destroy_all (recorded n) (backend n))
    /\ global_sensors n' = [] /\ vehicles_sensors n' = [] /\ players n' = []
    /\ spawn_calls n' = spawn_calls n.
Proof.
  exists (cleared (after_destroy_calls n (recorded n))).
  split; [apply destroy_spec|]. repeat split.
Qed.

Lemma destroy_nothing (n : Node) :
  global_sensors n = [] -> vehicles_sensors n = [] -> players n = [] ->
  destroy n = (Ok tt, n).
Proof.
  intros Hg Hv Hp. rewrite destroy_spec. unfold recorded. rewrite Hg, Hv, Hp. cbn [concat app].
  rewrite after_destroy_calls_nil. destruct n; cbn in *. subst. reflexivity.
Qed.

(** C9. A second [destroy] right after a first one does nothing: it returns
    normally and leaves the node, and with it the list of destroy requests
    made so far, exactly as the first call left it. *)
Theorem destroy_twice (n : Node) :
  destroy (snd (destroy n)) = (Ok tt, snd (destroy n))
  /\ destroy_calls (snd (destroy (snd (destroy n)))) = destroy_calls (snd (destroy n)).
Proof.
  assert (H : destroy (snd (destroy n)) = (Ok tt, snd (destroy n))).
  { rewrite (destroy_spec n). cbn [snd]. apply destroy_nothing; reflexivity. }
  split; [exact H|]. rewrite H. reflexivity.
Qed.

(** ** Spawn requests: which ones, and how many *)

Section Issues.

Variable ok : SpawnObjectRequest -> Prop.

Lemma issues_quiet {A} (m : M A) (bound : nat) :
  keeps spawn_calls m -> issues ok bound m.
Proof.
  intros H n. exists []. rewrite app_nil_r. split; [apply H|]. split; [constructor|].
  apply Nat.le_0_l.
Qed.

Lemma issues_more {A} (m : M A) (a b : nat) :
  (a <= b)%nat -> issues ok a m -> issues ok b m.
Proof.
  intros Hab H n. destruct (H n) as (reqs & E & Hok & Hlen).
  exists reqs. repeat split; auto. lia.
Qed.

Lemma issues_bind {A C} (m : M A) (k : A -> M C) (a b : nat) :
  issues ok a m -> (forall x, issues ok b (k x)) -> issues ok (a + b) (bind m k).
Proof.
  intros Hm Hk n. unfold bind. destruct (Hm n) as (reqs & E & Hok & Hlen).
  destruct (m n) as [[x|e|] n1]; cbn [snd] in *.
  - destruct (Hk x n1) as (reqs' & E' & Hok' & Hlen').
    exists (reqs ++ reqs')%list. rewrite E', E, app_assoc. split; [reflexivity|].
    split; [apply Forall_app; auto|]. rewrite length_app. lia.
  - exists reqs. repeat split; auto. lia.
  - exists reqs. repeat split; auto. lia.
Qed.

Lemma issues_try_except {A} (m : M A) (caught : exn -> bool) (handler : exn -> M A)
    (a b : nat) :
  issues ok a m -> (forall e, issues ok b (handler e)) ->
  issues ok (a + b) (try_except m caught handler).
Proof.
  intros Hm Hh n. unfold try_except. destruct (Hm n) as (reqs & E & Hok & Hlen).
  destruct (m n) as [[x|e|] n1]; cbn [snd] in *.
  - exists reqs. repeat split; auto. lia.
  - destruct (caught e); cbn [snd].
    + destruct (Hh e n1) as (reqs' & E' & Hok' & Hlen').
      exists (reqs ++ reqs')%list. rewrite E', E, app_assoc. split; [reflexivity|].
      split; [apply Forall_app; auto|]. rewrite length_app. lia.
    + exists reqs. repeat split; auto. lia.
  - exists reqs. repeat split; auto. lia.
Qed.

Lemma issues_call (req : SpawnObjectRequest) :
  ok req -> issues ok 1 (call_spawn_object req).
Proof.
  intros H n. exists [req]. unfold call_spawn_object.
  destruct (spawn_object_service (backend n) req) as [b r]. cbn.
  repeat split; auto.
Qed.

Lemma issues_ext {A} (m m' : M A) (bound : nat) :
  (forall n, m n = m' n) -> issues ok bound m' -> issues ok bound m.
Proof. intros E H n. rewrite E. apply H. Qed.

End Issues.

(** What [prepare_sensor] hands to the service. *)
Lemma prepare_sensor_request (sensor_spec attached : value) (L L1 : sensor_locals)
    (req : SpawnObjectRequest) :
  prepare_sensor sensor_spec attached L = (L1, Ok req) ->
  sensor_request attached req.
Proof.
  unfold prepare_sensor.
  destruct (name_sensor sensor_spec) as [[[[type i] name] spec]|e|]; try discriminate.
  destruct (str_in name (sensor_names L)).
  - unfold subscript. destruct (dict_get "id" spec); discriminate.
  - destruct (sensor_transform spec type attached) as [[pose spec']|e|]; cbn [rbind];
      try discriminate.
    intros H. injection H as _ <-. split; reflexivity.
Qed.

Lemma issues_spawn_sensor (sensor_spec attached : value) (L : sensor_locals) :
  issues (sensor_request attached) 1 (spawn_sensor sensor_spec attached L).
Proof.
  unfold spawn_sensor.
  destruct (prepare_sensor sensor_spec attached L) as [L1 prepared] eqn:Ep.
  apply (issues_try_except _ _ _ _ 1 0).
  - destruct prepared as [req|e|].
    + apply (issues_ext _ _
               (bind (call_spawn_object req)
                  (fun response =>
                     if id response =? -1
                     then raise (SpawnRejected (error_string response))
                     else ret {| actors := actors L1 ++ [id response];
                                 sensor_names := sensor_names L1;
                                 sensor_name := sensor_name L1 |}))
               1); [reflexivity|].
      apply (issues_bind _ _ _ 1 0).
      * apply issues_call. exact (prepare_sensor_request _ _ _ _ _ Ep).
      * intros response. apply issues_quiet.
        destruct (id response =? -1); [apply keeps_raise | apply keeps_ret].
    + apply issues_quiet. intros n. reflexivity.
    + apply issues_quiet. intros n. reflexivity.
  - intros e. apply issues_quiet. unfold sensor_failed.
    destruct (sensor_name L1); [|apply keeps_raise].
    apply keeps_bind; [apply keeps_rospy_log; reflexivity | intros; apply keeps_ret].
Qed.

Lemma issues_sensors_fold (sensors : list value) (attached : value) :
  forall L, issues (sensor_request attached) (length sensors)
              (sensors_fold sensors attached L).
Proof.
  induction sensors as [|s sensors IH]; intros L; cbn [sensors_fold length].
  - apply issues_quiet, keeps_ret.
  - apply (issues_bind _ _ _ 1 (length sensors)); [apply issues_spawn_sensor | exact IH].
Qed.

(** What an iteration that completes adds to [actors]: nothing, or one id
    that is not the sentinel. *)
Lemma spawn_sensor_actors (sensor_spec attached : value) (L L' : sensor_locals) (n n' : Node) :
  spawn_sensor sensor_spec attached L n = (Ok L', n') ->
  actors L' = actors L
  \/ exists i, i <> -1 /\ actors L' = (actors L ++ [i])%list.
Proof.
  unfold spawn_sensor.
  destruct (prepare_sensor sensor_spec attached L) as [L1 prepared] eqn:Ep.
  assert (HL1 : actors L1 = actors L).
  { revert Ep. unfold prepare_sensor.
    destruct (name_sensor sensor_spec) as [[[[type i] name] spec]|e|];
      [destruct (str_in name (sensor_names L))| |]; intros H; injection H as <- _; reflexivity. }
  unfold try_except, bind, lift, any_Exception, sensor_failed.
  destruct prepared as [req|e|].
  - destruct (call_spawn_object req n) as [[response|e|] n1].
    + destruct (id response =? -1) eqn:Ei.
      * unfold raise. destruct (sensor_name L1); unfold bind, rospy_log, ret, raise;
          [|discriminate]. intros H; injection H as <- _. left. exact HL1.
      * unfold ret. intros H; injection H as <- _. right. exists (id response).
        split; [apply Z.eqb_neq; exact Ei|]. cbn [actors]. rewrite HL1. reflexivity.
    + destruct (sensor_name L1); unfold bind, rospy_log, ret, raise; [|discriminate].
      intros H; injection H as <- _. left. exact HL1.
    + discriminate.
  - destruct (sensor_name L1); unfold bind, rospy_log, ret, raise; [|discriminate].
    intros H; injection H as <- _. left. exact HL1.
  - discriminate.
Qed.

Lemma sensors_fold_actors (sensors : list value) (attached : value) :
  forall (L L' : sensor_locals) (n n' : Node),
    sensors_fold sensors attached L n = (Ok L', n') ->
    exists more,
      actors L' = (actors L ++ more)%list
      /\ Forall (fun i => i <> -1) more
      /\ (length more <= length sensors)%nat.
Proof.
  induction sensors as [|s sensors IH]; intros L L' n n'; cbn [sensors_fold].
  - unfold ret. intros H; injection H as <- _. exists []. rewrite app_nil_r.
    repeat split; auto.
  - unfold bind. destruct (spawn_sensor s attached L n) as [[L1|e|] n1] eqn:Es;
      try discriminate.
    intros Hf. destruct (IH _ _ _ _ Hf) as (more & Ha & Hok & Hlen).
    destruct (spawn_sensor_actors _ _ _ _ _ _ Es) as [E | (i & Hi & E)].
    + exists more. rewrite Ha, E. repeat split; auto. cbn [length]. lia.
    + exists (i :: more). rewrite Ha, E, <- app_assoc. repeat split; auto.
      cbn [length]. lia.
Qed.

Lemma issues_setup_sensors (sensors : list value) (attached : value) :
  issues (sensor_request attached) (length sensors) (setup_sensors sensors attached).
Proof.
  unfold setup_sensors. fold no_sensors.
  apply (issues_ext _ _ (bind (sensors_fold sensors attached no_sensors)
                           (fun L' => ret (actors L')))).
  - intros n0. apply sensors_loop_fold.
  - rewrite <- (Nat.add_0_r (length sensors)).
    apply issues_bind; [apply issues_sensors_fold|].
    intros L'. apply issues_quiet, keeps_ret.
Qed.

(** X3. [setup_sensors] makes at most one request per sensor, each for the
    actor it was given and never with a random pose. *)
Theorem setup_sensors_requests (sensors : list value) (attached : value) (n : Node) :
  exists reqs,
    spawn_calls (snd (setup_sensors sensors attached n)) = (spawn_calls n ++ reqs)%list
    /\ Forall (fun req => random_pose req = false /\ attach_to req = attached) reqs
    /\ (length reqs <= length sensors)%nat.
Proof. exact (issues_setup_sensors sensors attached n). Qed.

Lemma setup_sensors_returns_real_ids (sensors : list value) (attached : value)
    (n n' : Node) (ids : list Z) :
  setup_sensors sensors attached n = (Ok ids, n') ->
  Forall (fun i => i <> -1) ids /\ (length ids <= length sensors)%nat.
Proof.
  unfold setup_sensors. rewrite sensors_loop_fold. unfold bind.
  destruct (sensors_fold sensors attached _ n) as [[L'|e|] n1] eqn:Ef; try discriminate.
  unfold ret. intros H; injection H as <- _.
  destruct (sensors_fold_actors _ _ _ _ _ _ Ef) as (more & Ha & Hok & Hlen).
  cbn [actors app] in Ha. rewrite Ha. auto.
Qed.

(** X4. The list [setup_sensors] returns never holds the sentinel -1 and is
    no longer than the batch. *)
Theorem setup_sensors_ids (sensors : list value) (attached : value) (n n' : Node)
    (ids : list Z) :
  setup_sensors sensors attached n = (Ok ids, n') ->
  Forall (fun i => i <> -1) ids /\ (length ids <= length sensors)%nat.
Proof. exact (setup_sensors_returns_real_ids sensors attached n n' ids). Qed.


(** ** Poses *)

Lemma check_spawn_point_param_Ok (p : value) (pose : Pose) :
  check_spawn_point_param p = Ok pose -> override_pose p = Some pose.
Proof.
  intros H. destruct (override_pose p) as [pose'|] eqn:E.
  - rewrite (check_spawn_point_param_usable p pose' E) in H. congruence.
  - destruct (check_spawn_point_param_unusable p E) as [e He]. congruence.
Qed.

Lemma override_pose_fields (p : value) (pose : Pose) :
  override_pose p = Some pose <->
  exists s x y z roll pitch yaw,
    p = VStr s
    /\ map float_of_str (split "," s)
       = [Some x; Some y; Some z; Some roll; Some pitch; Some yaw]
    /\ angles_ok (radians roll) (radians pitch) (radians yaw) = true
    /\ pose = {| position := (VFloat x, VFloat y, VFloat z);
                 orientation :=
                   quaternion_from_euler (radians roll) (radians pitch) (radians yaw) |}.
Proof.
  split.
  - unfold override_pose. destruct p; try discriminate.
    destruct (map float_of_str (split "," s))
      as [|[x|] [|[y|] [|[z|] [|[r|] [|[q|] [|[w|] [|? ?]]]]]]] eqn:Hm;
      try discriminate.
    destruct (angles_ok (radians r) (radians q) (radians w)) eqn:Ea; try discriminate.
    intros H; injection H as <-. exists s, x, y, z, r, q, w. repeat split; assumption.
  - intros (s & x & y & z & r & q & w & -> & Hm & Ha & ->).
    unfold override_pose. rewrite Hm, Ha. reflexivity.
Qed.

(** X1. [check_spawn_point_param] returns a pose exactly for a string of six
    comma-separated fields that [float()] accepts and whose three angles
    [quaternion_from_euler] accepts, and then the pose of those six numbers.
    Anything that is not a string raises [AttributeError]; a string with
    another number of fields raises [ValueError] for the whole string; six
    accepted fields with an angle that is not accepted raise the
    [ValueError] of the library; and [ValueError] is all a string can
    raise. *)
Theorem check_spawn_point_param_spec (p : value) :
  (forall pose,
      check_spawn_point_param p = Ok pose <->
      exists s x y z roll pitch yaw,
        p = VStr s
        /\ map float_of_str (split "," s)
           = [Some x; Some y; Some z; Some roll; Some pitch; Some yaw]
        /\ angles_ok (radians roll) (radians pitch) (radians yaw) = true
        /\ pose = {| position := (VFloat x, VFloat y, VFloat z);
                     orientation :=
                       quaternion_from_euler (radians roll) (radians pitch)
                                             (radians yaw) |})
  /\ ((forall s, p <> VStr s) -> check_spawn_point_param p = Raise AttributeError)
  /\ (forall s, p = VStr s -> length (split "," s) <> 6%nat ->
                check_spawn_point_param p = Raise (ValueError s))
  /\ (forall s x y z roll pitch yaw,
        p = VStr s ->
        map float_of_str (split "," s)
        = [Some x; Some y; Some z; Some roll; Some pitch; Some yaw] ->
        angles_ok (radians roll) (radians pitch) (radians yaw) = false ->
        check_spawn_point_param p = Raise (ValueError "math domain error"))
  /\ (forall s e, p = VStr s -> check_spawn_point_param p = Raise e ->
                  exists text, e = ValueError text).
Proof.
  split; [|split; [|split; [|split]]].
  - intros pose. rewrite <- override_pose_fields.
    split; [apply check_spawn_point_param_Ok | apply check_spawn_point_param_usable].
  - intros H. destruct p; try reflexivity. elim (H s). reflexivity.
  - intros s -> Hlen. unfold check_spawn_point_param.
    destruct (split "," s) as [|c0 [|c1 [|c2 [|c3 [|c4 [|c5 [|c6 l]]]]]]]; try reflexivity.
    elim Hlen. reflexivity.
  - intros s x y z roll pitch yaw -> Hm Ha. unfold check_spawn_point_param, py_float.
    destruct (split "," s) as [|c0 [|c1 [|c2 [|c3 [|c4 [|c5 [|c6 l]]]]]]];
      try discriminate.
    cbn [map] in Hm. injection Hm as -> -> -> -> -> ->. cbn [rbind].
    rewrite create_spawn_point_floats, Ha. reflexivity.
  - intros s e -> . unfold check_spawn_point_param, py_float.
    destruct (split "," s) as [|c0 [|c1 [|c2 [|c3 [|c4 [|c5 [|c6 l]]]]]]];
      try (intros H; injection H as <-; eauto).
    repeat match goal with
           | |- context [float_of_str ?c] =>
               destruct (float_of_str c); cbn [rbind];
               [|intros H; injection H as <-; eauto]
           end.
    rewrite create_spawn_point_floats.
    match goal with |- context [angles_ok ?r ?q ?w] => destruct (angles_ok r q w) end;
      [discriminate | intros H; injection H as <-; eauto].
Qed.

Lemma math_radians_conversion (v : value) :
  match conversion_error v with
  | Some e => math_radians v = Raise e
  | None => exists r, math_radians v = Ok r
  end.
Proof.
  unfold conversion_error, math_radians. destruct v; try reflexivity; eauto.
  destruct (int_fits n); eauto.
Qed.

(** X2. [create_spawn_point] checks roll, pitch and yaw and nothing else; x,
    y and z are stored as they are.  The three angles are converted left to
    right and the first that [math.radians] rejects decides the exception:
    [TypeError] for what is no number, [OverflowError] for an int no double
    can hold.  When the three convert, the call returns the pose with the
    orientation [quaternion_from_euler] gives, or raises the [ValueError] of
    that function when it does not accept an angle. *)
Theorem create_spawn_point_spec (x y z roll pitch yaw : value) :
  (forall e, conversion_error roll = Some e ->
             create_spawn_point x y z roll pitch yaw = Raise e)
  /\ (forall e, conversion_error roll = None -> conversion_error pitch = Some e ->
                create_spawn_point x y z roll pitch yaw = Raise e)
  /\ (forall e, conversion_error roll = None -> conversion_error pitch = None ->
                conversion_error yaw = Some e ->
                create_spawn_point x y z roll pitch yaw = Raise e)
  /\ (conversion_error roll = None -> conversion_error pitch = None ->
      conversion_error yaw = None ->
      exists r p w,
        math_radians roll = Ok r /\ math_radians pitch = Ok p /\ math_radians yaw = Ok w
        /\ create_spawn_point x y z roll pitch yaw
           = if angles_ok r p w
             then Ok {| position := (x, y, z); orientation := quaternion_from_euler r p w |}
             else Raise (ValueError "math domain error")).
Proof.
  pose proof (math_radians_conversion roll) as Hr.
  pose proof (math_radians_conversion pitch) as Hp.
  pose proof (math_radians_conversion yaw) as Hw.
  unfold create_spawn_point.
  split; [|split; [|split]].
  - intros e He. rewrite He in Hr. rewrite Hr. reflexivity.
  - intros e H1 He. rewrite H1 in Hr. rewrite He in Hp. destruct Hr as [r ->].
    cbn [rbind]. rewrite Hp. reflexivity.
  - intros e H1 H2 He. rewrite H1 in Hr. rewrite H2 in Hp. rewrite He in Hw.
    destruct Hr as [r ->]. destruct Hp as [p ->]. cbn [rbind]. rewrite Hw. reflexivity.
  - intros H1 H2 H3. rewrite H1 in Hr. rewrite H2 in Hp. rewrite H3 in Hw.
    destruct Hr as [r Hr]. destruct Hp as [p Hp]. destruct Hw as [w Hw].
    exists r, p, w. rewrite Hr, Hp, Hw. cbn [rbind]. auto.
Qed.


(** ** One sensor *)

Lemma name_sensor_dict (d : dict) (type i : value) :
  dict_get "type" d = Some type -> dict_get "id" d = Some i ->
  name_sensor (VDict d)
  = Ok (str type, str i, str type ++ "/" ++ str i, dict_remove "id" (dict_remove "type" d)).
Proof.
  intros Ht Hi. unfold name_sensor, pop. rewrite Ht. cbn [rbind].
  rewrite (dict_get_remove_other "id" "type" d) by discriminate.
  rewrite Hi. reflexivity.
Qed.

Lemma dict_get_named (k : string) (d : dict) :
  k <> "type" -> k <> "id" ->
  dict_get k (dict_remove "id" (dict_remove "type" d)) = dict_get k d.
Proof.
  intros Ht Hi. rewrite !dict_get_remove_other by assumption. reflexivity.
Qed.

Lemma name_sensor_unnamed (sensor_spec : value) :
  derived_name sensor_spec = None -> exists e, name_sensor sensor_spec = Raise e.
Proof.
  intros Hd. destruct (name_sensor sensor_spec) as [[[[type i] name] spec]|e|] eqn:En.
  - apply name_sensor_Ok in En. congruence.
  - eauto.
  - exfalso. revert En. unfold name_sensor.
    apply rbind_returns; [apply pop_returns | intros [ty spec1]].
    apply rbind_returns; [apply pop_returns | intros [i spec2]; discriminate].
Qed.

(** X5. A sensor that is not attached to a vehicle and is not a pseudo
    sensor needs a [spawn_point]: without one it is skipped with the missing
    key logged and nothing asked of the simulator.  Its name is taken all the
    same, so a later sensor of the batch with that name is skipped too. *)
Theorem unplaced_sensor_is_skipped (d : dict) (type i attached : value)
    (L : sensor_locals) (n : Node) :
  dict_get "type" d = Some type ->
  dict_get "id" d = Some i ->
  dict_get "spawn_point" d = None ->
  eq_zero attached = true ->
  contains "pseudo" (str type) = false ->
  str_in (str type ++ "/" ++ str i) (sensor_names L) = false ->
  let name := str type ++ "/" ++ str i in
  let L1 := {| actors := actors L; sensor_names := sensor_names L ++ [name];
               sensor_name := Some name |} in
  let n1 := add_logged n [(Err, SensorAttributeMissing name (KeyError "spawn_point"))] in
  spawn_sensor (VDict d) attached L n = (Ok L1, n1)
  /\ forall later,
       derived_name later = Some name ->
       spawn_sensor later attached L1 n1
       = (Ok {| actors := actors L; sensor_names := sensor_names L ++ [name];
                sensor_name := Some name |},
          add_logged n1 [(Err, SensorAttributeMissing name (KeyError "id"))]).
Proof.
  intros Ht Hi Hsp Hz Hp Hnew. cbv zeta. split.
  - unfold spawn_sensor, prepare_sensor. rewrite (name_sensor_dict d type i Ht Hi).
    rewrite Hnew.
    unfold sensor_transform. rewrite Hz, Hp. cbn [negb andb].
    unfold pop at 1. rewrite dict_get_named by discriminate. rewrite Hsp. cbn [rbind].
    reflexivity.
  - intros later Hlater.
    rewrite (spawn_sensor_duplicate later attached (str type ++ "/" ++ str i)
               {| actors := actors L;
                  sensor_names := sensor_names L ++ [str type ++ "/" ++ str i];
                  sensor_name := Some (str type ++ "/" ++ str i) |}
               _ Hlater);
      [reflexivity|].
    cbn [sensor_names]. apply in_or_app. right. left. reflexivity.
Qed.

Lemma create_spawn_point_zero :
  create_spawn_point zero zero zero zero zero zero
  = Ok {| position := (zero, zero, zero);
          orientation :=
            quaternion_from_euler (radians (float_of_Z 0)) (radians (float_of_Z 0))
                                  (radians (float_of_Z 0)) |}.
Proof.
  unfold create_spawn_point, zero, math_radians, angles_ok. cbn [rbind].
  rewrite zero_angle_ok. reflexivity.
Qed.

(** X6. A sensor that is attached to a vehicle, or is a pseudo sensor, may
    come without a [spawn_point]: it is requested at the zero pose, attached
    to the actor given, with every field but [type] and [id] passed on as an
    attribute. *)
Theorem unplaced_attached_sensor_request (d : dict) (type i attached : value)
    (L : sensor_locals) (n : Node) :
  dict_get "type" d = Some type ->
  dict_get "id" d = Some i ->
  dict_get "spawn_point" d = None ->
  eq_zero attached = false \/ contains "pseudo" (str type) = true ->
  str_in (str type ++ "/" ++ str i) (sensor_names L) = false ->
  spawn_calls (snd (spawn_sensor (VDict d) attached L n))
  = (spawn_calls n
     ++ [{| req_type := VStr (str type);
            req_id := VStr (str i);
            attach_to := attached;
            transform :=
              {| position := (zero, zero, zero);
                 orientation :=
                   quaternion_from_euler (radians (float_of_Z 0)) (radians (float_of_Z 0))
                                         (radians (float_of_Z 0)) |};
            random_pose := false;
            attributes :=
              map (fun kv => (fst kv, str (snd kv)))
                  (dict_remove "id" (dict_remove "type" d)) |}])%list.
Proof.
  intros Ht Hi Hsp Hmode Hnew.
  unfold spawn_sensor, prepare_sensor. rewrite (name_sensor_dict d type i Ht Hi), Hnew.
  unfold sensor_transform.
  assert (Hb : eq_zero attached && negb (contains "pseudo" (str type)) = false).
  { destruct Hmode as [-> | ->]; [reflexivity | apply andb_false_r]. }
  rewrite Hb. unfold pop at 1. rewrite dict_get_named by discriminate. rewrite Hsp.
  cbn [rbind eq_zero Z.eqb]. rewrite create_spawn_point_zero. cbn [rbind].
  unfold try_except, bind, lift, call_spawn_object.
  match goal with
  | |- context [spawn_object_service (backend n) ?r] =>
      destruct (spawn_object_service (backend n) r) as [b [response|msg]]
  end.
  - destruct (id response =? -1); reflexivity.
  - reflexivity.
Qed.


Lemma prepare_sensor_named (sensor_spec attached : value) (L L1 : sensor_locals)
    (req : SpawnObjectRequest) :
  prepare_sensor sensor_spec attached L = (L1, Ok req) ->
  actors L1 = actors L
  /\ exists name, derived_name sensor_spec = Some name /\ sensor_name L1 = Some name.
Proof.
  unfold prepare_sensor.
  destruct (name_sensor sensor_spec) as [[[[type i] name] spec]|e|] eqn:En; try discriminate.
  apply name_sensor_Ok in En.
  destruct (str_in name (sensor_names L)).
  - unfold subscript. destruct (dict_get "id" spec); discriminate.
  - intros H. injection H as <- _. split; [reflexivity|]. exists name. auto.
Qed.

(** X7. A sensor is asked for once.  When the simulator answers with the
    sentinel -1, or the call raises, the sensor is dropped with the error
    logged under its name: one request, no retry, and the ids collected so
    far unchanged. *)
Theorem rejected_sensor_is_dropped (sensor_spec attached : value) (L L1 : sensor_locals)
    (req : SpawnObjectRequest) (n : Node) :
  prepare_sensor sensor_spec attached L = (L1, Ok req) ->
  exists name,
    derived_name sensor_spec = Some name
    /\ actors L1 = actors L
    /\ (forall b response,
          spawn_object_service (backend n) req = (b, Returned response) ->
          id response = -1 ->
          spawn_sensor sensor_spec attached L n
          = (Ok L1,
             add_logged (after_spawn_calls n b [req])
               [(Err, SensorNotSpawned name (SpawnRejected (error_string response)))]))
    /\ (forall b text,
          spawn_object_service (backend n) req = (b, Failed text) ->
          spawn_sensor sensor_spec attached L n
          = (Ok L1,
             add_logged (after_spawn_calls n b [req])
               [(Err, SensorNotSpawned name (ServiceException text))])).
Proof.
  intros Hp. destruct (prepare_sensor_named _ _ _ _ _ Hp) as (Ha & name & Hd & Hn).
  exists name. split; [exact Hd|]. split; [exact Ha|]. split.
  - intros b response Hs Hid. unfold spawn_sensor. rewrite Hp.
    unfold try_except, bind, lift. rewrite (call_spawn_object_returned req n b response Hs).
    rewrite Hid. cbn [Z.eqb]. unfold raise, any_Exception, sensor_failed. rewrite Hn.
    reflexivity.
  - intros b text Hs. unfold spawn_sensor. rewrite Hp.
    unfold try_except, bind, lift, call_spawn_object. rewrite Hs.
    unfold any_Exception, sensor_failed. rewrite Hn. reflexivity.
Qed.

(** X8. The two [except] clauses of [setup_sensors] format [sensor_name].  A
    sensor that fails before its name is built (it is no object, or has no
    [type] or no [id]) is logged under the name of the sensor before it and
    skipped; when it is the first of the batch there is no such name, and the
    whole call ends in [UnboundLocalError] with nothing requested. *)
Theorem unnamed_sensor (sensor_spec attached : value) (rest : list value) (n : Node) :
  derived_name sensor_spec = None ->
  setup_sensors (sensor_spec :: rest) attached n
  = (Raise (UnboundLocalError "sensor_name"), n)
  /\ forall L previous,
       sensor_name L = Some previous ->
       exists e,
         spawn_sensor sensor_spec attached L n
         = (Ok L,
            add_logged n [(Err, if is_KeyError e then SensorAttributeMissing previous e
                                else SensorNotSpawned previous e)]).
Proof.
  intros Hd. destruct (name_sensor_unnamed sensor_spec Hd) as [e He]. split.
  - unfold setup_sensors. cbn [sensors_loop]. unfold bind, spawn_sensor, prepare_sensor.
    rewrite He. reflexivity.
  - intros L previous HL. exists e. unfold spawn_sensor, prepare_sensor. rewrite He.
    unfold try_except, bind, lift, any_Exception, sensor_failed. rewrite HL. reflexivity.
Qed.


(** ** Looking the vehicles up *)

Lemma dict_get_set_same (k : string) (v : value) (d : dict) :
  dict_get k (dict_set k v d) = Some v.
Proof.
  induction d as [|[k' v'] d IH]; cbn [dict_set dict_get].
  - rewrite String.eqb_refl. reflexivity.
  - destruct (String.eqb k k') eqn:E; cbn [dict_get]; rewrite ?String.eqb_refl, ?E; auto.
Qed.

Lemma dict_get_set_other (k k' : string) (v : value) (d : dict) :
  k <> k' -> dict_get k (dict_set k' v d) = dict_get k d.
Proof.
  intros Hne. apply String.eqb_neq in Hne.
  induction d as [|[k0 v0] d IH]; cbn [dict_set dict_get].
  - rewrite Hne. reflexivity.
  - destruct (String.eqb k' k0) eqn:E; cbn [dict_get].
    + apply String.eqb_eq in E. subst k0. rewrite Hne. reflexivity.
    + rewrite IH. reflexivity.
Qed.

(** X9. When the lookups of sensors-only mode all succeed there was one
    [get_actor] call per vehicle, in order and for the vehicle's [id]; every
    vehicle now carries an integer [carla_id] and is otherwise unchanged; and
    nothing was spawned or destroyed. *)
Theorem lookup_carla_ids_spec (vehicles vehicles' : list dict) (n n' : Node) :
  lookup_carla_ids vehicles n = (Ok vehicles', n') ->
  Forall2 (fun v v' =>
             (exists i, dict_get "carla_id" v' = Some (VInt i))
             /\ forall k, k <> "carla_id" -> dict_get k v' = dict_get k v)
          vehicles vehicles'
  /\ (exists roles,
        get_actor_calls n' = (get_actor_calls n ++ roles)%list
        /\ Forall2 (fun v role => dict_get "id" v = Some role) vehicles roles)
  /\ spawn_calls n' = spawn_calls n
  /\ destroy_calls n' = destroy_calls n.
Proof.
  revert vehicles' n n'. induction vehicles as [|v vehicles IH]; intros vehicles' n n';
    cbn [lookup_carla_ids].
  - unfold ret. intros H; injection H as <- <-. split; [constructor|].
    split; [exists []; rewrite app_nil_r; split; [reflexivity|constructor]|]. auto.
  - unfold bind at 1, lift, dict_subscript, subscript.
    destruct (dict_get "id" v) as [role|] eqn:Ei; try discriminate.
    unfold bind at 1, call_get_actor.
    destruct (get_actor_service (backend n) role (-1)) as [b [i|text]]; try discriminate.
    unfold bind at 1.
    match goal with
    | |- context [lookup_carla_ids vehicles ?m] =>
        destruct (lookup_carla_ids vehicles m) as [[vs|e|] n1] eqn:El; try discriminate;
        destruct (IH _ _ _ El) as (Hv & (roles & Hr & Hroles) & Hs & Hd)
    end.
    unfold ret. intros H; injection H as <- <-. cbn in Hr, Hs, Hd.
    split; [constructor; [|exact Hv]|].
    { split; [exists i; apply dict_get_set_same|].
      intros k Hk. apply dict_get_set_other. exact Hk. }
    split; [|auto].
    exists (role :: roles). rewrite Hr, <- app_assoc. split; [reflexivity|].
    constructor; assumption.
Qed.


(** ** The vehicles *)

Lemma issues_weaken {A} (ok ok' : SpawnObjectRequest -> Prop) (bound : nat) (m : M A) :
  (forall req, ok req -> ok' req) -> issues ok bound m -> issues ok' bound m.
Proof.
  intros Himp H n. destruct (H n) as (reqs & E & Hok & Hlen).
  exists reqs. repeat split; auto. exact (Forall_impl _ Himp Hok).
Qed.

Lemma issues_setup_sensors_of (vehicle : dict) (attached : value) (k : list Z -> M unit) :
  (forall group, keeps spawn_calls (k group)) ->
  issues (sensor_request attached) (sensor_count vehicle)
    (bind (lift (dict_subscript vehicle "sensors"))
       (fun sensors => bind (setup_sensors_of sensors attached) k)).
Proof.
  intros Hk. unfold sensor_count, dict_subscript, subscript.
  destruct (dict_get "sensors" vehicle) as [sensors|].
  - apply (issues_ext _ _ (bind (setup_sensors_of sensors attached) k)); [reflexivity|].
    unfold setup_sensors_of.
    destruct (iter sensors) as [l|e|].
    + apply (issues_ext _ _ (bind (setup_sensors l attached) k)); [reflexivity|].
      rewrite <- (Nat.add_0_r (length l)). apply issues_bind.
      * apply issues_setup_sensors.
      * intros group. apply issues_quiet, Hk.
    + apply issues_quiet. intros n. reflexivity.
    + apply issues_quiet. intros n. reflexivity.
  - apply issues_quiet. intros n. reflexivity.
Qed.

(** X10. In sensors-only mode [setup_vehicles] spawns no vehicle: every
    request it makes is for a sensor, without random pose and attached to the
    [carla_id] of one of the vehicles, and there are no more requests than
    the vehicles list sensors. *)
Theorem sensors_only_requests (fuel : nat) (settings : Settings) (vehicles : list dict)
    (n : Node) :
  spawn_sensors_only settings = VBool true ->
  exists reqs,
    spawn_calls (snd (setup_vehicles fuel settings vehicles n)) = (spawn_calls n ++ reqs)%list
    /\ Forall (attached_to_one_of vehicles) reqs
    /\ (length reqs <= list_sum (map sensor_count vehicles))%nat.
Proof.
  intros Hm. unfold setup_vehicles.
  cut (forall players,
          issues (attached_to_one_of vehicles) (list_sum (map sensor_count vehicles))
            (vehicles_loop fuel settings vehicles players)).
  { intros H. exact (H [] n). }
  clear n.
  induction vehicles as [|vehicle rest IH]; intros players; cbn [vehicles_loop].
  - apply issues_quiet, keeps_ret.
  - rewrite Hm. cbn [is_True map list_sum].
    unfold dict_subscript at 1, subscript.
    destruct (dict_get "carla_id" vehicle) as [carla_id|] eqn:Ec.
    + apply issues_bind.
      * apply (issues_weaken (sensor_request carla_id)).
        { intros req [Hr Ha]. split; [exact Hr|]. exists vehicle. split; [left; reflexivity|].
          rewrite Ha. exact Ec. }
        unfold setup_spawned_vehicle_sensors.
        rewrite <- (Nat.add_0_r (sensor_count vehicle)). apply issues_try_except.
        -- apply issues_setup_sensors_of. intros group n. reflexivity.
        -- intros e. apply issues_quiet.
           apply keeps_bind; [apply keeps_lift | intros; apply keeps_raise].
      * intros _. apply (issues_weaken (attached_to_one_of rest)); [|apply IH].
        intros req [Hr (v & Hin & Hv)]. split; [exact Hr|]. exists v. split; [right|]; auto.
    + apply issues_quiet.
      apply keeps_bind; [apply keeps_lift|]. intros vid.
      apply keeps_bind; [apply keeps_rospy_log; reflexivity | intros; apply keeps_ret].
Qed.

(** X11. In normal mode a [setup_vehicles] that returns has spawned every
    vehicle: its result holds one id per vehicle, in order, and none of them
    is the sentinel -1. *)
Theorem normal_mode_players (fuel : nat) (settings : Settings) (vehicles : list dict)
    (n n' : Node) (ids : list Z) :
  is_True (spawn_sensors_only settings) = false ->
  setup_vehicles fuel settings vehicles n = (Ok ids, n') ->
  length ids = length vehicles /\ Forall (fun i => i <> -1) ids.
Proof.
  intros Hm. unfold setup_vehicles.
  assert (H : forall players m,
             vehicles_loop fuel settings vehicles players m = (Ok ids, n') ->
             exists new, ids = (players ++ new)%list
                         /\ length new = length vehicles
                         /\ Forall (fun i => i <> -1) new).
  { induction vehicles as [|vehicle rest IH]; intros players m; cbn [vehicles_loop].
    - unfold ret. intros H; injection H as <- _. exists []. rewrite app_nil_r. auto.
    - rewrite Hm. unfold bind at 1.
      destruct (spawn_vehicle fuel settings vehicle players m) as [[players'|e|] m1] eqn:Ev;
        try discriminate.
      intros Hl. destruct (IH _ _ Hl) as (new & -> & Hlen & Hok).
      unfold spawn_vehicle, bind, lift in Ev.
      destruct (dict_subscript vehicle "type"); try discriminate.
      destruct (dict_subscript vehicle "id"); try discriminate.
      destruct (resolve_spawn_point settings vehicle a0 m) as [[resolved|e|] m2];
        try discriminate.
      destruct (spawn_player_appends _ _ _ _ _ _ _ Ev) as (i & Hi & ->).
      exists (i :: new). rewrite <- app_assoc. split; [reflexivity|].
      split; [cbn [length]; congruence | constructor; assumption]. }
  intros Hrun. destruct (H [] n Hrun) as (new & -> & Hlen & Hok). auto.
Qed.


(** ** [spawn_objects] as a whole *)

Lemma keeps_lookup_carla_ids {X} (field : Node -> X) (vehicles : list dict) :
  (forall role i, keeps field (call_get_actor role i)) ->
  keeps field (lookup_carla_ids vehicles).
Proof.
  intros Hcall. induction vehicles as [|v vehicles IH]; cbn [lookup_carla_ids].
  - apply keeps_ret.
  - apply keeps_bind; [apply keeps_lift|]. intros role.
    apply keeps_bind; [apply Hcall|]. intros i.
    apply keeps_bind; [exact IH|]. intros rest. apply keeps_ret.
Qed.

Lemma keeps_call_get_actor_destroy (role : value) (i : Z) :
  keeps destroy_calls (call_get_actor role i).
Proof.
  intros n. unfold call_get_actor.
  destruct (get_actor_service (backend n) role i) as [b r]. reflexivity.
Qed.

Lemma keeps_call_spawn_object_destroy (req : SpawnObjectRequest) :
  keeps destroy_calls (call_spawn_object req).
Proof.
  intros n. unfold call_spawn_object.
  destruct (spawn_object_service (backend n) req) as [b r]. reflexivity.
Qed.

Lemma keeps_destroy_calls_spawn_objects (fuel : nat) (settings : Settings) :
  keeps destroy_calls (spawn_objects fuel settings).
Proof.
  unfold spawn_objects.
  destruct (objects_definition settings) as [json_actors|]; [|apply keeps_raise].
  apply keeps_bind; [apply keeps_lift|]. intros objects.
  apply keeps_bind; [apply keeps_lift|]. intros entries.
  apply keeps_bind; [apply keeps_classify; reflexivity|]. intros c.
  destruct (is_True (spawn_sensors_only settings) && negb (found_sensor_actor_list c));
    [apply keeps_raise|].
  apply keeps_bind.
  { apply keeps_try_except; [|intros e; apply keeps_raise].
    apply keeps_bind; [|intros ids n0; reflexivity].
    apply keeps_sensors_loop; [intros; reflexivity | apply keeps_call_spawn_object_destroy]. }
  intros _. apply keeps_bind.
  { destruct (is_True (spawn_sensors_only settings)); [|apply keeps_ret].
    apply keeps_lookup_carla_ids. apply keeps_call_get_actor_destroy. }
  intros vehicles. apply keeps_try_except; [|intros e; apply keeps_raise].
  apply keeps_bind; [|intros ids n0; reflexivity].
  apply keeps_vehicles_loop;
    [intros; reflexivity | apply keeps_call_spawn_object_destroy | intros g n0; reflexivity].
Qed.

(** X12. [spawn_objects] never asks for anything to be destroyed, whether it
    returns or raises: what a failed start has spawned is still there. *)
Theorem spawn_objects_never_destroys (fuel : nat) (settings : Settings) (n : Node) :
  destroy_calls (snd (spawn_objects fuel settings n)) = destroy_calls n.
Proof. exact (keeps_destroy_calls_spawn_objects fuel settings n). Qed.

Lemma keeps_players_spawn (req : SpawnObjectRequest) : keeps players (call_spawn_object req).
Proof.
  intros n. unfold call_spawn_object.
  destruct (spawn_object_service (backend n) req) as [b r]. reflexivity.
Qed.

Lemma keeps_players_get_actor (role : value) (i : Z) : keeps players (call_get_actor role i).
Proof.
  intros n. unfold call_get_actor.
  destruct (get_actor_service (backend n) role i) as [b r]. reflexivity.
Qed.

Lemma bind_keeps_or_returns {A} (m : M A) (k : A -> M unit) :
  keeps players m ->
  (forall a n, fst (k a n) = Ok tt \/ players (snd (k a n)) = players n) ->
  forall n, fst (bind m k n) = Ok tt \/ players (snd (bind m k n)) = players n.
Proof.
  intros Hm Hk n. unfold bind. specialize (Hm n).
  destruct (m n) as [[a|e|] n1]; cbn [fst snd] in *; auto.
  destruct (Hk a n1) as [H|H]; [left; exact H | right; congruence].
Qed.

(** X13. [self.players] is assigned once, from the list [setup_vehicles]
    returns.  When [spawn_objects] does not return normally the field is what
    it was before the call, whatever has been spawned by then. *)
Theorem players_assigned_on_success (fuel : nat) (settings : Settings) (n : Node) :
  fst (spawn_objects fuel settings n) <> Ok tt ->
  players (snd (spawn_objects fuel settings n)) = players n.
Proof.
  cut (fst (spawn_objects fuel settings n) = Ok tt
       \/ players (snd (spawn_objects fuel settings n)) = players n).
  { intros [H|H] Hne; [contradiction | exact H]. }
  revert n. unfold spawn_objects.
  destruct (objects_definition settings) as [json_actors|]; [|intros n; right; reflexivity].
  apply bind_keeps_or_returns; [apply keeps_lift|]. intros objects.
  apply bind_keeps_or_returns; [apply keeps_lift|]. intros entries.
  apply bind_keeps_or_returns; [apply keeps_classify; reflexivity|]. intros c.
  destruct (is_True (spawn_sensors_only settings) && negb (found_sensor_actor_list c));
    [intros n; right; reflexivity|].
  apply bind_keeps_or_returns.
  { apply keeps_try_except; [|intros e; apply keeps_raise].
    apply keeps_bind; [|intros ids n0; reflexivity].
    apply keeps_sensors_loop; [intros; reflexivity | apply keeps_players_spawn]. }
  intros _. apply bind_keeps_or_returns.
  { destruct (is_True (spawn_sensors_only settings)); [|apply keeps_ret].
    apply keeps_lookup_carla_ids. apply keeps_players_get_actor. }
  intros vehicles n. unfold try_except, bind, setup_vehicles.
  pose proof (keeps_vehicles_loop players (fun _ _ => eq_refl) keeps_players_spawn
                (fun g n0 => eq_refl) fuel settings vehicles [] n) as Hk.
  destruct (vehicles_loop fuel settings vehicles [] n) as [[ids|e|] n1]; cbn [fst snd] in *.
  - left. reflexivity.
  - right. exact Hk.
  - right. exact Hk.
Qed.


Lemma classify_app (sensors_only : value) (a b : list value) :
  forall (acc : classified) (n : Node),
    classify sensors_only (a ++ b) acc n
    = bind (classify sensors_only a acc) (fun acc' => classify sensors_only b acc') n.
Proof.
  induction a as [|x a IH]; intros acc n; [reflexivity|].
  cbn [app classify]. unfold bind at 1 2 3.
  destruct (classify_actor sensors_only x acc n) as [[acc'|e|] n']; try reflexivity.
  apply IH.
Qed.

Lemma classify_actor_error (sensors_only : value) (actor : value) (e : exn)
    (acc : classified) (n : Node) :
  entry_error actor = Some e ->
  classify_actor sensors_only actor acc n = (Raise e, n).
Proof.
  unfold entry_error, classify_actor.
  destruct actor; try (intros H; injection H as <-; reflexivity).
  unfold bind, lift, dict_subscript, subscript.
  destruct (dict_get "type" entries) as [type|].
  - destruct type; try discriminate; intros H; injection H as <-; reflexivity.
  - intros H; injection H as <-. reflexivity.
Qed.

(** X14. An entry of the configuration that is no object, has no [type], or
    has a [type] that is no string stops [spawn_objects] in the middle of the
    classification: the exception ([TypeError], [KeyError], [AttributeError])
    comes out as it is, the warnings for the ignored entries before it have
    been logged, and nothing has been asked of the simulator. *)
Theorem malformed_entry_stops_spawn_objects (fuel : nat) (settings : Settings) (cfg : dict)
    (good : list dict) (bad : value) (rest : list value) (e : exn) (n : Node) :
  objects_definition settings = Some (VDict cfg) ->
  dict_get "objects" cfg = Some (VList (map VDict good ++ bad :: rest)) ->
  Forall typed good ->
  entry_error bad = Some e ->
  spawn_objects fuel settings n
  = (Raise e, add_logged n (map ignored_warning (filter (routed Ignored) good))).
Proof.
  intros Hcfg Hobj Hgood Hbad. unfold spawn_objects. rewrite Hcfg.
  unfold bind at 1, lift, subscript. rewrite Hobj.
  unfold bind at 1, iter. unfold bind at 1.
  rewrite classify_app. unfold bind at 1.
  rewrite (classify_typed (spawn_sensors_only settings) good Hgood).
  cbn [classify]. unfold bind at 1.
  rewrite (classify_actor_error _ bad e _ _ Hbad). reflexivity.
Qed.

(** X15. In normal mode a vehicle without [type], without [id], or with an
    [id] that is no string makes [setup_vehicles] raise ([KeyError] or
    [TypeError]) before anything is logged or requested for it; the vehicles
    after it are not reached. *)
Theorem malformed_vehicle_stops_setup_vehicles (fuel : nat) (settings : Settings)
    (vehicle : dict) (rest : list dict) (e : exn) (n : Node) :
  is_True (spawn_sensors_only settings) = false ->
  vehicle_error vehicle = Some e ->
  setup_vehicles fuel settings (vehicle :: rest) n = (Raise e, n).
Proof.
  intros Hm He. unfold setup_vehicles. cbn [vehicles_loop]. rewrite Hm.
  unfold bind at 1, spawn_vehicle, bind at 1, lift, dict_subscript, subscript.
  unfold vehicle_error in He.
  destruct (dict_get "type" vehicle) as [type|]; [|injection He as <-; reflexivity].
  unfold bind at 1.
  destruct (dict_get "id" vehicle) as [vid|]; [|injection He as <-; reflexivity].
  unfold bind at 1, resolve_spawn_point, bind at 1, lift.
  destruct vid; try discriminate; injection He as <-; reflexivity.
Qed.


Lemma issues_setup_player_sensors (vehicle : dict) (player_id : Z) :
  issues (sensor_request (VInt player_id)) (sensor_count vehicle)
    (setup_player_sensors vehicle player_id).
Proof.
  unfold setup_player_sensors.
  rewrite <- (Nat.add_0_r (sensor_count vehicle)). apply issues_try_except.
  - apply issues_setup_sensors_of. intros group n. reflexivity.
  - intros e. apply issues_quiet. apply keeps_rospy_log. reflexivity.
Qed.

(** X16. A vehicle that [setup_vehicles] has spawned in normal mode cost a
    run of identical requests, the last of which was answered with its id,
    followed by the requests for its sensors: at most one per listed sensor,
    each attached to that id and none with a random pose. *)
Theorem spawned_player_requests (fuel : nat) (req : SpawnObjectRequest) (vehicle : dict)
    (players ps : list Z) (n n' : Node) :
  spawn_player fuel req vehicle players n = (Ok ps, n') ->
  exists i k reqs,
    ps = (players ++ [i])%list
    /\ i <> -1
    /\ spawn_calls n' = (spawn_calls n ++ repeat req (S k) ++ reqs)%list
    /\ Forall (fun r => random_pose r = false /\ attach_to r = VInt i) reqs
    /\ (length reqs <= sensor_count vehicle)%nat.
Proof.
  revert n. induction fuel as [|fuel IH]; intros n; cbn [spawn_player]; [discriminate|].
  unfold bind at 1.
  assert (Hcall : spawn_calls (snd (call_spawn_object req n)) = (spawn_calls n ++ [req])%list).
  { unfold call_spawn_object.
    destruct (spawn_object_service (backend n) req) as [b r]. reflexivity. }
  destruct (call_spawn_object req n) as [[response|e|] n1]; try discriminate.
  cbn [snd] in Hcall.
  destruct (id response =? -1) eqn:Ei; cbn [negb].
  - intros Hrun. destruct (IH n1 Hrun) as (i & k & reqs & Hps & Hi & Hs & Hok & Hlen).
    exists i, (S k), reqs. repeat split; auto.
    rewrite Hs, Hcall, <- app_assoc. reflexivity.
  - unfold bind, ret.
    destruct (issues_setup_player_sensors vehicle (id response) n1)
      as (reqs & Hs & Hok & Hlen).
    destruct (setup_player_sensors vehicle (id response) n1) as [[u|e|] n2];
      try discriminate.
    cbn [snd] in Hs. intros H; injection H as <- <-.
    exists (id response), 0%nat, reqs. repeat split; auto.
    + apply Z.eqb_neq. exact Ei.
    + rewrite Hs, Hcall, <- app_assoc. reflexivity.
Qed.


(** ** The ledger holds real ids *)

Lemma clean_same (n n' : Node) :
  global_sensors n' = global_sensors n ->
  vehicles_sensors n' = vehicles_sensors n ->
  players n' = players n ->
  clean n -> clean n'.
Proof. unfold clean. intros -> -> ->. auto. Qed.

Lemma yields_kept {A} (Q : A -> Prop) (m : M A) :
  ledger_kept m -> (forall n a, fst (m n) = Ok a -> Q a) -> yields Q m.
Proof.
  intros (Hg & Hv & Hp) HQ n Hc. split; [|apply HQ].
  exact (clean_same n _ (Hg n) (Hv n) (Hp n) Hc).
Qed.

Lemma yields_any {A} (Q : A -> Prop) (m : M A) :
  ledger_kept m -> (forall a, Q a) -> yields Q m.
Proof. intros Hk HQ. apply yields_kept; auto. Qed.

Lemma yields_fails {A} (Q : A -> Prop) (m : M A) :
  ledger_kept m -> (forall n a, fst (m n) <> Ok a) -> yields Q m.
Proof. intros Hk Hf. apply yields_kept; [exact Hk|]. intros n a H. elim (Hf n a H). Qed.

Lemma yields_bind {A C} (Q : A -> Prop) (R : C -> Prop) (m : M A) (k : A -> M C) :
  yields Q m -> (forall a, Q a -> yields R (k a)) -> yields R (bind m k).
Proof.
  intros Hm Hk n Hc. unfold bind. destruct (Hm n Hc) as [Hc1 HQ].
  destruct (m n) as [[a|e|] n1]; cbn [fst snd] in *.
  - exact (Hk a (HQ a eq_refl) n1 Hc1).
  - split; [exact Hc1 | discriminate].
  - split; [exact Hc1 | discriminate].
Qed.

Lemma yields_try_except {A} (Q : A -> Prop) (m : M A) (caught : exn -> bool)
    (handler : exn -> M A) :
  yields Q m -> (forall e, yields Q (handler e)) -> yields Q (try_except m caught handler).
Proof.
  intros Hm Hh n Hc. unfold try_except. destruct (Hm n Hc) as [Hc1 HQ].
  destruct (m n) as [[a|e|] n1]; cbn [fst snd] in *.
  - split; [exact Hc1 | exact HQ].
  - destruct (caught e); [exact (Hh e n1 Hc1) | split; [exact Hc1 | discriminate]].
  - split; [exact Hc1 | discriminate].
Qed.

Lemma ledger_kept_bind {A C} (m : M A) (k : A -> M C) :
  ledger_kept m -> (forall a, ledger_kept (k a)) -> ledger_kept (bind m k).
Proof.
  intros (Hg & Hv & Hp) Hk. repeat split; apply keeps_bind; auto; intros a; apply Hk.
Qed.

Lemma ledger_kept_pure {A} (m : M A) :
  (forall n, snd (m n) = n) -> ledger_kept m.
Proof. intros H. repeat split; intros n; rewrite H; reflexivity. Qed.

Lemma ledger_kept_log (l : level) (msg : message) : ledger_kept (rospy_log l msg).
Proof. repeat split; intros n; reflexivity. Qed.

Lemma ledger_kept_spawn (req : SpawnObjectRequest) : ledger_kept (call_spawn_object req).
Proof.
  repeat split; intros n; unfold call_spawn_object;
    destruct (spawn_object_service (backend n) req) as [b r]; reflexivity.
Qed.

Lemma ledger_kept_get_actor (role : value) (i : Z) : ledger_kept (call_get_actor role i).
Proof.
  repeat split; intros n; unfold call_get_actor;
    destruct (get_actor_service (backend n) role i) as [b r]; reflexivity.
Qed.

Lemma ledger_kept_setup_sensors (sensors : list value) (attached : value) :
  ledger_kept (setup_sensors sensors attached).
Proof.
  unfold setup_sensors.
  repeat split; apply keeps_sensors_loop;
    try (intros; reflexivity); intros req; apply ledger_kept_spawn.
Qed.

Lemma ledger_kept_classify (p : value) (entries : list value) (acc : classified) :
  ledger_kept (classify p entries acc).
Proof. repeat split; apply keeps_classify; reflexivity. Qed.

Lemma ledger_kept_resolve (settings : Settings) (vehicle : dict) (vid : value) :
  ledger_kept (resolve_spawn_point settings vehicle vid).
Proof. repeat split; apply keeps_resolve_spawn_point; reflexivity. Qed.

Lemma ledger_kept_lookup (vehicles : list dict) : ledger_kept (lookup_carla_ids vehicles).
Proof.
  repeat split; apply keeps_lookup_carla_ids; intros role i; apply ledger_kept_get_actor.
Qed.

Lemma yields_setup_sensors (sensors : list value) (attached : value) :
  yields (Forall real_id) (setup_sensors sensors attached).
Proof.
  apply yields_kept; [apply ledger_kept_setup_sensors|].
  intros n ids H. destruct (setup_sensors sensors attached n) as [r n'] eqn:E.
  cbn [fst] in H. subst r.
  exact (proj1 (setup_sensors_returns_real_ids sensors attached n n' ids E)).
Qed.

Lemma yields_append (group : list Z) :
  Forall real_id group -> yields (fun _ => True) (append_vehicles_sensors group).
Proof.
  intros Hg n (Hc1 & Hc2 & Hc3). split; [|auto].
  unfold append_vehicles_sensors, set_vehicles_sensors, clean. cbn.
  repeat split; auto. apply Forall_app. auto.
Qed.

(** The [try] bodies of lines 126 and 183-184. *)
Lemma yields_sensor_group (vehicle : dict) (attached : value) :
  yields (fun _ => True)
    (bind (lift (dict_subscript vehicle "sensors"))
       (fun sensors => bind (setup_sensors_of sensors attached)
                         (fun group => append_vehicles_sensors group))).
Proof.
  apply (yields_bind (fun _ => True)).
  - apply yields_any; [apply ledger_kept_pure; reflexivity | auto].
  - intros sensors _. apply (yields_bind (Forall real_id)).
    + unfold setup_sensors_of. apply (yields_bind (fun _ => True)).
      * apply yields_any; [apply ledger_kept_pure; reflexivity | auto].
      * intros l _. apply yields_setup_sensors.
    + intros group Hg. apply yields_append. exact Hg.
Qed.

Lemma yields_spawn_player (fuel : nat) (req : SpawnObjectRequest) (vehicle : dict)
    (players : list Z) :
  Forall real_id players ->
  yields (Forall real_id) (spawn_player fuel req vehicle players).
Proof.
  intros Hp. induction fuel as [|fuel IH]; cbn [spawn_player].
  - apply yields_fails; [apply ledger_kept_pure; reflexivity | discriminate].
  - apply (yields_bind (fun _ => True)).
    + apply yields_any; [apply ledger_kept_spawn | auto].
    + intros response _. destruct (id response =? -1) eqn:Ei; cbn [negb]; [exact IH|].
      apply (yields_bind (fun _ => True)).
      * unfold setup_player_sensors. apply yields_try_except.
        -- apply yields_sensor_group.
        -- intros e. apply yields_any; [apply ledger_kept_log | auto].
      * intros _ _. apply yields_kept; [apply ledger_kept_pure; reflexivity|].
        intros n a H. injection H as <-. apply Forall_app. split; [exact Hp|].
        constructor; [|constructor]. apply Z.eqb_neq. exact Ei.
Qed.

Lemma yields_vehicles_loop (fuel : nat) (settings : Settings) (vehicles : list dict) :
  forall players,
    Forall real_id players ->
    yields (Forall real_id) (vehicles_loop fuel settings vehicles players).
Proof.
  induction vehicles as [|vehicle rest IH]; intros players Hp; cbn [vehicles_loop].
  - apply yields_kept; [apply ledger_kept_pure; reflexivity|].
    intros n a H. injection H as <-. exact Hp.
  - destruct (is_True (spawn_sensors_only settings)).
    + destruct (dict_subscript vehicle "carla_id") as [carla_id|e|].
      * apply (yields_bind (fun _ => True)); [|intros _ _; apply IH; exact Hp].
        unfold setup_spawned_vehicle_sensors. apply yields_try_except.
        -- apply yields_sensor_group.
        -- intros e. apply yields_any; [|auto].
           apply ledger_kept_bind; [apply ledger_kept_pure; reflexivity|].
           intros vid. apply ledger_kept_pure. reflexivity.
      * destruct e;
          try (apply yields_fails; [apply ledger_kept_pure; reflexivity | discriminate]).
        apply (yields_bind (fun _ => True)).
        -- apply yields_any; [apply ledger_kept_pure; reflexivity | auto].
        -- intros vid _. apply (yields_bind (fun _ => True)).
           ++ apply yields_any; [apply ledger_kept_log | auto].
           ++ intros _ _. apply yields_kept; [apply ledger_kept_pure; reflexivity|].
              intros n a H. injection H as <-. exact Hp.
      * apply yields_fails; [apply ledger_kept_pure; reflexivity | discriminate].
    + apply (yields_bind (Forall real_id)); [|intros players' Hp'; apply IH; exact Hp'].
      unfold spawn_vehicle.
      apply (yields_bind (fun _ => True)).
      { apply yields_any; [apply ledger_kept_pure; reflexivity | auto]. }
      intros type _. apply (yields_bind (fun _ => True)).
      { apply yields_any; [apply ledger_kept_pure; reflexivity | auto]. }
      intros vid _. apply (yields_bind (fun _ => True)).
      { apply yields_any; [apply ledger_kept_resolve | auto]. }
      intros resolved _. apply yields_spawn_player. exact Hp.
Qed.

Lemma yields_spawn_objects (fuel : nat) (settings : Settings) :
  yields (fun _ => True) (spawn_objects fuel settings).
Proof.
  unfold spawn_objects.
  destruct (objects_definition settings) as [json_actors|];
    [|apply yields_any; [apply ledger_kept_pure; reflexivity | auto]].
  apply (yields_bind (fun _ => True)).
  { apply yields_any; [apply ledger_kept_pure; reflexivity | auto]. }
  intros objects _. apply (yields_bind (fun _ => True)).
  { apply yields_any; [apply ledger_kept_pure; reflexivity | auto]. }
  intros entries _. apply (yields_bind (fun _ => True)).
  { apply yields_any; [apply ledger_kept_classify | auto]. }
  intros c _.
  destruct (is_True (spawn_sensors_only settings) && negb (found_sensor_actor_list c));
    [apply yields_any; [apply ledger_kept_pure; reflexivity | auto]|].
  apply (yields_bind (fun _ => True)).
  { apply yields_try_except.
    - apply (yields_bind (Forall real_id)); [apply yields_setup_sensors|].
      intros ids Hids n (Hc1 & Hc2 & Hc3). split; [|auto].
      unfold set_global_sensors, clean. cbn. auto.
    - intros e. apply yields_any; [apply ledger_kept_pure; reflexivity | auto]. }
  intros _ _. apply (yields_bind (fun _ => True)).
  { destruct (is_True (spawn_sensors_only settings)).
    - apply yields_any; [apply ledger_kept_lookup | auto].
    - apply yields_any; [apply ledger_kept_pure; reflexivity | auto]. }
  intros vehicles _. apply yields_try_except.
  - apply (yields_bind (Forall real_id)).
    + unfold setup_vehicles. apply yields_vehicles_loop. constructor.
    + intros ids Hids n (Hc1 & Hc2 & Hc3). split; [|auto].
      unfold set_players, clean. cbn. auto.
  - intros e. apply yields_any; [apply ledger_kept_pure; reflexivity | auto].
Qed.

(** X17. [spawn_objects] never records the failure sentinel: if the three
    collections hold no -1 before the call they hold none after it, whether
    the call returns or raises. *)
Theorem spawn_objects_records_real_ids (fuel : nat) (settings : Settings) (n : Node) :
  clean n -> clean (snd (spawn_objects fuel settings n)).
Proof. intros Hc. exact (proj1 (yields_spawn_objects fuel settings n Hc)). Qed.

(** X18. A [destroy] that follows a [spawn_objects] on a clean node asks the
    simulator to destroy real ids only, never -1, and leaves the node with
    nothing recorded. *)
Theorem teardown_of_real_ids (fuel : nat) (settings : Settings) (n : Node) :
  clean n ->
  exists ids,
    destroy_calls (snd (destroy (snd (spawn_objects fuel settings n))))
    = (destroy_calls n ++ ids)%list
    /\ Forall real_id ids
    /\ recorded (snd (destroy (snd (spawn_objects fuel settings n)))) = [].
Proof.
  intros Hc. exists (recorded (snd (spawn_objects fuel settings n))).
  rewrite destroy_spec. cbn [snd destroy_calls cleared after_destroy_calls].
  rewrite (keeps_destroy_calls_spawn_objects fuel settings n).
  split; [reflexivity|]. split; [|reflexivity].
  destruct (proj1 (yields_spawn_objects fuel settings n Hc)) as (H1 & H2 & H3).
  unfold recorded. apply Forall_app. split; [exact H1|]. apply Forall_app. split; [|exact H3].
  apply Forall_concat. exact H2.
Qed.

(** ** Sensors-only mode: the vehicle without a carla id *)

Lemma lookup_carla_ids_known (vehicles vehicles' : list dict) (n n' : Node) :
  lookup_carla_ids vehicles n = (Ok vehicles', n') -> Forall has_carla_id vehicles'.
Proof.
  revert vehicles' n n'. induction vehicles as [|v vehicles IH]; intros vehicles' n n';
    cbn [lookup_carla_ids].
  - unfold ret. intros H; injection H as <- _. constructor.
  - unfold bind at 1, lift, dict_subscript, subscript.
    destruct (dict_get "id" v) as [role|]; try discriminate.
    unfold bind at 1, call_get_actor.
    destruct (get_actor_service (backend n) role (-1)) as [b [i|text]]; try discriminate.
    unfold bind at 1.
    match goal with
    | |- context [lookup_carla_ids vehicles ?m] =>
        destruct (lookup_carla_ids vehicles m) as [[vs|e|] n1] eqn:El; try discriminate
    end.
    unfold ret. intros H; injection H as <- _.
    constructor; [exists i; apply dict_get_set_same | exact (IH _ _ _ El)].
Qed.

Lemma keeps_bind_post {X A C} (field : Node -> X) (Q : A -> Prop) (m : M A) (k : A -> M C) :
  (forall n a n', m n = (Ok a, n') -> Q a) ->
  keeps field m -> (forall a, Q a -> keeps field (k a)) -> keeps field (bind m k).
Proof.
  intros HQ Hm Hk n. unfold bind. specialize (Hm n). specialize (HQ n).
  destruct (m n) as [[a|e|] n']; cbn [snd] in *; auto.
  rewrite (Hk a (HQ a n' eq_refl) n'). exact Hm.
Qed.

Lemma quiet_rospy_log (l : level) (m : message) :
  is_CarlaIdUnknown (l, m) = false -> keeps unknown_id_errors (rospy_log l m).
Proof.
  intros H n. unfold unknown_id_errors, rospy_log, add_logged. cbn [snd logged].
  rewrite filter_app. cbn [filter]. rewrite H. apply app_nil_r.
Qed.

Lemma quiet_call_spawn_object (req : SpawnObjectRequest) :
  keeps unknown_id_errors (call_spawn_object req).
Proof.
  intros n. unfold call_spawn_object.
  destruct (spawn_object_service (backend n) req) as [b r]. reflexivity.
Qed.

Lemma quiet_call_get_actor (role : value) (i : Z) :
  keeps unknown_id_errors (call_get_actor role i).
Proof.
  intros n. unfold call_get_actor.
  destruct (get_actor_service (backend n) role i) as [b r]. reflexivity.
Qed.

Lemma quiet_classify (sensors_only : value) (entries : list value) (acc : classified) :
  keeps unknown_id_errors (classify sensors_only entries acc).
Proof.
  revert acc. induction entries as [|actor entries IH]; intros acc; cbn [classify].
  - apply keeps_ret.
  - apply keeps_bind; [|exact IH].
    unfold classify_actor. destruct actor; try apply keeps_raise.
    apply keeps_bind; [apply keeps_lift|]. intros type.
    destruct type; try apply keeps_raise.
    destruct (classify_type sensors_only s) as [[] found]; try apply keeps_ret.
    apply keeps_bind; [apply quiet_rospy_log; reflexivity | intros _; apply keeps_ret].
Qed.

Lemma quiet_spawn_sensor (sensor_spec attached : value) (L : sensor_locals) :
  keeps unknown_id_errors (spawn_sensor sensor_spec attached L).
Proof.
  unfold spawn_sensor. destruct (prepare_sensor sensor_spec attached L) as [L1 prepared].
  apply keeps_try_except.
  - apply keeps_bind; [apply keeps_lift|]. intros req.
    apply keeps_bind; [apply quiet_call_spawn_object|]. intros response.
    destruct (id response =? -1); [apply keeps_raise | apply keeps_ret].
  - intros e. unfold sensor_failed. destruct (sensor_name L1); [|apply keeps_raise].
    apply keeps_bind; [|intros _; apply keeps_ret].
    apply quiet_rospy_log. destruct (is_KeyError e); reflexivity.
Qed.

Lemma quiet_sensors_loop (sensors : list value) (attached : value) (L : sensor_locals) :
  keeps unknown_id_errors (sensors_loop sensors attached L).
Proof.
  revert L. induction sensors as [|s sensors IH]; intros L; cbn [sensors_loop].
  - apply keeps_ret.
  - apply keeps_bind; [apply quiet_spawn_sensor | exact IH].
Qed.

Lemma quiet_setup_spawned_vehicle_sensors (vehicle : dict) (carla_id : value) :
  keeps unknown_id_errors (setup_spawned_vehicle_sensors vehicle carla_id).
Proof.
  unfold setup_spawned_vehicle_sensors. apply keeps_try_except.
  - apply keeps_bind; [apply keeps_lift|]. intros sensors.
    apply keeps_bind; [|intros group n; reflexivity].
    unfold setup_sensors_of, setup_sensors.
    apply keeps_bind; [apply keeps_lift | intros l; apply quiet_sensors_loop].
  - intros e. apply keeps_bind; [apply keeps_lift | intros i; apply keeps_raise].
Qed.

Lemma quiet_vehicles_loop (fuel : nat) (settings : Settings) (vehicles : list dict)
    (players : list Z) :
  spawn_sensors_only settings = VBool true ->
  Forall has_carla_id vehicles ->
  keeps unknown_id_errors (vehicles_loop fuel settings vehicles players).
Proof.
  intros Hm Hk. induction Hk as [|vehicle rest [i Hi] _ IH]; cbn [vehicles_loop].
  - apply keeps_ret.
  - rewrite Hm. cbn [is_True]. unfold dict_subscript, subscript. rewrite Hi.
    apply keeps_bind; [apply quiet_setup_spawned_vehicle_sensors | intros _; exact IH].
Qed.

Lemma quiet_spawn_objects (fuel : nat) (settings : Settings) :
  spawn_sensors_only settings = VBool true ->
  keeps unknown_id_errors (spawn_objects fuel settings).
Proof.
  intros Hm. unfold spawn_objects.
  destruct (objects_definition settings) as [json_actors|]; [|apply keeps_raise].
  apply keeps_bind; [apply keeps_lift|]. intros objects.
  apply keeps_bind; [apply keeps_lift|]. intros entries.
  apply keeps_bind; [apply quiet_classify|]. intros c.
  destruct (is_True (spawn_sensors_only settings) && negb (found_sensor_actor_list c));
    [apply keeps_raise|].
  apply keeps_bind.
  { apply keeps_try_except; [|intros e; apply keeps_raise].
    apply keeps_bind; [|intros ids n0; reflexivity].
    apply quiet_sensors_loop. }
  intros _. rewrite Hm. cbn [is_True].
  apply (keeps_bind_post unknown_id_errors (Forall has_carla_id)).
  - intros n vehicles n'. apply lookup_carla_ids_known.
  - apply keeps_lookup_carla_ids. apply quiet_call_get_actor.
  - intros vehicles Hk. apply keeps_try_except; [|intros e; apply keeps_raise].
    apply keeps_bind; [|intros ids n0; reflexivity].
    apply quiet_vehicles_loop; assumption.
Qed.

(** C2, as the code has it.  In sensors-only mode a vehicle without a
    [carla_id] ends the loop of [setup_vehicles]: the error is logged and the
    players collected so far are returned at once, whatever vehicles were
    still to come; nothing is asked of the simulator for them.
    [spawn_objects] never gets there: the lookups of lines 104-106, when they
    return, have given every vehicle a [carla_id], and no run of
    [spawn_objects] in this mode logs the error. *)
Theorem unknown_carla_id_ends_the_loop (fuel : nat) (settings : Settings) :
  spawn_sensors_only settings = VBool true ->
  (forall vehicle vehicle_id rest players n,
      dict_get "carla_id" vehicle = None ->
      dict_get "id" vehicle = Some vehicle_id ->
      vehicles_loop fuel settings (vehicle :: rest) players n
      = (Ok players, add_logged n [(Err, CarlaIdUnknown vehicle_id)]))
  /\ (forall vehicles vehicles' n n',
        lookup_carla_ids vehicles n = (Ok vehicles', n') ->
        Forall (fun vehicle => exists i, dict_get "carla_id" vehicle = Some (VInt i))
               vehicles')
  /\ (forall n,
        unknown_id_errors (snd (spawn_objects fuel settings n)) = unknown_id_errors n).
Proof.
  intros Hm. split; [|split].
  - intros vehicle vehicle_id rest players n Hc Hi. cbn [vehicles_loop].
    rewrite Hm. cbn [is_True]. unfold dict_subscript, subscript. rewrite Hc, Hi.
    reflexivity.
  - exact lookup_carla_ids_known.
  - exact (quiet_spawn_objects fuel settings Hm).
Qed.

(** ** The spawn point of the request *)

Lemma spawn_player_asks (fuel : nat) (req : SpawnObjectRequest) (vehicle : dict)
    (players : list Z) :
  forall n, exists reqs,
    spawn_calls (snd (spawn_player fuel req vehicle players n))
    = (spawn_calls n ++ reqs)%list.
Proof.
  induction fuel as [|fuel IH]; intros n; cbn [spawn_player].
  - exists []. rewrite app_nil_r. reflexivity.
  - unfold bind at 1.
    assert (Hcall : spawn_calls (snd (call_spawn_object req n))
                    = (spawn_calls n ++ [req])%list).
    { unfold call_spawn_object.
      destruct (spawn_object_service (backend n) req) as [b r]. reflexivity. }
    destruct (call_spawn_object req n) as [[response|e|] n1]; cbn [snd] in *;
      try (exists [req]; exact Hcall).
    destruct (negb (id response =? -1)).
    + unfold bind, ret.
      destruct (issues_setup_player_sensors vehicle (id response) n1)
        as (reqs & Hs & _ & _).
      exists (req :: reqs).
      destruct (setup_player_sensors vehicle (id response) n1) as [[u|e|] n2];
        cbn [snd] in *; rewrite Hs, Hcall, <- app_assoc; reflexivity.
    + destruct (IH n1) as [reqs Hs]. exists (req :: reqs).
      rewrite Hs, Hcall, <- app_assoc. reflexivity.
Qed.

Lemma spawn_player_first_request (fuel : nat) (req : SpawnObjectRequest) (vehicle : dict)
    (players : list Z) (n : Node) :
  exists more,
    spawn_calls (snd (spawn_player (S fuel) req vehicle players n))
    = (spawn_calls n ++ req :: more)%list.
Proof.
  cbn [spawn_player]. unfold bind at 1.
  assert (Hcall : spawn_calls (snd (call_spawn_object req n))
                  = (spawn_calls n ++ [req])%list).
  { unfold call_spawn_object.
    destruct (spawn_object_service (backend n) req) as [b r]. reflexivity. }
  destruct (call_spawn_object req n) as [[response|e|] n1]; cbn [snd] in *;
    try (exists []; exact Hcall).
  destruct (negb (id response =? -1)).
  - unfold bind, ret.
    destruct (issues_setup_player_sensors vehicle (id response) n1)
      as (reqs & Hs & _ & _).
    exists reqs.
    destruct (setup_player_sensors vehicle (id response) n1) as [[u|e|] n2];
      cbn [snd] in *; rewrite Hs, Hcall, <- app_assoc; reflexivity.
  - destruct (spawn_player_asks fuel req vehicle players n1) as [reqs Hs].
    exists reqs. rewrite Hs, Hcall, <- app_assoc. reflexivity.
Qed.

Lemma resolve_keeps_spawn_calls (settings : Settings) (vehicle : dict) (vehicle_id : value) :
  keeps spawn_calls (resolve_spawn_point settings vehicle vehicle_id).
Proof. apply keeps_resolve_spawn_point. intros n entries. reflexivity. Qed.

Lemma spawn_vehicle_request (fuel : nat) (settings : Settings) (vehicle : dict)
    (vid : string) (type : value) (players : list Z) (pose : Pose) (random : bool)
    (n : Node) :
  dict_get "type" vehicle = Some type ->
  dict_get "id" vehicle = Some (VStr vid) ->
  fst (resolve_spawn_point settings vehicle (VStr vid) n) = Ok (pose, random) ->
  exists more,
    spawn_calls (snd (spawn_vehicle (S fuel) settings vehicle players n))
    = (spawn_calls n
       ++ {| req_type := type; req_id := VStr vid; attach_to := VInt 0;
             transform := pose; random_pose := random; attributes := [] |}
          :: more)%list.
Proof.
  intros Ht Hi Hr. unfold spawn_vehicle, bind, lift, dict_subscript, subscript.
  rewrite Ht, Hi.
  pose proof (resolve_keeps_spawn_calls settings vehicle (VStr vid) n) as Hk.
  destruct (resolve_spawn_point settings vehicle (VStr vid) n) as [r n1].
  cbn [fst snd] in Hr, Hk. subst r. cbn [fst snd]. rewrite <- Hk.
  apply spawn_player_first_request.
Qed.

Lemma spawn_vehicle_unresolved (fuel : nat) (settings : Settings) (vehicle : dict)
    (vid : string) (type : value) (players : list Z) (e : exn) (n : Node) :
  dict_get "type" vehicle = Some type ->
  dict_get "id" vehicle = Some (VStr vid) ->
  fst (resolve_spawn_point settings vehicle (VStr vid) n) = Raise e ->
  fst (spawn_vehicle fuel settings vehicle players n) = Raise e
  /\ spawn_calls (snd (spawn_vehicle fuel settings vehicle players n)) = spawn_calls n.
Proof.
  intros Ht Hi Hr. unfold spawn_vehicle, bind, lift, dict_subscript, subscript.
  rewrite Ht, Hi.
  pose proof (resolve_keeps_spawn_calls settings vehicle (VStr vid) n) as Hk.
  destruct (resolve_spawn_point settings vehicle (VStr vid) n) as [r n1].
  cbn [fst snd] in Hr, Hk. subst r. split; [reflexivity | exact Hk].
Qed.

(** C3, as the code has it.  With [p] the runtime override registered for
    the entity: a usable override (six fields that [float()] accepts, the
    three angles accepted by [quaternion_from_euler]) gives the pose of the
    request, whatever the config holds.  With [p] absent or unusable the
    config decides: without a [spawn_point], or with a [spawn_point] object
    that lacks one of the six fields, the request asks for a random pose with
    the empty pose attached; with the six fields present
    [create_spawn_point] is applied to them and its pose is used, or its
    exception leaves the resolution, with no request made; a [spawn_point]
    that is no object raises [TypeError].  So a random pose is asked for
    exactly when the override is not usable and the config has no
    [spawn_point] or an incomplete one, and not whenever no pose was
    found.  What the resolution returns is what the request carries: the
    first request of the vehicle has that pose and that [random_pose], and
    when the resolution raises no request is made. *)
Theorem spawn_point_precedence (settings : Settings) (vehicle : dict) (vid : string)
    (n : Node) :
  let p := spawn_point_param_of settings vid in
  let resolved := fst (resolve_spawn_point settings vehicle (VStr vid) n) in
  (forall pose, override_pose p = Some pose -> resolved = Ok (pose, false))
  /\ (forall pose,
        override_pose p = None -> config_pose vehicle = Some pose ->
        resolved = Ok (pose, false))
  /\ (override_pose p = None -> dict_get "spawn_point" vehicle = None ->
      resolved = Ok (empty_Pose, true))
  /\ (forall sp,
        override_pose p = None -> dict_get "spawn_point" vehicle = Some (VDict sp) ->
        config_fields vehicle = None ->
        resolved = Ok (empty_Pose, true))
  /\ (forall x y z roll pitch yaw e,
        override_pose p = None ->
        config_fields vehicle = Some (x, y, z, roll, pitch, yaw) ->
        create_spawn_point x y z roll pitch yaw = Raise e ->
        resolved = Raise e
        /\ (e = TypeError \/ e = OverflowError \/ e = ValueError "math domain error"))
  /\ (forall v,
        override_pose p = None -> dict_get "spawn_point" vehicle = Some v ->
        (forall sp, v <> VDict sp) ->
        resolved = Raise TypeError)
  /\ ((exists pose, resolved = Ok (pose, true))
      <-> override_pose p = None
          /\ (dict_get "spawn_point" vehicle = None
              \/ exists sp, dict_get "spawn_point" vehicle = Some (VDict sp)
                            /\ config_fields vehicle = None))
  /\ (forall pose, resolved = Ok (pose, true) -> pose = empty_Pose)
  /\ (forall type fuel players pose random,
        dict_get "type" vehicle = Some type -> dict_get "id" vehicle = Some (VStr vid) ->
        resolved = Ok (pose, random) ->
        exists more,
          spawn_calls (snd (spawn_vehicle (S fuel) settings vehicle players n))
          = (spawn_calls n
             ++ {| req_type := type; req_id := VStr vid; attach_to := VInt 0;
                   transform := pose; random_pose := random; attributes := [] |}
                :: more)%list)
  /\ (forall type fuel players e,
        dict_get "type" vehicle = Some type -> dict_get "id" vehicle = Some (VStr vid) ->
        resolved = Raise e ->
        fst (spawn_vehicle fuel settings vehicle players n) = Raise e
        /\ spawn_calls (snd (spawn_vehicle fuel settings vehicle players n)) = spawn_calls n).
Proof.
  intros p resolved.
  assert (H1 : forall pose, override_pose p = Some pose -> resolved = Ok (pose, false)).
  { intros pose H. unfold resolved.
    rewrite (resolve_from_parameters settings vehicle vid n pose H). reflexivity. }
  assert (H3 : override_pose p = None
               -> (dict_get "spawn_point" vehicle = None
                   \/ exists sp, dict_get "spawn_point" vehicle = Some (VDict sp)
                                 /\ config_fields vehicle = None)
               -> resolved = Ok (empty_Pose, true)).
  { exact (resolve_random settings vehicle vid n). }
  assert (H5 : forall x y z roll pitch yaw,
             override_pose p = None ->
             config_fields vehicle = Some (x, y, z, roll, pitch, yaw) ->
             resolved = match create_spawn_point x y z roll pitch yaw with
                        | Ok pose => Ok (pose, false)
                        | Raise e => Raise e
                        | OutOfFuel => OutOfFuel
                        end).
  { exact (resolve_from_config settings vehicle vid n). }
  assert (H6 : forall v, override_pose p = None -> dict_get "spawn_point" vehicle = Some v ->
                         (forall sp, v <> VDict sp) -> resolved = Raise TypeError).
  { exact (resolve_malformed settings vehicle vid n). }
  assert (H7 : forall pose, resolved = Ok (pose, true) ->
                            override_pose p = None
                            /\ (dict_get "spawn_point" vehicle = None
                                \/ exists sp, dict_get "spawn_point" vehicle = Some (VDict sp)
                                              /\ config_fields vehicle = None)).
  { intros pose Hr. destruct (override_pose p) as [pose'|] eqn:Hp.
    { rewrite (H1 pose' eq_refl) in Hr. discriminate. }
    split; [reflexivity|].
    destruct (dict_get "spawn_point" vehicle) as [v|] eqn:Hsp; [|left; reflexivity].
    right. destruct v;
      try (rewrite (H6 _ eq_refl eq_refl) in Hr by (intros sp; discriminate); discriminate).
    exists entries. split; [reflexivity|].
    destruct (config_fields vehicle) as [[[[[[x y] z] roll] pitch] yaw]|] eqn:Hf;
      [|reflexivity].
    rewrite (H5 _ _ _ _ _ _ eq_refl eq_refl) in Hr.
    destruct (create_spawn_point x y z roll pitch yaw); discriminate. }
  split; [exact H1|].
  split; [|split; [|split; [|split; [|split; [|split; [|split; [|split]]]]]]].
  - intros pose Hp Hc.
    destruct (config_pose_fields _ _ Hc) as (x & y & z & roll & pitch & yaw & Hf & Hv).
    rewrite (H5 _ _ _ _ _ _ Hp Hf), Hv. reflexivity.
  - intros Hp Hsp. apply (H3 Hp). left. exact Hsp.
  - intros sp Hp Hsp Hf. apply (H3 Hp). right. exists sp. auto.
  - intros x y z roll pitch yaw e Hp Hf He. split.
    + rewrite (H5 _ _ _ _ _ _ Hp Hf), He. reflexivity.
    + exact (create_spawn_point_raises _ _ _ _ _ _ _ He).
  - exact H6.
  - split.
    + intros [pose Hr]. exact (H7 pose Hr).
    + intros [Hp Hc]. exists empty_Pose. exact (H3 Hp Hc).
  - intros pose Hr. destruct (H7 pose Hr) as [Hp Hc].
    rewrite (H3 Hp Hc) in Hr. injection Hr as <-. reflexivity.
  - intros type fuel players pose random Ht Hi Hr.
    apply spawn_vehicle_request; assumption.
  - intros type fuel players e Ht Hi Hr.
    apply (spawn_vehicle_unresolved fuel settings vehicle vid type players e n);
      assumption.
Qed.

End Properties.

(** * The theorems at work on the scripted simulator *)

#[local] Existing Instance Scripted.floats.
#[local] Existing Instance Scripted.printer.



Lemma spawn_point_precedence_witness :
  fst (resolve_spawn_point
         (Scripted.settings VNone [] (Scripted.launch_parameters "4,5,6,0,0,180"))
         Scripted.ego_placed (VStr "ego_vehicle") (Scripted.fresh [] [] []))
  = Ok (Scripted.pose 4 5 6 0 0 180, false)
  /\ fst (resolve_spawn_point
            (Scripted.settings VNone [] (Scripted.launch_parameters "4,5,6,0,0"))
            Scripted.ego_placed (VStr "ego_vehicle") (Scripted.fresh [] [] []))
     = Ok (Scripted.pose 1 2 3 0 0 90, false)
  /\ fst (resolve_spawn_point
            (Scripted.settings VNone [] Scripted.no_parameters)
            Scripted.ego (VStr "ego_vehicle") (Scripted.fresh [] [] []))
     = Ok (empty_Pose, true)
  /\ fst (resolve_spawn_point
            (Scripted.settings VNone [] (Scripted.launch_parameters "4,5,6"))
            Scripted.ego_xyz (VStr "ego_vehicle") (Scripted.fresh [] [] []))
     = Ok (empty_Pose, true)
  /\ fst (resolve_spawn_point
            (Scripted.settings VNone [] Scripted.no_parameters)
            Scripted.ego_text_pitch (VStr "ego_vehicle") (Scripted.fresh [] [] []))
     = Raise TypeError
  /\ (exists more,
        spawn_calls
          (snd (spawn_vehicle 1 (Scripted.settings VNone [] Scripted.no_parameters)
                  Scripted.ego [] (Scripted.fresh [42] [] [])))
        = Scripted.ego_request :: more).
Proof.
  split; [|split; [|split; [|split; [|split]]]].
  - apply (proj1 (spawn_point_precedence
                    (Scripted.settings VNone [] (Scripted.launch_parameters "4,5,6,0,0,180"))
                    Scripted.ego_placed "ego_vehicle" (Scripted.fresh [] [] []))).
    reflexivity.
  - apply (proj1 (proj2 (spawn_point_precedence
                    (Scripted.settings VNone [] (Scripted.launch_parameters "4,5,6,0,0"))
                    Scripted.ego_placed "ego_vehicle" (Scripted.fresh [] [] []))));
      reflexivity.
  - apply (proj1 (proj2 (proj2 (spawn_point_precedence
                    (Scripted.settings VNone [] Scripted.no_parameters)
                    Scripted.ego "ego_vehicle" (Scripted.fresh [] [] [])))));
      reflexivity.
  - apply (proj1 (proj2 (proj2 (proj2 (spawn_point_precedence
                    (Scripted.settings VNone [] (Scripted.launch_parameters "4,5,6"))
                    Scripted.ego_xyz "ego_vehicle" (Scripted.fresh [] [] [])))))
             [("x", Scripted.num 1); ("y", Scripted.num 2); ("z", Scripted.num 3)]);
      reflexivity.
  - apply (proj1 (proj1 (proj2 (proj2 (proj2 (proj2 (spawn_point_precedence
                    (Scripted.settings VNone [] Scripted.no_parameters)
                    Scripted.ego_text_pitch "ego_vehicle" (Scripted.fresh [] [] []))))))
             (Scripted.num 1) (Scripted.num 2) (Scripted.num 3)
             (Scripted.num 0) (VStr "0") (Scripted.num 90) TypeError
             eq_refl eq_refl eq_refl)).
  - exact (proj1 (proj2 (proj2 (proj2 (proj2 (proj2 (proj2 (proj2 (proj2
             (spawn_point_precedence
                (Scripted.settings VNone [] Scripted.no_parameters)
                Scripted.ego "ego_vehicle" (Scripted.fresh [42] [] []))))))))))
             (VStr "vehicle.tesla.model3") 0%nat [] empty_Pose true
             eq_refl eq_refl eq_refl).
Defined.

(** The claim C3 as the specification words it, refuted.  A config spawn
    point with its six fields whose pitch is the text ["0"] yields no pose,
    and neither does the absent override; yet no random pose is asked for:
    [math.radians] raises [TypeError], which [except KeyError] lets through,
    and [setup_vehicles] ends with it before any request.  And an override
    of six fields that [float()] accepts is not used when one of its angles
    is infinite: the config pose is. *)
Lemma unusable_angle_is_not_random_placement :
  override_pose (spawn_point_param_of (Scripted.settings VNone [] Scripted.no_parameters)
                   "ego_vehicle") = None
  /\ config_pose Scripted.ego_text_pitch = None
  /\ fst (resolve_spawn_point (Scripted.settings VNone [] Scripted.no_parameters)
            Scripted.ego_text_pitch (VStr "ego_vehicle") (Scripted.fresh [42] [] []))
     = Raise TypeError
  /\ setup_vehicles 3 (Scripted.settings VNone [] Scripted.no_parameters)
       [Scripted.ego_text_pitch] (Scripted.fresh [42] [] [])
     = (Raise TypeError, Scripted.fresh [42] [] [])
  /\ map float_of_str (split "," "4,5,6,inf,0,0")
     = [Some 4; Some 5; Some 6; Some Scripted.huge; Some 0; Some 0]
  /\ check_spawn_point_param (VStr "4,5,6,inf,0,0") = Raise (ValueError "math domain error")
  /\ fst (resolve_spawn_point
            (Scripted.settings VNone [] (Scripted.launch_parameters "4,5,6,inf,0,0"))
            Scripted.ego_placed (VStr "ego_vehicle") (Scripted.fresh [42] [] []))
     = Ok (Scripted.pose 1 2 3 0 0 90, false).
Proof. repeat split; reflexivity. Qed.

Lemma unknown_carla_id_ends_the_loop_witness :
  vehicles_loop 3 (Scripted.settings (VBool true) [] Scripted.no_parameters)
    [Scripted.hero_unknown; Scripted.second_known] [] (Scripted.fresh [11] [] [])
  = (Ok [], add_logged (Scripted.fresh [11] [] []) [(Err, CarlaIdUnknown (VStr "hero"))])
  /\ unknown_id_errors
       (snd (spawn_objects 3
               (Scripted.settings (VBool true)
                  [VDict Scripted.actor_list; VDict Scripted.hero_unknown]
                  Scripted.no_parameters)
               (Scripted.fresh [9; 11] [] [("hero", 5)])))
     = []
  /\ vehicles_sensors
       (snd (spawn_objects 3
               (Scripted.settings (VBool true)
                  [VDict Scripted.actor_list; VDict Scripted.hero_unknown]
                  Scripted.no_parameters)
               (Scripted.fresh [9; 11] [] [("hero", 5)])))
     = [[11]].
Proof.
  split; [|split].
  - apply (proj1 (unknown_carla_id_ends_the_loop 3
                    (Scripted.settings (VBool true) [] Scripted.no_parameters) eq_refl));
      reflexivity.
  - apply (proj2 (proj2 (unknown_carla_id_ends_the_loop 3
                           (Scripted.settings (VBool true)
                              [VDict Scripted.actor_list; VDict Scripted.hero_unknown]
                              Scripted.no_parameters) eq_refl))).
  - reflexivity.
Defined.

(** The claim C2 as the specification words it, refuted.  [setup_vehicles]
    in sensors-only mode with a first vehicle that has no [carla_id] and a
    second one that is actor 7 and carries a lidar: the error is logged for
    the first and that is all, no request is made and no sensor group
    recorded.  Had the loop gone on to the next entity, the second vehicle
    alone shows what would have followed: one request and the group [[11]]. *)
Lemma unknown_carla_id_drops_the_next_vehicle :
  setup_vehicles 3 (Scripted.settings (VBool true) [] Scripted.no_parameters)
    [Scripted.hero_unknown; Scripted.second_known] (Scripted.fresh [11] [] [])
  = (Ok [], add_logged (Scripted.fresh [11] [] []) [(Err, CarlaIdUnknown (VStr "hero"))])
  /\ spawn_calls
       (snd (setup_vehicles 3 (Scripted.settings (VBool true) [] Scripted.no_parameters)
               [Scripted.hero_unknown; Scripted.second_known] (Scripted.fresh [11] [] [])))
     = []
  /\ vehicles_sensors
       (snd (setup_vehicles 3 (Scripted.settings (VBool true) [] Scripted.no_parameters)
               [Scripted.hero_unknown; Scripted.second_known] (Scripted.fresh [11] [] [])))
     = []
  /\ length (spawn_calls
               (snd (setup_vehicles 3
                       (Scripted.settings (VBool true) [] Scripted.no_parameters)
                       [Scripted.second_known]
                       (add_logged (Scripted.fresh [11] [] [])
                          [(Err, CarlaIdUnknown (VStr "hero"))])))) = 1%nat
  /\ vehicles_sensors
       (snd (setup_vehicles 3 (Scripted.settings (VBool true) [] Scripted.no_parameters)
               [Scripted.second_known]
               (add_logged (Scripted.fresh [11] [] [])
                  [(Err, CarlaIdUnknown (VStr "hero"))])))
     = [[11]].
Proof. repeat split; reflexivity. Qed.

Lemma spawn_retried_until_accepted_witness :
  rejected 2 Scripted.ego_request (backend (Scripted.fresh [-1; -1; 42] [] [])) = Some 2%nat
  /\ spawn_player 2 Scripted.ego_request Scripted.ego [] (Scripted.fresh [-1; -1; 42] [] [])
     = (OutOfFuel,
        after_spawn_calls (Scripted.fresh [-1; -1; 42] [] []) 2%nat
          [Scripted.ego_request; Scripted.ego_request])
  /\ spawn_player 5 Scripted.ego_request Scripted.ego [] (Scripted.fresh [-1; -1; 42] [] [])
     = bind (setup_player_sensors Scripted.ego 42) (fun _ => ret [42])
            (after_spawn_calls (Scripted.fresh [-1; -1; 42] [] []) 3%nat
               [Scripted.ego_request; Scripted.ego_request; Scripted.ego_request])
  /\ spawn_player 5 Scripted.ego_request Scripted.ego [] (Scripted.fresh [-1; -1; 42] [] [])
     = (Ok [42],
        add_logged
          (after_spawn_calls (Scripted.fresh [-1; -1; 42] [] []) 3%nat
             [Scripted.ego_request; Scripted.ego_request; Scripted.ego_request])
          [(Warn, NoSensorsField)]).
Proof.
  split; [reflexivity|]. split; [|split].
  - apply (proj1 (spawn_retried_until_accepted Scripted.ego_request Scripted.ego []
                    (Scripted.fresh [-1; -1; 42] [] [])) 2%nat 2%nat).
    reflexivity.
  - apply (proj2 (spawn_retried_until_accepted Scripted.ego_request Scripted.ego []
                    (Scripted.fresh [-1; -1; 42] [] []))
             2%nat 2%nat 3%nat {| id := 42; error_string := "rejected" |} 5%nat);
      [reflexivity | reflexivity | discriminate | lia].
  - reflexivity.
Defined.

Lemma classification_partitions_by_type_witness :
  Forall typed [Scripted.camera "front"; Scripted.ego; Scripted.actor_list;
                Scripted.traffic_light]
  /\ classify VNone
       (map VDict [Scripted.camera "front"; Scripted.ego; Scripted.actor_list;
                   Scripted.traffic_light])
       no_entries (Scripted.fresh [] [] [])
     = (Ok {| c_global_sensors := [Scripted.camera "front"; Scripted.actor_list];
              c_vehicles := [Scripted.ego];
              found_sensor_actor_list := false |},
        add_logged (Scripted.fresh [] [] []) [ignored_warning Scripted.traffic_light]).
Proof.
  assert (H : Forall typed [Scripted.camera "front"; Scripted.ego; Scripted.actor_list;
                            Scripted.traffic_light]).
  { repeat constructor; eexists; reflexivity. }
  split; [exact H|].
  exact (proj1 (classification_partitions_by_type VNone _ (Scripted.fresh [] [] []) H)).
Defined.

Lemma sensors_only_needs_actor_list_witness :
  spawn_sensors_only
    (Scripted.settings (VBool true) [VDict (Scripted.camera "front"); VDict Scripted.ego]
       Scripted.no_parameters) = VBool true
  /\ existsb is_actor_list [Scripted.camera "front"; Scripted.ego] = false
  /\ exists n',
      spawn_objects 3
        (Scripted.settings (VBool true) [VDict (Scripted.camera "front"); VDict Scripted.ego]
           Scripted.no_parameters)
        (Scripted.fresh [42] [] []) = (Raise ActorListMissing, n')
      /\ spawn_calls n' = spawn_calls (Scripted.fresh [42] [] [])
      /\ get_actor_calls n' = get_actor_calls (Scripted.fresh [42] [] [])
      /\ destroy_calls n' = destroy_calls (Scripted.fresh [42] [] [])
      /\ backend n' = backend (Scripted.fresh [42] [] []).
Proof.
  split; [reflexivity|]. split; [reflexivity|].
  apply (sensors_only_needs_actor_list 3
           (Scripted.settings (VBool true)
              [VDict (Scripted.camera "front"); VDict Scripted.ego] Scripted.no_parameters)
           [("objects", VList [VDict (Scripted.camera "front"); VDict Scripted.ego])]
           [Scripted.camera "front"; Scripted.ego]
           (Scripted.fresh [42] [] [])); try reflexivity.
  repeat constructor; eexists; reflexivity.
Defined.

Lemma duplicate_sensor_is_skipped_witness :
  derived_name (VDict (Scripted.camera "front")) = Some "sensor.camera.rgb/front"
  /\ setup_sensors
       [VDict (Scripted.camera "front"); VDict (Scripted.camera "front"); VDict Scripted.lidar]
       (VInt 0) (Scripted.fresh [10; 11] [] [])
     = sensors_loop [VDict Scripted.lidar] (VInt 0)
         {| actors := [10]; sensor_names := ["sensor.camera.rgb/front"];
            sensor_name := Some "sensor.camera.rgb/front" |}
         (add_logged
            (snd (sensors_fold [VDict (Scripted.camera "front")] (VInt 0) no_sensors
                    (Scripted.fresh [10; 11] [] [])))
            [(Err, SensorAttributeMissing "sensor.camera.rgb/front" (KeyError "id"))])
  /\ fst (setup_sensors
            [VDict (Scripted.camera "front"); VDict (Scripted.camera "front");
             VDict Scripted.lidar]
            (VInt 0) (Scripted.fresh [10; 11] [] []))
     = Ok [10; 11]
  /\ length (spawn_calls
               (snd (setup_sensors
                       [VDict (Scripted.camera "front"); VDict (Scripted.camera "front");
                        VDict Scripted.lidar]
                       (VInt 0) (Scripted.fresh [10; 11] [] [])))) = 2%nat.
Proof.
  split; [reflexivity|]. split; [|split; reflexivity].
  refine (proj1 (proj2 (proj2 (proj2
    (duplicate_sensor_is_skipped
       [VDict (Scripted.camera "front")] [VDict Scripted.lidar]
       (VDict (Scripted.camera "front")) (VInt 0) "sensor.camera.rgb/front"
       {| actors := [10]; sensor_names := ["sensor.camera.rgb/front"];
          sensor_name := Some "sensor.camera.rgb/front" |}
       (Scripted.fresh [10; 11] [] [])
       (snd (sensors_fold [VDict (Scripted.camera "front")] (VInt 0) no_sensors
               (Scripted.fresh [10; 11] [] [])))
       _ _ _))))).
  - reflexivity.
  - reflexivity.
  - exists (VDict (Scripted.camera "front")). split; [left; reflexivity | reflexivity].
Defined.

Lemma sensors_only_exactly_True_witness :
  VStr "true" <> VBool true
  /\ truthy (VStr "true") = true
  /\ spawn_objects 3
       (Scripted.settings (VStr "true") [VDict Scripted.actor_list; VDict Scripted.ego]
          Scripted.no_parameters)
       (Scripted.fresh [9; 42] [] [])
     = spawn_objects 3
         (with_sensors_only
            (Scripted.settings (VStr "true") [VDict Scripted.actor_list; VDict Scripted.ego]
               Scripted.no_parameters) VNone)
         (Scripted.fresh [9; 42] [] [])
  /\ classify_type (VStr "true") "sensor.pseudo.actor_list" = (ToGlobalSensors, true)
  /\ players (snd (spawn_objects 3
                     (Scripted.settings (VStr "true")
                        [VDict Scripted.actor_list; VDict Scripted.ego]
                        Scripted.no_parameters)
                     (Scripted.fresh [9; 42] [] []))) = [42].
Proof.
  split; [discriminate|]. split; [reflexivity|]. split; [|split].
  - apply (proj1 (proj2 (sensors_only_exactly_True 3
             (Scripted.settings (VStr "true") [VDict Scripted.actor_list; VDict Scripted.ego]
                Scripted.no_parameters)
             (Scripted.fresh [9; 42] [] [])))).
    discriminate.
  - apply (proj1 (proj2 (proj2 (sensors_only_exactly_True 3
             (Scripted.settings (VStr "true") [VDict Scripted.actor_list; VDict Scripted.ego]
                Scripted.no_parameters)
             (Scripted.fresh [9; 42] [] []))))).
    reflexivity.
  - reflexivity.
Defined.

(** ** Further runs *)

Lemma check_spawn_point_param_spec_witness :
  check_spawn_point_param (VStr "1,2,3,0,0,90") = Ok (Scripted.pose 1 2 3 0 0 90)
  /\ check_spawn_point_param (VInt 5) = Raise AttributeError
  /\ check_spawn_point_param (VStr "1,2,3") = Raise (ValueError "1,2,3")
  /\ check_spawn_point_param (VStr "1,2,3,inf,0,0") = Raise (ValueError "math domain error").
Proof.
  split; [|split; [|split]].
  - apply (proj2 (proj1 (@check_spawn_point_param_spec Scripted.floats (VStr "1,2,3,0,0,90"))
                    (Scripted.pose 1 2 3 0 0 90))).
    exists "1,2,3,0,0,90", 1, 2, 3, 0, 0, 90. repeat split; reflexivity.
  - apply (proj1 (proj2 (@check_spawn_point_param_spec Scripted.floats (VInt 5)))).
    intros s. discriminate.
  - apply (proj1 (proj2 (proj2 (@check_spawn_point_param_spec Scripted.floats (VStr "1,2,3")))) "1,2,3").
    + reflexivity.
    + intros H. vm_compute in H. discriminate.
  - apply (proj1 (proj2 (proj2 (proj2 (@check_spawn_point_param_spec Scripted.floats (VStr "1,2,3,inf,0,0")))))
             "1,2,3,inf,0,0" 1 2 3 Scripted.huge 0 0).
    + reflexivity.
    + reflexivity.
    + reflexivity.
Defined.

Lemma create_spawn_point_spec_witness :
  create_spawn_point (VStr "left") VNone (Scripted.num 3)
    (Scripted.num 0) (VInt 0) (VBool true)
  = Ok (@Build_Pose Scripted.floats (VStr "left", VNone, Scripted.num 3) (0, 0, 1, 1))
  /\ create_spawn_point (Scripted.num 1) (Scripted.num 2) (Scripted.num 3)
       (VInt Scripted.huge) (VStr "0") (Scripted.num 0)
     = Raise OverflowError
  /\ create_spawn_point (Scripted.num 1) (Scripted.num 2) (Scripted.num 3)
       (Scripted.num 0) (VStr "0") (VInt Scripted.huge)
     = Raise TypeError
  /\ create_spawn_point (Scripted.num 1) (Scripted.num 2) (Scripted.num 3)
       (Scripted.num 0) (VInt 0) VNone
     = Raise TypeError
  /\ create_spawn_point (Scripted.num 1) (Scripted.num 2) (Scripted.num 3)
       (Scripted.num 0) (Scripted.num Scripted.huge) (Scripted.num 0)
     = Raise (ValueError "math domain error").
Proof.
  split; [|split; [|split; [|split]]].
  - destruct (proj2 (proj2 (proj2
                (create_spawn_point_spec (VStr "left") VNone (Scripted.num 3)
                   (Scripted.num 0) (VInt 0) (VBool true)))) eq_refl eq_refl eq_refl)
      as (r & p & w & Hr & Hp & Hw & H).
    rewrite H. injection Hr as <-. injection Hp as <-. injection Hw as <-. reflexivity.
  - apply (proj1 (create_spawn_point_spec (Scripted.num 1) (Scripted.num 2) (Scripted.num 3)
                    (VInt Scripted.huge) (VStr "0") (Scripted.num 0))).
    reflexivity.
  - apply (proj1 (proj2 (create_spawn_point_spec (Scripted.num 1) (Scripted.num 2)
                           (Scripted.num 3) (Scripted.num 0) (VStr "0")
                           (VInt Scripted.huge)))); reflexivity.
  - apply (proj1 (proj2 (proj2 (create_spawn_point_spec (Scripted.num 1) (Scripted.num 2)
                                  (Scripted.num 3) (Scripted.num 0) (VInt 0) VNone))));
      reflexivity.
  - destruct (proj2 (proj2 (proj2
                (create_spawn_point_spec (Scripted.num 1) (Scripted.num 2) (Scripted.num 3)
                   (Scripted.num 0) (Scripted.num Scripted.huge) (Scripted.num 0))))
                eq_refl eq_refl eq_refl)
      as (r & p & w & Hr & Hp & Hw & H).
    rewrite H. injection Hr as <-. injection Hp as <-. injection Hw as <-. reflexivity.
Defined.

Lemma setup_sensors_ids_witness :
  setup_sensors [VDict (Scripted.camera "front"); VDict Scripted.lidar;
                 VDict (Scripted.camera "rear")]
    (VInt 0) (Scripted.fresh [10; -1; 12] [] [])
  = (Ok [10; 12],
     snd (setup_sensors [VDict (Scripted.camera "front"); VDict Scripted.lidar;
                         VDict (Scripted.camera "rear")]
            (VInt 0) (Scripted.fresh [10; -1; 12] [] [])))
  /\ Forall (fun i => i <> -1) [10; 12]
  /\ (length [10; 12] <= 3)%nat.
Proof.
  split; [reflexivity|].
  exact (setup_sensors_ids
           [VDict (Scripted.camera "front"); VDict Scripted.lidar;
            VDict (Scripted.camera "rear")]
           (VInt 0) (Scripted.fresh [10; -1; 12] [] []) _ [10; 12] eq_refl).
Defined.

Lemma unplaced_sensor_is_skipped_witness :
  spawn_sensor (VDict Scripted.rear_camera) (VInt 0) no_sensors (Scripted.fresh [10] [] [])
  = (Ok {| actors := []; sensor_names := ["sensor.camera.rgb/rear"];
           sensor_name := Some "sensor.camera.rgb/rear" |},
     add_logged (Scripted.fresh [10] [] [])
       [(Err, SensorAttributeMissing "sensor.camera.rgb/rear" (KeyError "spawn_point"))])
  /\ fst (setup_sensors [VDict Scripted.rear_camera; VDict (Scripted.camera "rear")]
            (VInt 0) (Scripted.fresh [10] [] []))
     = Ok [].
Proof.
  split; [|reflexivity].
  exact (proj1 (unplaced_sensor_is_skipped Scripted.rear_camera
                  (VStr "sensor.camera.rgb") (VStr "rear") (VInt 0) no_sensors
                  (Scripted.fresh [10] [] [])
                  eq_refl eq_refl eq_refl eq_refl eq_refl eq_refl)).
Defined.

Lemma unplaced_attached_sensor_request_witness :
  spawn_calls (snd (spawn_sensor (VDict Scripted.speedometer) (VInt 42) no_sensors
                      (Scripted.fresh [10] [] [])))
  = [{| req_type := VStr "sensor.pseudo.speedometer";
        req_id := VStr "speedometer";
        attach_to := VInt 42;
        transform := Scripted.pose 0 0 0 0 0 0;
        random_pose := false;
        attributes := [("reading_frequency", "20")] |}].
Proof.
  exact (unplaced_attached_sensor_request Scripted.speedometer
           (VStr "sensor.pseudo.speedometer") (VStr "speedometer") (VInt 42) no_sensors
           (Scripted.fresh [10] [] [])
           eq_refl eq_refl eq_refl (or_introl eq_refl) eq_refl).
Defined.

Lemma rejected_sensor_is_dropped_witness :
  spawn_sensor (VDict Scripted.lidar) (VInt 0) no_sensors (Scripted.fresh [-1; 11] [] [])
  = (Ok {| actors := []; sensor_names := ["sensor.lidar.ray_cast/lidar"];
           sensor_name := Some "sensor.lidar.ray_cast/lidar" |},
     add_logged
       (after_spawn_calls (Scripted.fresh [-1; 11] [] []) 1%nat
          [{| req_type := VStr "sensor.lidar.ray_cast"; req_id := VStr "lidar";
              attach_to := VInt 0; transform := Scripted.pose 0 0 3 0 0 0;
              random_pose := false; attributes := [] |}])
       [(Err, SensorNotSpawned "sensor.lidar.ray_cast/lidar" (SpawnRejected "rejected"))]).
Proof.
  destruct (rejected_sensor_is_dropped (VDict Scripted.lidar) (VInt 0) no_sensors
              {| actors := []; sensor_names := ["sensor.lidar.ray_cast/lidar"];
                 sensor_name := Some "sensor.lidar.ray_cast/lidar" |}
              {| req_type := VStr "sensor.lidar.ray_cast"; req_id := VStr "lidar";
                 attach_to := VInt 0; transform := Scripted.pose 0 0 3 0 0 0;
                 random_pose := false; attributes := [] |}
              (Scripted.fresh [-1; 11] [] []) eq_refl)
    as (name & Hname & _ & Hrejected & _).
  injection Hname as <-.
  exact (Hrejected 1%nat {| id := -1; error_string := "rejected" |} eq_refl eq_refl).
Defined.

Lemma unnamed_sensor_witness :
  setup_sensors [VDict Scripted.nameless; VDict Scripted.lidar] (VInt 0)
    (Scripted.fresh [10] [] [])
  = (Raise (UnboundLocalError "sensor_name"), Scripted.fresh [10] [] [])
  /\ fst (setup_sensors [VDict Scripted.lidar; VDict Scripted.nameless] (VInt 0)
            (Scripted.fresh [10] [] []))
     = Ok [10].
Proof.
  split; [|reflexivity].
  exact (proj1 (unnamed_sensor (VDict Scripted.nameless) (VInt 0) [VDict Scripted.lidar]
                  (Scripted.fresh [10] [] []) eq_refl)).
Defined.

Lemma lookup_carla_ids_spec_witness :
  lookup_carla_ids [Scripted.ego; Scripted.hero_unknown]
    (Scripted.fresh [] [] [("ego_vehicle", 7); ("hero", 9)])
  = (Ok [(Scripted.ego ++ [("carla_id", VInt 7)])%list;
         (Scripted.hero_unknown ++ [("carla_id", VInt 9)])%list],
     snd (lookup_carla_ids [Scripted.ego; Scripted.hero_unknown]
            (Scripted.fresh [] [] [("ego_vehicle", 7); ("hero", 9)])))
  /\ get_actor_calls
       (snd (lookup_carla_ids [Scripted.ego; Scripted.hero_unknown]
               (Scripted.fresh [] [] [("ego_vehicle", 7); ("hero", 9)])))
     = [VStr "ego_vehicle"; VStr "hero"]
  /\ spawn_calls
       (snd (lookup_carla_ids [Scripted.ego; Scripted.hero_unknown]
               (Scripted.fresh [] [] [("ego_vehicle", 7); ("hero", 9)])))
     = [].
Proof.
  split; [reflexivity|]. split; [reflexivity|].
  exact (proj1 (proj2 (proj2 (lookup_carla_ids_spec
           [Scripted.ego; Scripted.hero_unknown] _
           (Scripted.fresh [] [] [("ego_vehicle", 7); ("hero", 9)]) _ eq_refl)))).
Defined.

Lemma sensors_only_requests_witness :
  spawn_sensors_only (Scripted.settings (VBool true) [] Scripted.no_parameters) = VBool true
  /\ exists reqs,
       spawn_calls
         (snd (setup_vehicles 3 (Scripted.settings (VBool true) [] Scripted.no_parameters)
                 [Scripted.second_known] (Scripted.fresh [11] [] [])))
       = (spawn_calls (Scripted.fresh [11] [] []) ++ reqs)%list
       /\ Forall (attached_to_one_of [Scripted.second_known]) reqs
       /\ (length reqs <= list_sum (map sensor_count [Scripted.second_known]))%nat.
Proof.
  split; [reflexivity|].
  exact (sensors_only_requests 3 (Scripted.settings (VBool true) [] Scripted.no_parameters)
           [Scripted.second_known] (Scripted.fresh [11] [] []) eq_refl).
Defined.

Lemma normal_mode_players_witness :
  setup_vehicles 3 (Scripted.settings VNone [] Scripted.no_parameters)
    [Scripted.ego_with_lidar; Scripted.ego] (Scripted.fresh [-1; 42; 43; -1; 44] [] [])
  = (Ok [42; 44],
     snd (setup_vehicles 3 (Scripted.settings VNone [] Scripted.no_parameters)
            [Scripted.ego_with_lidar; Scripted.ego]
            (Scripted.fresh [-1; 42; 43; -1; 44] [] [])))
  /\ length [42; 44] = 2%nat
  /\ Forall (fun i => i <> -1) [42; 44].
Proof.
  assert (H : setup_vehicles 3 (Scripted.settings VNone [] Scripted.no_parameters)
                [Scripted.ego_with_lidar; Scripted.ego]
                (Scripted.fresh [-1; 42; 43; -1; 44] [] [])
              = (Ok [42; 44],
                 snd (setup_vehicles 3 (Scripted.settings VNone [] Scripted.no_parameters)
                        [Scripted.ego_with_lidar; Scripted.ego]
                        (Scripted.fresh [-1; 42; 43; -1; 44] [] []))))
    by (vm_compute; reflexivity).
  split; [exact H|].
  exact (normal_mode_players 3 (Scripted.settings VNone [] Scripted.no_parameters)
           [Scripted.ego_with_lidar; Scripted.ego]
           (Scripted.fresh [-1; 42; 43; -1; 44] [] []) _ [42; 44] eq_refl H).
Defined.

Lemma players_assigned_on_success_witness :
  fst (spawn_objects 3
         (Scripted.settings VNone [VDict Scripted.ego; VDict Scripted.broken]
            Scripted.no_parameters)
         (Scripted.fresh [42; 43] [] []))
  = Raise (VehiclesFailed (UnboundLocalError "sensor_name"))
  /\ length (spawn_calls
               (snd (spawn_objects 3
                       (Scripted.settings VNone [VDict Scripted.ego; VDict Scripted.broken]
                          Scripted.no_parameters)
                       (Scripted.fresh [42; 43] [] [])))) = 2%nat
  /\ players (snd (spawn_objects 3
                     (Scripted.settings VNone [VDict Scripted.ego; VDict Scripted.broken]
                        Scripted.no_parameters)
                     (Scripted.fresh [42; 43] [] [])))
     = [].
Proof.
  assert (H : fst (spawn_objects 3
                     (Scripted.settings VNone [VDict Scripted.ego; VDict Scripted.broken]
                        Scripted.no_parameters)
                     (Scripted.fresh [42; 43] [] []))
              = Raise (VehiclesFailed (UnboundLocalError "sensor_name")))
    by (vm_compute; reflexivity).
  split; [exact H|]. split; [vm_compute; reflexivity|].
  apply (players_assigned_on_success 3
           (Scripted.settings VNone [VDict Scripted.ego; VDict Scripted.broken]
              Scripted.no_parameters)
           (Scripted.fresh [42; 43] [] [])).
  rewrite H. discriminate.
Defined.

Lemma malformed_entry_stops_spawn_objects_witness :
  entry_error (VDict Scripted.nameless) = Some (KeyError "type")
  /\ spawn_objects 3
       (Scripted.settings VNone
          [VDict Scripted.traffic_light; VDict Scripted.ego; VDict Scripted.nameless;
           VDict (Scripted.camera "front")]
          Scripted.no_parameters)
       (Scripted.fresh [42] [] [])
     = (Raise (KeyError "type"),
        add_logged (Scripted.fresh [42] [] []) [ignored_warning Scripted.traffic_light]).
Proof.
  split; [reflexivity|].
  apply (malformed_entry_stops_spawn_objects 3
           (Scripted.settings VNone
              [VDict Scripted.traffic_light; VDict Scripted.ego; VDict Scripted.nameless;
               VDict (Scripted.camera "front")]
              Scripted.no_parameters)
           [("objects", VList [VDict Scripted.traffic_light; VDict Scripted.ego;
                               VDict Scripted.nameless; VDict (Scripted.camera "front")])]
           [Scripted.traffic_light; Scripted.ego] (VDict Scripted.nameless)
           [VDict (Scripted.camera "front")] (KeyError "type")
           (Scripted.fresh [42] [] [])); try reflexivity.
  repeat constructor; eexists; reflexivity.
Defined.

Lemma malformed_vehicle_stops_setup_vehicles_witness :
  vehicle_error Scripted.numbered = Some TypeError
  /\ setup_vehicles 3 (Scripted.settings VNone [] Scripted.no_parameters)
       [Scripted.numbered; Scripted.ego] (Scripted.fresh [42] [] [])
     = (Raise TypeError, Scripted.fresh [42] [] []).
Proof.
  split; [reflexivity|].
  exact (malformed_vehicle_stops_setup_vehicles 3
           (Scripted.settings VNone [] Scripted.no_parameters)
           Scripted.numbered [Scripted.ego] TypeError (Scripted.fresh [42] [] [])
           eq_refl eq_refl).
Defined.

Lemma spawned_player_requests_witness :
  exists i k reqs,
    [5; 42] = ([5] ++ [i])%list
    /\ i <> -1
    /\ spawn_calls
         (snd (spawn_player 4 Scripted.ego_request Scripted.ego_with_lidar [5]
                 (Scripted.fresh [-1; 42; 43] [] [])))
       = (spawn_calls (Scripted.fresh [-1; 42; 43] [] [])
          ++ repeat Scripted.ego_request (S k) ++ reqs)%list
    /\ Forall (fun r => random_pose r = false /\ attach_to r = VInt i) reqs
    /\ (length reqs <= sensor_count Scripted.ego_with_lidar)%nat.
Proof.
  assert (H : spawn_player 4 Scripted.ego_request Scripted.ego_with_lidar [5]
                (Scripted.fresh [-1; 42; 43] [] [])
              = (Ok [5; 42],
                 snd (spawn_player 4 Scripted.ego_request Scripted.ego_with_lidar [5]
                        (Scripted.fresh [-1; 42; 43] [] []))))
    by (vm_compute; reflexivity).
  exact (spawned_player_requests 4 Scripted.ego_request Scripted.ego_with_lidar [5] [5; 42]
           (Scripted.fresh [-1; 42; 43] [] []) _ H).
Defined.

Lemma spawn_objects_records_real_ids_witness :
  clean (Scripted.fresh [10; -1; 42; 43] [] [])
  /\ clean (snd (spawn_objects 3
                   (Scripted.settings VNone
                      [VDict (Scripted.camera "front"); VDict Scripted.lidar;
                       VDict Scripted.ego_with_lidar]
                      Scripted.no_parameters)
                   (Scripted.fresh [10; -1; 42; 43] [] [])))
  /\ recorded (snd (spawn_objects 3
                      (Scripted.settings VNone
                         [VDict (Scripted.camera "front"); VDict Scripted.lidar;
                          VDict Scripted.ego_with_lidar]
                         Scripted.no_parameters)
                      (Scripted.fresh [10; -1; 42; 43] [] [])))
     = [10; 43; 42].
Proof.
  assert (Hc : clean (Scripted.fresh [10; -1; 42; 43] [] [])).
  { repeat split; constructor. }
  split; [exact Hc|]. split; [|vm_compute; reflexivity].
  exact (spawn_objects_records_real_ids 3 _ (Scripted.fresh [10; -1; 42; 43] [] []) Hc).
Defined.

Lemma teardown_of_real_ids_witness :
  clean (Scripted.fresh [10; -1; 42; 43] [] [])
  /\ exists ids,
       destroy_calls
         (snd (destroy
                 (snd (spawn_objects 3
                         (Scripted.settings VNone
                            [VDict (Scripted.camera "front"); VDict Scripted.lidar;
                             VDict Scripted.ego_with_lidar]
                            Scripted.no_parameters)
                         (Scripted.fresh [10; -1; 42; 43] [] [])))))
       = (destroy_calls (Scripted.fresh [10; -1; 42; 43] [] []) ++ ids)%list
       /\ Forall real_id ids
       /\ recorded
            (snd (destroy
                    (snd (spawn_objects 3
                            (Scripted.settings VNone
                               [VDict (Scripted.camera "front"); VDict Scripted.lidar;
                                VDict Scripted.ego_with_lidar]
                               Scripted.no_parameters)
                            (Scripted.fresh [10; -1; 42; 43] [] [])))))
          = [].
Proof.
  assert (Hc : clean (Scripted.fresh [10; -1; 42; 43] [] [])).
  { repeat split; constructor. }
  split; [exact Hc|].
  exact (teardown_of_real_ids 3 _ (Scripted.fresh [10; -1; 42; 43] [] []) Hc).
Defined.
